(** * GeoNode remote sensor services: SOS and SensorThings (STA) harvesting

    A shallow embedding of
    [geonode/services/serviceprocessors/sos.py] and
    [geonode/services/serviceprocessors/sta.py]:
    the client factories, the paginated STA collection fetch, the
    per-resource normalisation ([_get_indexed_dataset_fields]) and the
    harvest workflow ([harvest_resource]).

    Python values that come from the remote side are dynamically typed, so
    they are embedded as a [json] tree and every Python operation that can
    raise returns a [result].  Collaborators that live outside the two
    modules (the HTTP client, [urllib.parse], Django's [slugify], the
    catalog) are fields of type classes; the definitions below are
    parametric in them. *)

From Stdlib Require Import List String Ascii Bool Arith ZArith QArith Lia Permutation.
Import ListNotations.

Set Warnings "-register-all".
Local Open Scope list_scope.
Local Open Scope string_scope.

(* ===================================================================== *)
(** ** Python values, exceptions and the error monad                      *)
(* ===================================================================== *)

Module Py.

(** The exceptions the two modules can raise or let through.  [External]
    stands for an exception raised inside a collaborator.  [OutOfFuel] is
    not a Python exception: a [while] loop is unrolled at most [fuel]
    times, and this outcome marks that the bound was reached. *)
Inductive exn : Type :=
| KeyError (key : string)
| TypeError
| ValueError
| IndexError
| AttributeError (attr : string)
| RuntimeError (msg : string)
| NotImplementedError (msg : string)
| External (what : string)
| OutOfFuel.

Inductive result (A : Type) : Type :=
| Ok (a : A)
| Raise (e : exn).
Arguments Ok {A} a.
Arguments Raise {A} e.

Definition bind {A B : Type} (c : result A) (k : A -> result B) : result B :=
  match c with
  | Ok a => k a
  | Raise e => Raise e
  end.

Definition is_ok {A : Type} (c : result A) : bool :=
  match c with Ok _ => true | Raise _ => false end.

(** A value decoded from JSON: [None], [bool], a number, [str], [list],
    [dict].  A [dict] keeps its insertion order, so it is an association
    list; lookups take the first binding of a key.  Numbers are the
    rationals they denote. *)
Inductive json : Type :=
| JNull
| JBool (b : bool)
| JNum (q : Q)
| JStr (s : string)
| JArr (items : list json)
| JObj (members : list (string * json)).

(** [v is None] *)
Definition is_None (v : json) : bool :=
  match v with JNull => true | _ => false end.

Fixpoint assoc {A : Type} (k : string) (m : list (string * A)) : option A :=
  match m with
  | [] => None
  | (k', v) :: m' => if String.eqb k k' then Some v else assoc k m'
  end.

Definition has_key {A : Type} (k : string) (m : list (string * A)) : bool :=
  match assoc k m with Some _ => true | None => false end.

(** [needle in haystack] on two [str]: substring test. *)
Fixpoint is_substring (needle hay : string) : bool :=
  if String.prefix needle hay then true
  else match hay with
       | EmptyString => false
       | String _ hay' => is_substring needle hay'
       end.

(** Python [==] on the hashable JSON scalars ([True == 1], [1 == 1.0]). *)
Definition as_number (v : json) : option Q :=
  match v with
  | JBool true => Some 1%Q
  | JBool false => Some 0%Q
  | JNum q => Some q
  | _ => None
  end.

Definition scalar_eqb (a b : json) : bool :=
  match a, b with
  | JNull, JNull => true
  | JStr s, JStr t => String.eqb s t
  | _, _ =>
      match as_number a, as_number b with
      | Some p, Some q => Qeq_bool p q
      | _, _ => false
      end
  end.

(** [v[k]] for a [str] key [k]. *)
Definition getitem (k : string) (v : json) : result json :=
  match v with
  | JObj m => match assoc k m with
              | Some x => Ok x
              | None => Raise (KeyError k)
              end
  | _ => Raise TypeError
  end.

(** [k in v] for a [str] [k]: keys of a [dict], elements of a [list],
    substrings of a [str]; other values are not iterable. *)
Definition contains (k : string) (v : json) : result bool :=
  match v with
  | JObj m => Ok (has_key k m)
  | JArr l => Ok (existsb (scalar_eqb (JStr k)) l)
  | JStr s => Ok (is_substring k s)
  | _ => Raise TypeError
  end.

Fixpoint chars (s : string) : list string :=
  match s with
  | EmptyString => []
  | String c s' => String c EmptyString :: chars s'
  end.

(** [for x in v]: the items a Python loop over [v] visits. *)
Definition iter (v : json) : result (list json) :=
  match v with
  | JArr l => Ok l
  | JObj m => Ok (map (fun kv => JStr (fst kv)) m)
  | JStr s => Ok (map JStr (chars s))
  | _ => Raise TypeError
  end.

(** [s.__add__(v)]: concatenation for a [str]; for any other value
    [str.__add__] raises [TypeError] ("can only concatenate str"). *)
Definition str_add (s : string) (v : json) : result string :=
  match v with
  | JStr t => Ok (s ++ t)
  | _ => Raise TypeError
  end.

(** [s[:n]] on a [str]. *)
Fixpoint truncate (n : nat) (s : string) : string :=
  match n, s with
  | S n', String c s' => String c (truncate n' s')
  | _, _ => EmptyString
  end.

(** Whether a value can be a member of a [set]. *)
Definition hashable (v : json) : bool :=
  match v with
  | JArr _ | JObj _ => false
  | _ => true
  end.

(** A [set] of hashable values, listed without repetition.  Python leaves
    the iteration order of a set unspecified; the list is in insertion
    order and statements about it are taken up to permutation. *)
Definition set_add (x : json) (s : list json) : list json :=
  if existsb (scalar_eqb x) s then s else s ++ [x].

(** [s.update(xs)]: raises at the first unhashable item. *)
Fixpoint set_update (s xs : list json) : result (list json) :=
  match xs with
  | [] => Ok s
  | x :: xs' => if hashable x then set_update (set_add x s) xs' else Raise TypeError
  end.

(** [v[:n]] for a member of a set of keywords: a [str] is cut, the other
    hashable values cannot be sliced. *)
Definition slice_to (n : nat) (v : json) : result json :=
  match v with
  | JStr s => Ok (JStr (truncate n s))
  | _ => Raise TypeError
  end.

(** [[f(x) for x in xs]] for an [f] that can raise. *)
Fixpoint traverse {A B : Type} (f : A -> result B) (xs : list A) : result (list B) :=
  match xs with
  | [] => Ok []
  | x :: xs' =>
      match f x with
      | Raise e => Raise e
      | Ok y => match traverse f xs' with
                | Raise e => Raise e
                | Ok ys => Ok (y :: ys)
                end
      end
  end.

(** [min(l)] and [max(l)]: the first smallest (largest) item;
    [ValueError] on an empty list. *)
Definition Qlt_bool (a b : Q) : bool := negb (Qle_bool b a).

Definition py_min (l : list Q) : result Q :=
  match l with
  | [] => Raise ValueError
  | x :: t => Ok (fold_left (fun m y => if Qlt_bool y m then y else m) t x)
  end.

Definition py_max (l : list Q) : result Q :=
  match l with
  | [] => Raise ValueError
  | x :: t => Ok (fold_left (fun m y => if Qlt_bool m y then y else m) t x)
  end.

(** [l[i]] on a list. *)
Definition index {A : Type} (i : nat) (l : list A) : result A :=
  match nth_error l i with
  | Some x => Ok x
  | None => Raise IndexError
  end.

(** Structural equality of two values. *)
Fixpoint json_eqb (a b : json) : bool :=
  match a, b with
  | JNull, JNull => true
  | JBool x, JBool y => Bool.eqb x y
  | JNum p, JNum q => Z.eqb (Qnum p) (Qnum q) && Pos.eqb (Qden p) (Qden q)
  | JStr s, JStr t => String.eqb s t
  | JArr l, JArr m =>
      (fix all2 (l m : list json) : bool :=
         match l, m with
         | [], [] => true
         | x :: l', y :: m' => json_eqb x y && all2 l' m'
         | _, _ => false
         end) l m
  | JObj l, JObj m =>
      (fix all2 (l m : list (string * json)) : bool :=
         match l, m with
         | [], [] => true
         | (j, x) :: l', (k, y) :: m' => String.eqb j k && json_eqb x y && all2 l' m'
         | _, _ => false
         end) l m
  | _, _ => false
  end.

End Py.
Export Py.

Declare Scope py_scope.
Delimit Scope py_scope with py.
Notation "x <- c ;; k" := (bind c (fun x => k))
  (at level 61, c at next level, right associativity) : py_scope.
Notation "' pat <- c ;; k" := (bind c (fun x => match x with pat => k end))
  (at level 61, pat pattern, c at next level, right associativity) : py_scope.
Local Open Scope py_scope.

(* ===================================================================== *)
(** ** Strings                                                            *)
(* ===================================================================== *)

Module Str.

(** [s.split(c)] for a one-character separator. *)
Fixpoint split_on (c : ascii) (s : string) : list string :=
  match s with
  | EmptyString => [EmptyString]
  | String a s' =>
      if Ascii.eqb a c then EmptyString :: split_on c s'
      else match split_on c s' with
           | [] => [String a EmptyString]
           | w :: ws => String a w :: ws
           end
  end.

(** [c in s] for a character. *)
Fixpoint has_char (c : ascii) (s : string) : bool :=
  match s with
  | EmptyString => false
  | String a s' => Ascii.eqb a c || has_char c s'
  end.

(** [s.rstrip(c)] for a one-character argument. *)
Fixpoint rstrip (c : ascii) (s : string) : string :=
  match s with
  | EmptyString => EmptyString
  | String a s' =>
      match rstrip c s' with
      | EmptyString => if Ascii.eqb a c then EmptyString else String a EmptyString
      | t => String a t
      end
  end.

(** [s.startswith(p)] *)
Definition startswith (p s : string) : bool := String.prefix p s.

(** [sep.join(parts)] *)
Definition join (sep : string) (parts : list string) : string :=
  String.concat sep parts.

(** [p] occurs in [s]: some text before, [p], some text after. *)
Definition names (s p : string) : Prop :=
  exists before after : string, s = before ++ p ++ after.

End Str.

(* ===================================================================== *)
(** ** The SensorThings client ([BaseSensorThingsService])                *)
(* ===================================================================== *)

(** [owslib.util.http_get(url, headers, auth).json()]: the decoded body of
    the response to a GET on [url], or the exception the transport or the
    decoder raised.  The argument is the Python value the caller passes. *)
Class Remote : Type := {
  http_get_json : json -> result json
}.

(** [urllib.parse]. *)
Record ParseResult : Type := {
  scheme : string;
  netloc : string;
  path : string;
  params : string;
  query : string;
  fragment : string
}.

Class UrlLib : Type := {
  unquote : string -> string;
  urlparse : string -> result ParseResult;
  urlunparse : ParseResult -> string;
  (** [parse_qsl(qs)] with its default arguments *)
  parse_qsl : string -> list (string * string);
  (** [urlencode(d, doseq=True)] on the items of a [dict] of [str] *)
  urlencode : list (string * string) -> string;
  (** [quote(s, safe='')] *)
  quote : string -> string
}.

(** [ParseResult.geturl()] *)
Definition geturl {U : UrlLib} (p : ParseResult) : string := urlunparse p.

(** [x in l] for a list of [str]. *)
Definition in_list (x : string) (l : list string) : bool :=
  existsb (String.eqb x) l.

(** [not proxy_base]: [None] and the empty string are false. *)
Definition falsy (proxy_base : option string) : bool :=
  match proxy_base with
  | None => true
  | Some EmptyString => true
  | Some _ => false
  end.

(** Collaborators inside the platform: Django, GeoNode helpers outside the
    two modules, [geojson], and the settings the handlers read. *)
Class Platform : Type := {
  (** what [BBOXHelper.from_xy(xy).as_polygon()] builds *)
  polygon : Type;
  (** [django.template.defaultfilters.slugify] *)
  slugify : string -> string;
  (** [BBOXHelper.from_xy(xy).as_polygon()] *)
  from_xy_as_polygon : list json -> result polygon;
  (** [geonode.services.utils.decimal_encode]: a list, or [None] *)
  decimal_encode : json -> result (option (list json));
  (** [geojson.loads(json.dumps(feature)).coordinates] of a point
      geometry: its numbers *)
  feature_coordinates : json -> result (list Q);
  (** how an f-string renders a value that is not a [str] *)
  format_value : json -> string;
  (** [geonode.base.enumerations.SOURCE_TYPE_REMOTE] *)
  SOURCE_TYPE_REMOTE : string;
  (** [settings.RESOURCE_PUBLISHING], [settings.ADMIN_MODERATE_UPLOADS] *)
  RESOURCE_PUBLISHING : bool;
  ADMIN_MODERATE_UPLOADS : bool;
  (** [settings.OGC_SERVER['default'].get('TIMEOUT', 60)] *)
  OGC_SERVER_TIMEOUT : Z
}.

(** A value inside an f-string. *)
Definition format {P : Platform} (v : json) : string :=
  match v with
  | JStr s => s
  | _ => format_value v
  end.

(** [''.join(c for c in v if ord(c) < 128)]: [v] is iterated, [ord]
    accepts a one-character [str] only. *)
Fixpoint ascii_only_items (items : list json) : result string :=
  match items with
  | [] => Ok ""
  | JStr (String c EmptyString) :: rest =>
      tail <- ascii_only_items rest ;;
      Ok (if (nat_of_ascii c <? 128)%nat then String c tail else tail)
  | _ :: _ => Raise TypeError
  end.

Definition ascii_only (v : json) : result string :=
  items <- iter v ;; ascii_only_items items.

(** *** The catalog *)

(** [geonode.services.models.Service], as far as the handlers read it. *)
Inductive indexing_method : Type := INDEXED | CASCADED.

Record op_method : Type := {
  method_type : option string;
  method_url : option string
}.

Record Service : Type := {
  service_owner : string;
  service_name : string;
  service_method : indexing_method;
  service_url : string;
  service_ptype : option string;
  (** [operations[name]['methods']] *)
  service_operations : list (string * option (list op_method))
}.

Section Catalog.
Context {P : Platform}.

(** The dictionary [_get_indexed_dataset_fields] returns.  The two
    temporal keys exist for SOS only. *)
Record fields : Type := {
  f_name : json;
  f_store : string;
  f_subtype : string;
  f_workspace : string;
  f_typename : string;
  f_alternate : json;
  f_title : json;
  f_abstract : json;
  f_bbox_polygon : polygon;
  f_srid : json;
  f_keywords : list json;
  f_temporal_extent_start : option json;
  f_temporal_extent_end : option json
}.

(** Modelled from the spec: the catalog persistence capability
    ([Dataset.objects], [resource_manager], [Link.objects]) is outside the
    two modules.  A dataset row holds the [defaults] it was created with,
    the keywords set afterwards and whether permissions were set. *)
Record Dataset : Type := {
  ds_id : nat;
  ds_name : json;
  ds_store : string;
  ds_workspace : string;
  ds_subtype : string;
  ds_typename : string;
  ds_alternate : json;
  ds_title : json;
  ds_abstract : json;
  ds_bbox_polygon : polygon;
  ds_srid : json;
  ds_temporal_extent_start : option json;
  ds_temporal_extent_end : option json;
  ds_is_approved : bool;
  ds_is_published : bool;
  ds_owner : string;
  ds_remote_service : string;
  ds_remote_typename : string;
  ds_sourcetype : string;
  ds_ptype : option string;
  ds_ows_url : option string;
  ds_keywords : list json;
  ds_permissions_set : bool
}.

Record Link : Type := {
  link_resource : nat;
  link_name : string;
  link_type : string;
  link_extension : string;
  link_url : option string;
  link_mime : string
}.

Record catalog : Type := {
  datasets : list Dataset;
  links : list Link
}.

(** A computation that reads and writes the catalog and can raise; what
    was written before an exception stays written. *)
Definition io (A : Type) : Type := catalog -> result A * catalog.

(** Modelled from the spec: [exists(name, store, workspace)], that is
    [Dataset.objects.filter(name=, store=, workspace=).exists()]. *)
Definition same_key (n : json) (st ws : string) (d : Dataset) : bool :=
  json_eqb (ds_name d) n && String.eqb (ds_store d) st && String.eqb (ds_workspace d) ws.

Definition dataset_exists (n : json) (st ws : string) (cat : catalog) : bool :=
  existsb (same_key n st ws) (datasets cat).

Definition fresh_id (cat : catalog) : nat :=
  S (fold_right Nat.max 0%nat (map ds_id (datasets cat))).

(** Modelled from the spec: [create(defaults)], that is
    [resource_manager.create(None, resource_type=Dataset, defaults=)]:
    one new row under a fresh id. *)
Definition resource_manager_create (row : nat -> Dataset) (cat : catalog)
  : Dataset * catalog :=
  let d := row (fresh_id cat) in
  (d, {| datasets := datasets cat ++ [d]; links := links cat |}).

Definition with_keywords (kws : list json) (d : Dataset) : Dataset :=
  {| ds_id := ds_id d; ds_name := ds_name d; ds_store := ds_store d;
     ds_workspace := ds_workspace d; ds_subtype := ds_subtype d;
     ds_typename := ds_typename d; ds_alternate := ds_alternate d;
     ds_title := ds_title d; ds_abstract := ds_abstract d;
     ds_bbox_polygon := ds_bbox_polygon d; ds_srid := ds_srid d;
     ds_temporal_extent_start := ds_temporal_extent_start d;
     ds_temporal_extent_end := ds_temporal_extent_end d;
     ds_is_approved := ds_is_approved d; ds_is_published := ds_is_published d;
     ds_owner := ds_owner d; ds_remote_service := ds_remote_service d;
     ds_remote_typename := ds_remote_typename d; ds_sourcetype := ds_sourcetype d;
     ds_ptype := ds_ptype d; ds_ows_url := ds_ows_url d;
     ds_keywords := kws; ds_permissions_set := ds_permissions_set d |}.

Definition with_permissions (d : Dataset) : Dataset :=
  {| ds_id := ds_id d; ds_name := ds_name d; ds_store := ds_store d;
     ds_workspace := ds_workspace d; ds_subtype := ds_subtype d;
     ds_typename := ds_typename d; ds_alternate := ds_alternate d;
     ds_title := ds_title d; ds_abstract := ds_abstract d;
     ds_bbox_polygon := ds_bbox_polygon d; ds_srid := ds_srid d;
     ds_temporal_extent_start := ds_temporal_extent_start d;
     ds_temporal_extent_end := ds_temporal_extent_end d;
     ds_is_approved := ds_is_approved d; ds_is_published := ds_is_published d;
     ds_owner := ds_owner d; ds_remote_service := ds_remote_service d;
     ds_remote_typename := ds_remote_typename d; ds_sourcetype := ds_sourcetype d;
     ds_ptype := ds_ptype d; ds_ows_url := ds_ows_url d;
     ds_keywords := ds_keywords d; ds_permissions_set := true |}.

Definition with_ows_url (u : option string) (d : Dataset) : Dataset :=
  {| ds_id := ds_id d; ds_name := ds_name d; ds_store := ds_store d;
     ds_workspace := ds_workspace d; ds_subtype := ds_subtype d;
     ds_typename := ds_typename d; ds_alternate := ds_alternate d;
     ds_title := ds_title d; ds_abstract := ds_abstract d;
     ds_bbox_polygon := ds_bbox_polygon d; ds_srid := ds_srid d;
     ds_temporal_extent_start := ds_temporal_extent_start d;
     ds_temporal_extent_end := ds_temporal_extent_end d;
     ds_is_approved := ds_is_approved d; ds_is_published := ds_is_published d;
     ds_owner := ds_owner d; ds_remote_service := ds_remote_service d;
     ds_remote_typename := ds_remote_typename d; ds_sourcetype := ds_sourcetype d;
     ds_ptype := ds_ptype d; ds_ows_url := u;
     ds_keywords := ds_keywords d; ds_permissions_set := ds_permissions_set d |}.

(** Apply [f] to the rows whose id is [i]. *)
Definition alter_dataset (i : nat) (f : Dataset -> Dataset) (cat : catalog) : catalog :=
  {| datasets := map (fun d => if Nat.eqb (ds_id d) i then f d else d) (datasets cat);
     links := links cat |}.

(** Modelled from the spec: [setKeywords(handle, set)], that is
    [resource_manager.update(uuid, instance=, keywords=, notify=True)]. *)
Definition resource_manager_update (d : Dataset) (kws : list json) (cat : catalog)
  : catalog :=
  alter_dataset (ds_id d) (with_keywords kws) cat.

(** Modelled from the spec: [setPermissions(handle)]. *)
Definition resource_manager_set_permissions (d : Dataset) (cat : catalog) : catalog :=
  alter_dataset (ds_id d) with_permissions cat.

(** Modelled from the spec: the catalog's update of one column,
    [Dataset.objects.filter(id=).update(ows_url=)]. *)
Definition dataset_update_ows_url (d : Dataset) (u : option string) (cat : catalog)
  : catalog :=
  alter_dataset (ds_id d) (with_ows_url u) cat.

Definition link_matches (r : nat) (n t : string) (l : Link) : bool :=
  Nat.eqb (link_resource l) r && String.eqb (link_name l) n && String.eqb (link_type l) t.

(** Modelled from the spec: the number of link records of a resource,
    [Link.objects.filter(resource=, name=, link_type=).count()]. *)
Definition link_count (r : nat) (n t : string) (cat : catalog) : nat :=
  List.length (filter (link_matches r n t) (links cat)).

(** Modelled from the spec: [linkResource(handle, linkMetadata)], that is
    [Link.objects.update_or_create(resource=, name=, link_type=,
    defaults=)]: the matching row takes the defaults, or a row is added. *)
Definition link_update_or_create (r : nat) (n t : string)
    (extension : string) (u : option string) (mime : string) (cat : catalog) : catalog :=
  let l := {| link_resource := r; link_name := n; link_type := t;
              link_extension := extension; link_url := u; link_mime := mime |} in
  {| datasets := datasets cat;
     links := if existsb (link_matches r n t) (links cat)
              then map (fun x => if link_matches r n t x then l else x) (links cat)
              else links cat ++ [l] |}.

Definition io_ret {A : Type} (a : A) : io A := fun cat => (Ok a, cat).

Definition io_bind {A B : Type} (c : io A) (k : A -> io B) : io B :=
  fun cat =>
    match c cat with
    | (Ok a, cat') => k a cat'
    | (Raise e, cat') => (Raise e, cat')
    end.

(** A computation that does not touch the catalog. *)
Definition io_lift {A : Type} (c : result A) : io A := fun cat => (c, cat).

(** A catalog write that cannot fail. *)
Definition io_write (f : catalog -> catalog) : io unit := fun cat => (Ok tt, f cat).

Definition io_read {A : Type} (f : catalog -> A) : io A := fun cat => (Ok (f cat), cat).

Definition already_harvested (resource_id : string) : string :=
  "Resource " ++ resource_id ++ " has already been harvested".

Definition bbox_not_valid (bbox : list json) : string :=
  "Resource BBOX is not valid: " ++ format (JArr bbox).

(** Modelled from the spec: a call of the catalog capability can fail,
    and what was written before stays (4.4: a resource created in
    [CREATING] is not deleted when [LINKING] later fails).  [Faults] names,
    for each call and the catalog it meets, the exception it raises, if
    any; a call that raises leaves the catalog as it met it. *)
Record Faults : Type := {
  exists_fault : catalog -> option exn;
  create_fault : catalog -> option exn;
  update_fault : catalog -> option exn;
  set_permissions_fault : catalog -> option exn;
  update_ows_url_fault : catalog -> option exn;
  link_count_fault : catalog -> option exn;
  link_fault : catalog -> option exn
}.

(** The catalog none of whose calls fails. *)
Definition no_faults : Faults :=
  {| exists_fault := fun _ => None;
     create_fault := fun _ => None;
     update_fault := fun _ => None;
     set_permissions_fault := fun _ => None;
     update_ows_url_fault := fun _ => None;
     link_count_fault := fun _ => None;
     link_fault := fun _ => None |}.

(** A catalog call under its fault. *)
Definition io_try {A : Type} (fault : catalog -> option exn) (c : io A) : io A :=
  fun cat =>
    match fault cat with
    | Some e => (Raise e, cat)
    | None => c cat
    end.

(** [create(defaults)] as a computation. *)
Definition io_create (row : nat -> Dataset) : io Dataset :=
  fun cat => let '(d, cat) := resource_manager_create row cat in (Ok d, cat).

End Catalog.

Declare Scope io_scope.
Delimit Scope io_scope with io.
Notation "x <~ c ;; k" := (io_bind c (fun x => k))
  (at level 61, c at next level, right associativity) : io_scope.
Local Open Scope io_scope.

Module Sta.

Definition DATASTREAMS := "Datastreams".
Definition FEATURES_OF_INTEREST := "FeaturesOfInterest".
Definition OBSERVED_PROPERTIES := "ObservedProperties".
Definition SENSORS := "Sensors".
Definition THINGS := "Things".
Definition FILTER_OBSERVATION_DATASTREAM_ID_EQ := "?$filter=Observations/Datastream/id eq '".
Definition FILTER_DATASTREAMS_ID_EQ := "?$filter=Datastreams/id eq '".
Definition SELECT_ID_NAME := "$select=id,name".
Definition VALUE := "value".
Definition NAME := "name".
Definition DESCRIPTION := "description".
Definition IOT_ID := "@iot.id".
Definition IOT_NEXT_LINK := "@iot.nextLink".

(** The attributes [__init__] sets. *)
Record BaseSensorThingsService : Type := {
  self_url : string;
  self_url_query_string : option string;
  self_timeout : Z;
  self_datastreams : json;
  self_lastUpdate : option Z
}.

(** [BaseSensorThingsService.__init__]: a URL with a ['?'] is split at it
    into exactly two parts (the tuple assignment raises otherwise); a URL
    without one gets a single trailing slash. *)
Definition init (url : string) (timeout : Z) : result BaseSensorThingsService :=
  if Str.has_char "?" url then
    match Str.split_on "?" url with
    | [u; q] =>
        Ok {| self_url := u; self_url_query_string := Some q;
              self_timeout := timeout; self_datastreams := JNull;
              self_lastUpdate := None |}
    | _ => Raise ValueError
    end
  else
    Ok {| self_url := Str.rstrip "/" url ++ "/"; self_url_query_string := None;
          self_timeout := timeout; self_datastreams := JNull;
          self_lastUpdate := None |}.

Section Client.
Context {remote : Remote}.

(** [__get_json_data] *)
Definition get_json_data (url : json) : result json := http_get_json url.

(** [.json()] called on a value that [__get_json_data] returned.  That
    value is already the decoded body (a [dict], [list], [str], number,
    [bool] or [None]) and none of these has a [json] attribute. *)
Definition call_json (v : json) : result json := Raise (AttributeError "json").

(** [__get_value] *)
Definition get_value (key : string) (response : json) : result json :=
  present <- contains key response ;;
  if present : bool then getitem key response else Ok JNull.

(** [__get_next_link] *)
Definition get_next_link (response : json) : result json :=
  get_value IOT_NEXT_LINK response.

(** [elements.extend(temp)]: only a [list] has [extend]; [temp] is
    iterated. *)
Definition extend (elements temp : json) : result json :=
  match elements with
  | JArr l => items <- iter temp ;; Ok (JArr (l ++ items))
  | _ => Raise (AttributeError "extend")
  end.

(** The [while nextLink is not None] loop of [__get_elements]. *)
Fixpoint follow_next_links (fuel : nat) (elements nextLink : json) : result json :=
  if is_None nextLink then Ok elements
  else
    match fuel with
    | O => Raise OutOfFuel
    | S fuel' =>
        data <- get_json_data nextLink ;;
        response <- call_json data ;;
        if negb (is_None response) then
          nextLink' <- get_next_link response ;;
          temp <- get_value VALUE response ;;
          elements' <- extend elements temp ;;
          follow_next_links fuel' elements' nextLink'
        else follow_next_links fuel' elements nextLink
    end.

(** [__get_elements]; a missing [return] gives [None]. *)
Definition get_elements (fuel : nat) (url : string) : result json :=
  response <- get_json_data (JStr url) ;;
  if negb (is_None response) then
    elements <- get_value VALUE response ;;
    nextLink <- get_next_link response ;;
    if negb (is_None elements) then follow_next_links fuel elements nextLink
    else Ok JNull
  else Ok JNull.

(** [__get_name] *)
Fixpoint get_name_items (items : list json) : result (list json) :=
  match items with
  | [] => Ok []
  | item :: rest =>
      n <- getitem NAME item ;;
      v <- (if negb (is_None n) then getitem NAME item else getitem IOT_ID item) ;;
      vs <- get_name_items rest ;;
      Ok (v :: vs)
  end.

Definition get_name (data : json) : result (list json) :=
  items <- iter data ;; get_name_items items.

(** The two URLs of [__get_by_identifier]: the identifier between quotes,
    and bare. *)
Definition quoted_url (self : BaseSensorThingsService) (resource identifier : string)
  : json :=
  JStr (self_url self ++ resource ++ "('" ++ identifier ++ "')").

Definition unquoted_url (self : BaseSensorThingsService) (resource identifier : string)
  : json :=
  JStr (self_url self ++ resource ++ "(" ++ identifier ++ ")").

(** [__get_by_identifier] *)
Definition get_by_identifier (self : BaseSensorThingsService)
    (resource identifier : string) : result json :=
  data <- get_json_data (quoted_url self resource identifier) ;;
  err <- getitem "error" data ;;
  if negb (is_None err) then get_json_data (unquoted_url self resource identifier)
  else Ok data.

(** [getDatastream] *)
Definition getDatastream (self : BaseSensorThingsService) (identifier : string)
  : result json :=
  get_by_identifier self DATASTREAMS identifier.

(** [__update_datastreams]; [now] is [datetime.now()] in seconds. *)
Definition update_datastreams (fuel : nat) (now : Z) (self : BaseSensorThingsService)
  : result BaseSensorThingsService :=
  ds <- get_elements fuel (self_url self ++ DATASTREAMS) ;;
  Ok {| self_url := self_url self;
        self_url_query_string := self_url_query_string self;
        self_timeout := self_timeout self;
        self_datastreams := ds;
        self_lastUpdate := Some now |}.

(** [getDatastreams]: the listing is fetched when none is held or when
    the held one is older than an hour. *)
Definition getDatastreams (fuel : nat) (now : Z) (self : BaseSensorThingsService)
  : result (BaseSensorThingsService * json) :=
  if is_None (self_datastreams self) then
    self' <- update_datastreams fuel now self ;; Ok (self', self_datastreams self')
  else
    match self_lastUpdate self with
    | None => Raise (AttributeError "lastUpdate")
    | Some last =>
        if (last <? now - 3600)%Z then
          self' <- update_datastreams fuel now self ;; Ok (self', self_datastreams self')
        else Ok (self, self_datastreams self)
    end.

(** The query of [getFeaturesForDatastream]; [id] is whatever value the
    caller holds under ['@iot.id']. *)
Definition getFeaturesForDatastream (fuel : nat) (self : BaseSensorThingsService)
    (id : json) : result json :=
  q <- str_add (self_url self ++ FEATURES_OF_INTEREST ++ FILTER_OBSERVATION_DATASTREAM_ID_EQ) id ;;
  get_elements fuel (q ++ "'").

(** The four [get...NamesForDatastream] queries share one shape. *)
Definition names_for_datastream (collection filter : string) (fuel : nat)
    (self : BaseSensorThingsService) (id : json) : result (list json) :=
  q <- str_add (self_url self ++ collection ++ filter) id ;;
  data <- get_elements fuel (q ++ "'" ++ "&" ++ SELECT_ID_NAME) ;;
  get_name data.

Definition getFeatureOfInterestNamesForDatastream :=
  names_for_datastream FEATURES_OF_INTEREST FILTER_OBSERVATION_DATASTREAM_ID_EQ.
Definition getObservedPropertyNamesForDatastream :=
  names_for_datastream OBSERVED_PROPERTIES FILTER_DATASTREAMS_ID_EQ.
Definition getSensorNamesForDatastream :=
  names_for_datastream SENSORS FILTER_DATASTREAMS_ID_EQ.
Definition getThingNamesForDatastream :=
  names_for_datastream THINGS FILTER_DATASTREAMS_ID_EQ.

End Client.
(** *** The STA client factory *)

Section Factory.
Context {U : UrlLib}.

(** [get_proxified_sta_url]: a URL that does not start with ['http'] is
    handed back as it is; otherwise the triple
    [(version, proxified_url, base_sta_url)]. *)
Definition get_proxified_sta_url (url version proxy_base : string)
  : result (string + string * string * string) :=
  if negb (Str.startswith "http" url) then Ok (inl url)
  else
    parsed <- urlparse url ;;
    let base_sta_url :=
      urlunparse {| scheme := scheme parsed; netloc := netloc parsed;
                    path := path parsed; params := params parsed;
                    query := ""; fragment := fragment parsed |} in
    let sta_url := quote base_sta_url in
    let proxified_url := proxy_base ++ "?url=" ++ sta_url in
    Ok (inr (version, proxified_url, base_sta_url)).

(** [(a, b, c) = s] for a [str] [s]: its three characters, or
    [ValueError]. *)
Definition unpack3 (s : string) : result (string * string * string) :=
  match chars s with
  | [a; b; c] => Ok (a, b, c)
  | _ => Raise ValueError
  end.

Definition unsupported_message (version : string) : string :=
  "The STA version (" ++ version ++
  ") you requested is not implemented. Please use 1.0 or 1.1.".

(** The first statement of [SensorThingsService], [if not proxy_base:
    ... else: ...]: the values of [(version, clean_url, base_sta_url)]
    after it. *)
Definition resolve (url version : string) (proxy_base : option string)
  : result (string * string * string) :=
  if falsy proxy_base then Ok (version, url, url)
  else
    r <- get_proxified_sta_url url version
           (match proxy_base with Some p => p | None => "" end) ;;
    match r with
    | inl s => unpack3 s
    | inr t => Ok t
    end.

(** [SensorThingsService]: the pair [(base_sta_url, client)]. *)
Definition SensorThingsService (url version : string) (timeout : Z)
    (proxy_base : option string) : result (string * BaseSensorThingsService) :=
  '(version, clean_url, base_sta_url) <- resolve url version proxy_base ;;
  if in_list version ["1.1"] then
    client <- init clean_url timeout ;;
    Ok (base_sta_url, client)
  else Raise (NotImplementedError (unsupported_message version)).

End Factory.
(** *** The STA service handler ([StaServiceHandler]) *)

Section Handler.
Context {remote : Remote} {U : UrlLib} {P : Platform}.

Record StaServiceHandler : Type := {
  handler_url : string;
  handler_name : string
}.

(** [__init__]: [self.name = slugify(self.url)[:255]] *)
Definition handler_init (url : string) : StaServiceHandler :=
  {| handler_url := url; handler_name := truncate 255 (slugify url) |}.

(** The [parsed_service] property: a new client at each access. *)
Definition parsed_service (self : StaServiceHandler) : result BaseSensorThingsService :=
  '(_url, svc) <- SensorThingsService (handler_url self) "1.1" OGC_SERVER_TIMEOUT None ;;
  Ok svc.

(** [_get_keywords_for_resource] *)
Definition get_keywords_for_resource (fuel : nat) (self : StaServiceHandler)
    (resource_id : json) : result (list json) :=
  let keywords := [] in
  svc <- parsed_service self ;;
  observed <- getObservedPropertyNamesForDatastream fuel svc resource_id ;;
  keywords <- set_update keywords observed ;;
  svc <- parsed_service self ;;
  features <- getFeatureOfInterestNamesForDatastream fuel svc resource_id ;;
  keywords <- set_update keywords features ;;
  svc <- parsed_service self ;;
  sensors <- getSensorNamesForDatastream fuel svc resource_id ;;
  keywords <- set_update keywords sensors ;;
  svc <- parsed_service self ;;
  things <- getThingNamesForDatastream fuel svc resource_id ;;
  set_update keywords things.

(** [get_resource] *)
Definition get_resource (self : StaServiceHandler) (resource_id : string) : result json :=
  svc <- parsed_service self ;;
  getDatastream svc resource_id.

(** The loop of [__get_bbox] over the features: the first and the second
    coordinate of each. *)
Fixpoint feature_axes (features : list json) : result (list Q * list Q) :=
  match features with
  | [] => Ok ([], [])
  | f :: rest =>
      g <- getitem "feature" f ;;
      coordinates <- feature_coordinates g ;;
      x <- index 0 coordinates ;;
      y <- index 1 coordinates ;;
      '(x_list, y_list) <- feature_axes rest ;;
      Ok (x :: x_list, y :: y_list)
  end.

(** [__get_bbox] *)
Definition get_bbox (fuel : nat) (self : StaServiceHandler) (dataset_meta : json)
  : result (list json) :=
  area <- getitem "observedArea" dataset_meta ;;
  encoded <- (if negb (is_None area) then
                area' <- getitem "observedArea" dataset_meta ;; decimal_encode area'
              else Ok None) ;;
  bbox <- match encoded with
          | Some b => Ok b
          | None =>
              svc <- parsed_service self ;;
              id <- getitem IOT_ID dataset_meta ;;
              features <- getFeaturesForDatastream fuel svc id ;;
              items <- iter features ;;
              '(x_list, y_list) <- feature_axes items ;;
              minx <- py_min x_list ;;
              maxx <- py_max x_list ;;
              miny <- py_min y_list ;;
              maxy <- py_max y_list ;;
              Ok [JNum minx; JNum maxx; JNum miny; JNum maxy]
          end ;;
  if (List.length bbox <? 4)%nat then Raise (RuntimeError (bbox_not_valid bbox))
  else Ok bbox.

(** [_get_indexed_dataset_fields] *)
Definition get_indexed_dataset_fields (fuel : nat) (self : StaServiceHandler)
    (dataset_meta : json) : result fields :=
  bbox <- get_bbox fuel self dataset_meta ;;
  id <- getitem IOT_ID dataset_meta ;;
  name <- getitem NAME dataset_meta ;;
  ascii_name <- ascii_only name ;;
  let typename := slugify (format id ++ "-" ++ ascii_name) in
  abstract <- getitem DESCRIPTION dataset_meta ;;
  b0 <- index 0 bbox ;;
  b2 <- index 2 bbox ;;
  b1 <- index 1 bbox ;;
  b3 <- index 3 bbox ;;
  bbox_polygon <- from_xy_as_polygon [b0; b2; b1; b3] ;;
  srid <- (if (4 <? List.length bbox)%nat then index 4 bbox else Ok (JStr "EPSG:4326")) ;;
  members <- get_keywords_for_resource fuel self id ;;
  keywords <- traverse (slice_to 100) members ;;
  Ok {| f_name := name;
        f_store := handler_name self;
        f_subtype := "remote";
        f_workspace := "remoteWorkspace";
        f_typename := typename;
        f_alternate := name;
        f_title := name;
        f_abstract := abstract;
        f_bbox_polygon := bbox_polygon;
        f_srid := srid;
        f_keywords := keywords;
        f_temporal_extent_start := None;
        f_temporal_extent_end := None |}.

(** [_create_dataset] *)
Definition create_dataset (geonode_service : Service) (resource_fields : fields)
    (is_approved is_published : bool) : io Dataset :=
  let keywords := f_keywords resource_fields in
  let defaults (i : nat) :=
    {| ds_id := i;
       ds_name := f_name resource_fields;
       ds_store := f_store resource_fields;
       ds_workspace := f_workspace resource_fields;
       ds_subtype := f_subtype resource_fields;
       ds_typename := f_typename resource_fields;
       ds_alternate := f_alternate resource_fields;
       ds_title := f_title resource_fields;
       ds_abstract := f_abstract resource_fields;
       ds_bbox_polygon := f_bbox_polygon resource_fields;
       ds_srid := f_srid resource_fields;
       ds_temporal_extent_start := f_temporal_extent_start resource_fields;
       ds_temporal_extent_end := f_temporal_extent_end resource_fields;
       ds_is_approved := is_approved;
       ds_is_published := is_published;
       ds_owner := service_owner geonode_service;
       ds_remote_service := service_name geonode_service;
       ds_remote_typename := service_name geonode_service;
       ds_sourcetype := SOURCE_TYPE_REMOTE;
       ds_ptype := match service_ptype geonode_service with
                   | Some p => Some p
                   | None => Some "gxp_wmscsource"
                   end;
       ds_ows_url := match service_method geonode_service with
                     | INDEXED => Some (service_url geonode_service)
                     | CASCADED => None
                     end;
       ds_keywords := [];
       ds_permissions_set := false |} in
  fun cat =>
    let '(geonode_dataset, cat) := resource_manager_create defaults cat in
    let cat := resource_manager_update geonode_dataset keywords cat in
    let cat := resource_manager_set_permissions geonode_dataset cat in
    (Ok geonode_dataset, cat).

(** [_create_dataset_service_link] *)
Definition create_dataset_service_link (geonode_dataset : Dataset) : io unit :=
  let ogc_sta_url := ds_ows_url geonode_dataset in
  let ogc_sta_name := "OGC STA: " ++ ds_store geonode_dataset ++ " Service" in
  let ogc_sta_link_type := "OGC:STA" in
  n <~ io_read (link_count (ds_id geonode_dataset) ogc_sta_name ogc_sta_link_type) ;;
  if (n <? 2)%nat then
    io_write (link_update_or_create (ds_id geonode_dataset) ogc_sta_name
                ogc_sta_link_type "html" ogc_sta_url "text/html")
  else io_ret tt.

(** [harvest_resource] *)
Definition harvest_resource (fuel : nat) (self : StaServiceHandler)
    (resource_id : string) (geonode_service : Service) : io unit :=
  dataset_meta <~ io_lift (get_resource self resource_id) ;;
  resource_fields <~ io_lift (get_indexed_dataset_fields fuel self dataset_meta) ;;
  found <~ io_read (dataset_exists (f_name resource_fields) (f_store resource_fields)
                      (f_workspace resource_fields)) ;;
  if found : bool then io_lift (Raise (RuntimeError (already_harvested resource_id)))
  else
    let moderated := RESOURCE_PUBLISHING || ADMIN_MODERATE_UPLOADS in
    geonode_dataset <~ create_dataset geonode_service resource_fields
                         (negb moderated) (negb moderated) ;;
    create_dataset_service_link geonode_dataset.

(** *** The harvest when a catalog call can fail

    The same three methods with every catalog call under its fault.
    With [no_faults] they are the methods above. *)

(** [_create_dataset] *)
Definition create_dataset_under (F : Faults) (geonode_service : Service)
    (resource_fields : fields) (is_approved is_published : bool) : io Dataset :=
  let keywords := f_keywords resource_fields in
  let defaults (i : nat) :=
    {| ds_id := i;
       ds_name := f_name resource_fields;
       ds_store := f_store resource_fields;
       ds_workspace := f_workspace resource_fields;
       ds_subtype := f_subtype resource_fields;
       ds_typename := f_typename resource_fields;
       ds_alternate := f_alternate resource_fields;
       ds_title := f_title resource_fields;
       ds_abstract := f_abstract resource_fields;
       ds_bbox_polygon := f_bbox_polygon resource_fields;
       ds_srid := f_srid resource_fields;
       ds_temporal_extent_start := f_temporal_extent_start resource_fields;
       ds_temporal_extent_end := f_temporal_extent_end resource_fields;
       ds_is_approved := is_approved;
       ds_is_published := is_published;
       ds_owner := service_owner geonode_service;
       ds_remote_service := service_name geonode_service;
       ds_remote_typename := service_name geonode_service;
       ds_sourcetype := SOURCE_TYPE_REMOTE;
       ds_ptype := match service_ptype geonode_service with
                   | Some p => Some p
                   | None => Some "gxp_wmscsource"
                   end;
       ds_ows_url := match service_method geonode_service with
                     | INDEXED => Some (service_url geonode_service)
                     | CASCADED => None
                     end;
       ds_keywords := [];
       ds_permissions_set := false |} in
  geonode_dataset <~ io_try (create_fault F) (io_create defaults) ;;
  _ <~ io_try (update_fault F)
         (io_write (resource_manager_update geonode_dataset keywords)) ;;
  _ <~ io_try (set_permissions_fault F)
         (io_write (resource_manager_set_permissions geonode_dataset)) ;;
  io_ret geonode_dataset.

(** [_create_dataset_service_link] *)
Definition create_dataset_service_link_under (F : Faults) (geonode_dataset : Dataset)
  : io unit :=
  let ogc_sta_url := ds_ows_url geonode_dataset in
  let ogc_sta_name := "OGC STA: " ++ ds_store geonode_dataset ++ " Service" in
  let ogc_sta_link_type := "OGC:STA" in
  n <~ io_try (link_count_fault F)
         (io_read (link_count (ds_id geonode_dataset) ogc_sta_name ogc_sta_link_type)) ;;
  if (n <? 2)%nat then
    io_try (link_fault F)
      (io_write (link_update_or_create (ds_id geonode_dataset) ogc_sta_name
                   ogc_sta_link_type "html" ogc_sta_url "text/html"))
  else io_ret tt.

(** [harvest_resource] *)
Definition harvest_resource_under (F : Faults) (fuel : nat) (self : StaServiceHandler)
    (resource_id : string) (geonode_service : Service) : io unit :=
  dataset_meta <~ io_lift (get_resource self resource_id) ;;
  resource_fields <~ io_lift (get_indexed_dataset_fields fuel self dataset_meta) ;;
  found <~ io_try (exists_fault F)
             (io_read (dataset_exists (f_name resource_fields) (f_store resource_fields)
                         (f_workspace resource_fields))) ;;
  if found : bool then io_lift (Raise (RuntimeError (already_harvested resource_id)))
  else
    let moderated := RESOURCE_PUBLISHING || ADMIN_MODERATE_UPLOADS in
    geonode_dataset <~ create_dataset_under F geonode_service resource_fields
                         (negb moderated) (negb moderated) ;;
    create_dataset_service_link_under F geonode_dataset.

End Handler.

(** *** The rest of the client: counting and service-wide listings *)

Section Collections.
Context {remote : Remote}.

(** [count > 0] for a [count] that is not [None]: numbers and booleans
    compare with [0]; a [str], [list] or [dict] cannot be compared with
    an [int]. *)
Definition gt_zero (count : json) : result bool :=
  match as_number count with
  | Some q => Ok (Qlt_bool 0 q)
  | None => Raise TypeError
  end.

(** [hasDatastreams] *)
Definition hasDatastreams (self : BaseSensorThingsService) : result bool :=
  data <- get_json_data (JStr (self_url self ++ DATASTREAMS ++ "?$count=true&$top=1")) ;;
  count <- get_value "@iot.count" data ;;
  if negb (is_None count) then gt_zero count else Ok false.

(** [getFeaturesOfInterest] *)
Definition getFeaturesOfInterest (fuel : nat) (self : BaseSensorThingsService)
  : result json :=
  get_elements fuel (self_url self ++ FEATURES_OF_INTEREST).

(** The four service-wide [get...Names] queries share one shape. *)
Definition names_of (collection : string) (fuel : nat)
    (self : BaseSensorThingsService) : result (list json) :=
  data <- get_elements fuel (self_url self ++ collection ++ "?" ++ SELECT_ID_NAME) ;;
  get_name data.

Definition getFeatureOfInterestNames := names_of FEATURES_OF_INTEREST.
Definition getObservedPropertyNames := names_of OBSERVED_PROPERTIES.
Definition getSensorNames := names_of SENSORS.
Definition getThingNames := names_of THINGS.

End Collections.

(** *** The rest of the handler: listings *)

(** The [Datastream] named tuple. *)
Record Datastream : Type := {
  datastream_id : json;
  datastream_title : json;
  datastream_abstract : json
}.

(** [try: ... except Exception: traceback.print_exc(); return None]:
    every exception is caught and [None] is returned in its place.  (The
    marker [OutOfFuel] is no exception and is passed on.) *)
Definition except_Exception {A : Type} (c : result A) : result (option A) :=
  match c with
  | Ok a => Ok (Some a)
  | Raise OutOfFuel => Raise OutOfFuel
  | Raise _ => Ok None
  end.

Section Listing.
Context {remote : Remote} {U : UrlLib} {P : Platform}.

(** [get_keywords] *)
Definition get_keywords (fuel : nat) (self : StaServiceHandler) : result (list json) :=
  let keywords := [] in
  svc <- parsed_service self ;;
  observed <- getObservedPropertyNames fuel svc ;;
  keywords <- set_update keywords observed ;;
  svc <- parsed_service self ;;
  features <- getFeatureOfInterestNames fuel svc ;;
  keywords <- set_update keywords features ;;
  svc <- parsed_service self ;;
  sensors <- getSensorNames fuel svc ;;
  keywords <- set_update keywords sensors ;;
  svc <- parsed_service self ;;
  things <- getThingNames fuel svc ;;
  set_update keywords things.

(** [datastream[key] if key in datastream else None] *)
Definition item_or_None (key : string) (datastream : json) : result json :=
  present <- contains key datastream ;;
  if present : bool then getitem key datastream else Ok JNull.

(** [_dataset_meta] *)
Definition dataset_meta (datastream : json) : result Datastream :=
  id <- item_or_None IOT_ID datastream ;;
  title <- item_or_None NAME datastream ;;
  abstract <- item_or_None DESCRIPTION datastream ;;
  Ok {| datastream_id := id; datastream_title := title;
        datastream_abstract := abstract |}.

(** [_parse_datasets] *)
Definition parse_datasets (datastreams : json) : result (list Datastream) :=
  items <- iter datastreams ;;
  traverse dataset_meta items.

(** [get_resources]; [now] is [datetime.now()] in seconds. *)
Definition get_resources (fuel : nat) (now : Z) (self : StaServiceHandler)
  : result (option (list Datastream)) :=
  except_Exception
    (svc <- parsed_service self ;;
     '(_svc, datastreams) <- getDatastreams fuel now svc ;;
     parse_datasets datastreams).

(** [has_resources] *)
Definition has_resources (self : StaServiceHandler) : result bool :=
  svc <- parsed_service self ;;
  hasDatastreams svc.

End Listing.
End Sta.

(* ===================================================================== *)
(** ** The SOS client factory and handler ([sos.py])                      *)
(* ===================================================================== *)

(** An offering as [owslib] / [sos4py] parse it from the capabilities
    document; an attribute the document does not give is [None]. *)
Record Offering : Type := {
  offering_id : string;
  offering_name : option string;
  offering_description : option string;
  offering_bbox : option (list Q);
  offering_bbox_srs : option string;
  offering_begin_position : option string;
  offering_end_position : option string;
  observed_properties : list string;
  procedures : list string;
  features_of_interest : list string
}.

(** The client object, as far as the handler reads it: the [contents]
    dictionary. *)
Record SosClient : Type := {
  contents : list (string * Offering)
}.

(** Collaborators of the SOS factory: [owslib.util.clean_ows_url],
    [base.get_proxified_ows_url] (the triple the factory unpacks from its
    result, or the exception of the call or of the unpacking), and the two
    client constructors, each applied to [(clean_url, version)]. *)
Class SosLib : Type := {
  clean_ows_url : string -> string;
  get_proxified_ows_url : string -> string -> string -> result (string * string * string);
  SensorObservationService_1_0_0 : string -> string -> result SosClient;
  sos_2_0_0 : string -> string -> result SosClient
}.

Module Sos.

Definition unsupported_message (version : string) : string :=
  "The SOS version (" ++ version ++
  ") you requested is not implemented. Please use 1.0.0 or 2.0.0.".

(** [d[k] = v] on a [dict]: an existing key keeps its place. *)
Fixpoint dict_set (k v : string) (d : list (string * string)) : list (string * string) :=
  match d with
  | [] => [(k, v)]
  | (k', v') :: d' =>
      if String.eqb k k' then (k', v) :: d' else (k', v') :: dict_set k v d'
  end.

(** [dict(pairs)] *)
Definition dict_of_pairs (pairs : list (string * string)) : list (string * string) :=
  fold_left (fun d kv => dict_set (fst kv) (snd kv) d) pairs [].

(** What is left of [d] after [d.pop(k)]. *)
Definition dict_pop (k : string) (d : list (string * string)) : list (string * string) :=
  filter (fun kv => negb (String.eqb (fst kv) k)) d.

Definition upper_char (c : ascii) : ascii :=
  let n := nat_of_ascii c in
  if ((97 <=? n) && (n <=? 122))%nat then ascii_of_nat (n - 32) else c.

(** [s.upper()] on ASCII text. *)
Fixpoint upper (s : string) : string :=
  match s with
  | EmptyString => EmptyString
  | String c s' => String (upper_char c) (upper s')
  end.

(** [''.join(c for c in s if ord(c) < 128)] on a [str]. *)
Fixpoint ascii_chars (s : string) : string :=
  match s with
  | EmptyString => EmptyString
  | String c s' =>
      if (nat_of_ascii c <? 128)%nat then String c (ascii_chars s') else ascii_chars s'
  end.

Definition of_option (o : option string) : json :=
  match o with
  | Some s => JStr s
  | None => JNull
  end.

Section Factory.
Context {L : SosLib}.

(** The first statement of [SensorObservationService], [if not
    proxy_base: ... else: ...]: the values of
    [(version, clean_url, base_ows_url)] after it. *)
Definition resolve (url version : string) (proxy_base : option string)
  : result (string * string * string) :=
  if falsy proxy_base then
    let clean_url := clean_ows_url url in
    Ok (version, clean_url, clean_url)
  else
    get_proxified_ows_url url version
      (match proxy_base with Some p => p | None => "" end).

(** [SensorObservationService]: the pair [(base_ows_url, client)]. *)
Definition SensorObservationService (url version : string)
    (proxy_base : option string) : result (string * SosClient) :=
  '(version, clean_url, base_ows_url) <- resolve url version proxy_base ;;
  if in_list version ["1.0.0"] then
    client <- SensorObservationService_1_0_0 clean_url version ;;
    Ok (base_ows_url, client)
  else if in_list version ["2.0.0"; "2.0"] then
    client <- sos_2_0_0 clean_url version ;;
    Ok (base_ows_url, client)
  else Raise (NotImplementedError (unsupported_message version)).

End Factory.

Section Handler.
Context {L : SosLib} {U : UrlLib} {P : Platform}.

Record SosServiceHandler : Type := {
  handler_url : string;
  handler_name : string
}.

Definition handler_init (url : string) : SosServiceHandler :=
  {| handler_url := url; handler_name := truncate 255 (slugify url) |}.

(** [get_cleaned_url_params]:
    [(new_url, _service, _version, _request)]. *)
Definition get_cleaned_url_params (url : string)
  : result (ParseResult * option string * string * option string) :=
  let url := unquote url in
  parsed_url <- urlparse url ;;
  let get_args := query parsed_url in
  let parsed_get_args := dict_of_pairs (parse_qsl get_args) in
  let _version := match assoc "version" parsed_get_args with
                  | Some v => v
                  | None => "2.0.0"
                  end in
  let parsed_get_args := dict_pop "version" parsed_get_args in
  let _service := assoc "service" parsed_get_args in
  let parsed_get_args := dict_pop "service" parsed_get_args in
  let _request := assoc "request" parsed_get_args in
  let parsed_get_args := dict_pop "request" parsed_get_args in
  let encoded_get_args := urlencode parsed_get_args in
  let new_url :=
    {| scheme := scheme parsed_url; netloc := netloc parsed_url;
       path := path parsed_url; params := params parsed_url;
       query := encoded_get_args; fragment := fragment parsed_url |} in
  Ok (new_url, _service, _version, _request).

(** The cleaned URL as text: [get_cleaned_url_params(url)[0].geturl()]. *)
Definition cleaned_url (url : string) : result string :=
  '(new_url, _service, _version, _request) <- get_cleaned_url_params url ;;
  Ok (geturl new_url).

(** The [parsed_service] property. *)
Definition parsed_service (self : SosServiceHandler) : result SosClient :=
  '(cleaned_url, service, version, request) <- get_cleaned_url_params (handler_url self) ;;
  '(_url, svc) <- SensorObservationService (geturl cleaned_url) version None ;;
  Ok svc.

(** [_get_keywords_for_resource] *)
Definition get_keywords_for_resource (offering : Offering) : result (list json) :=
  let keywords := [] in
  keywords <- set_update keywords (map JStr (observed_properties offering)) ;;
  keywords <- set_update keywords (map JStr (procedures offering)) ;;
  set_update keywords (map JStr (features_of_interest offering)).

(** [get_resource]: [self.parsed_service.contents[resource_id]] *)
Definition get_resource (self : SosServiceHandler) (resource_id : string)
  : result Offering :=
  svc <- parsed_service self ;;
  match assoc resource_id (contents svc) with
  | Some offering => Ok offering
  | None => Raise (KeyError resource_id)
  end.

(** [_get_indexed_dataset_fields] *)
Definition get_indexed_dataset_fields (self : SosServiceHandler) (offering : Offering)
  : result fields :=
  bbox <- match offering_bbox offering with
          | Some b => Ok (map JNum b)
          | None => Raise TypeError
          end ;;
  if (List.length bbox <? 4)%nat then Raise (RuntimeError (bbox_not_valid bbox))
  else
    ascii_name <- match offering_name offering with
                  | Some n => Ok (ascii_chars n)
                  | None => Raise TypeError
                  end ;;
    let typename := slugify (offering_id offering ++ "-" ++ ascii_name) in
    b0 <- index 0 bbox ;;
    b2 <- index 2 bbox ;;
    b1 <- index 1 bbox ;;
    b3 <- index 3 bbox ;;
    bbox_polygon <- from_xy_as_polygon [b0; b2; b1; b3] ;;
    members <- get_keywords_for_resource offering ;;
    keywords <- traverse (slice_to 100) members ;;
    Ok {| f_name := JStr (offering_id offering);
          f_store := handler_name self;
          f_subtype := "remote";
          f_workspace := "remoteWorkspace";
          f_typename := typename;
          f_alternate := JStr (offering_id offering);
          f_title := of_option (offering_name offering);
          f_abstract := of_option (offering_description offering);
          f_bbox_polygon := bbox_polygon;
          f_srid := match offering_bbox_srs offering with
                    | Some srs => JStr srs
                    | None => JStr "EPSG:4326"
                    end;
          f_keywords := keywords;
          f_temporal_extent_start := Some (of_option (offering_begin_position offering));
          f_temporal_extent_end := Some (of_option (offering_end_position offering)) |}.

(** [_create_dataset] *)
Definition create_dataset (geonode_service : Service) (resource_fields : fields)
    (is_approved is_published : bool) : io Dataset :=
  let keywords := f_keywords resource_fields in
  let defaults (i : nat) :=
    {| ds_id := i;
       ds_name := f_name resource_fields;
       ds_store := f_store resource_fields;
       ds_workspace := f_workspace resource_fields;
       ds_subtype := f_subtype resource_fields;
       ds_typename := f_typename resource_fields;
       ds_alternate := f_alternate resource_fields;
       ds_title := f_title resource_fields;
       ds_abstract := f_abstract resource_fields;
       ds_bbox_polygon := f_bbox_polygon resource_fields;
       ds_srid := f_srid resource_fields;
       ds_temporal_extent_start := f_temporal_extent_start resource_fields;
       ds_temporal_extent_end := f_temporal_extent_end resource_fields;
       ds_is_approved := is_approved;
       ds_is_published := is_published;
       ds_owner := service_owner geonode_service;
       ds_remote_service := service_name geonode_service;
       ds_remote_typename := service_name geonode_service;
       ds_sourcetype := SOURCE_TYPE_REMOTE;
       ds_ptype := match service_ptype geonode_service with
                   | Some EmptyString => Some "gxp_wmscsource"
                   | Some p => Some p
                   | None => Some "gxp_wmscsource"
                   end;
       ds_ows_url := match service_method geonode_service with
                     | INDEXED => Some (service_url geonode_service)
                     | CASCADED => None
                     end;
       ds_keywords := [];
       ds_permissions_set := false |} in
  fun cat =>
    let '(geonode_dataset, cat) := resource_manager_create defaults cat in
    let cat := resource_manager_update geonode_dataset keywords cat in
    let cat := resource_manager_set_permissions geonode_dataset cat in
    (Ok geonode_dataset, cat).

(** A value is true in a condition: a [str] that is neither [None] nor
    empty. *)
Definition truthy (o : option string) : bool := negb (falsy o).

(** The loop of [_create_dataset_service_link] over the methods of
    [GetCapabilities]: the URL of the first [GET] binding that has one;
    [.upper()] on a missing type raises. *)
Fixpoint first_get_url (methods : list op_method) : result (option string) :=
  match methods with
  | [] => Ok None
  | m :: rest =>
      match method_type m with
      | None => Raise (AttributeError "upper")
      | Some t =>
          if String.eqb (upper t) "GET" && truthy (method_url m)
          then Ok (method_url m)
          else first_get_url rest
      end
  end.

(** The search of [_create_dataset_service_link] through
    [geonode_service.operations] for the [GetCapabilities] URL. *)
Definition get_capabilities_url (geonode_service : Service) : result (option string) :=
  match assoc "GetCapabilities" (service_operations geonode_service) with
  | Some (Some (m :: ms)) => first_get_url (m :: ms)
  | _ => Ok None
  end.

(** [_create_dataset_service_link] *)
Definition create_dataset_service_link (geonode_service : Service)
    (geonode_dataset : Dataset) : io unit :=
  let ogc_sos_link_type := "OGC:SOS" in
  let ogc_sos_name := "OGC SOS: " ++ ds_store geonode_dataset ++ " Service" in
  let ogc_sos_url := ds_ows_url geonode_dataset in
  found <~ io_lift (get_capabilities_url geonode_service) ;;
  ogc_sos_url <~
    (match found with
     | Some u =>
         _ <~ io_write (dataset_update_ows_url geonode_dataset (Some u)) ;;
         io_ret (Some u)
     | None => io_ret ogc_sos_url
     end) ;;
  n <~ io_read (link_count (ds_id geonode_dataset) ogc_sos_name ogc_sos_link_type) ;;
  if (n <? 2)%nat then
    io_write (link_update_or_create (ds_id geonode_dataset) ogc_sos_name
                ogc_sos_link_type "html" ogc_sos_url "text/html")
  else io_ret tt.

(** [harvest_resource] *)
Definition harvest_resource (self : SosServiceHandler) (resource_id : string)
    (geonode_service : Service) : io unit :=
  offering <~ io_lift (get_resource self resource_id) ;;
  resource_fields <~ io_lift (get_indexed_dataset_fields self offering) ;;
  found <~ io_read (dataset_exists (f_name resource_fields) (f_store resource_fields)
                      (f_workspace resource_fields)) ;;
  if found : bool then io_lift (Raise (RuntimeError (already_harvested resource_id)))
  else
    let moderated := RESOURCE_PUBLISHING || ADMIN_MODERATE_UPLOADS in
    geonode_dataset <~ create_dataset geonode_service resource_fields
                         (negb moderated) (negb moderated) ;;
    create_dataset_service_link geonode_service geonode_dataset.

(** The [Offering] named tuple. *)
Record OfferingMeta : Type := {
  meta_id : string;
  meta_title : option string;
  meta_abstract : option string
}.

(** [_offering_meta] *)
Definition offering_meta (offering : Offering) : OfferingMeta :=
  {| meta_id := offering_id offering;
     meta_title := offering_name offering;
     meta_abstract := offering_description offering |}.

(** [_parse_offerings] *)
Definition parse_offerings (offerings : list Offering) : list OfferingMeta :=
  map offering_meta offerings.

(** [get_resources]: the offerings of [contents.values()], or [None] when
    anything raised. *)
Definition get_resources (self : SosServiceHandler) : result (option (list OfferingMeta)) :=
  Sta.except_Exception
    (svc <- parsed_service self ;;
     Ok (parse_offerings (map snd (contents svc)))).

(** [has_resources] *)
Definition has_resources (self : SosServiceHandler) : result bool :=
  svc <- parsed_service self ;;
  Ok (0 <? List.length (contents svc))%nat.

(** The loop of [create_cascaded_store] over the methods of
    [GetCapabilities]: it has no [break], so every [GET] binding that has
    a URL replaces the URL found so far. *)
Fixpoint last_get_url (ogc_sos_url : string) (methods : list op_method) : result string :=
  match methods with
  | [] => Ok ogc_sos_url
  | m :: rest =>
      match method_type m with
      | None => Raise (AttributeError "upper")
      | Some t =>
          if String.eqb (upper t) "GET" && truthy (method_url m)
          then last_get_url (match method_url m with
                             | Some u => u
                             | None => ogc_sos_url
                             end) rest
          else last_get_url ogc_sos_url rest
      end
  end.

(** The URL [create_cascaded_store] stores as [capabilitiesURL]. *)
Definition cascaded_store_url (service : Service) : result string :=
  let ogc_sos_url := service_url service in
  match assoc "GetCapabilities" (service_operations service) with
  | Some (Some (m :: ms)) => last_get_url ogc_sos_url (m :: ms)
  | _ => Ok ogc_sos_url
  end.

(** *** The harvest when a catalog call can fail

    The same three methods with every catalog call under its fault.
    With [no_faults] they are the methods above. *)

(** [_create_dataset] *)
Definition create_dataset_under (F : Faults) (geonode_service : Service)
    (resource_fields : fields) (is_approved is_published : bool) : io Dataset :=
  let keywords := f_keywords resource_fields in
  let defaults (i : nat) :=
    {| ds_id := i;
       ds_name := f_name resource_fields;
       ds_store := f_store resource_fields;
       ds_workspace := f_workspace resource_fields;
       ds_subtype := f_subtype resource_fields;
       ds_typename := f_typename resource_fields;
       ds_alternate := f_alternate resource_fields;
       ds_title := f_title resource_fields;
       ds_abstract := f_abstract resource_fields;
       ds_bbox_polygon := f_bbox_polygon resource_fields;
       ds_srid := f_srid resource_fields;
       ds_temporal_extent_start := f_temporal_extent_start resource_fields;
       ds_temporal_extent_end := f_temporal_extent_end resource_fields;
       ds_is_approved := is_approved;
       ds_is_published := is_published;
       ds_owner := service_owner geonode_service;
       ds_remote_service := service_name geonode_service;
       ds_remote_typename := service_name geonode_service;
       ds_sourcetype := SOURCE_TYPE_REMOTE;
       ds_ptype := match service_ptype geonode_service with
                   | Some EmptyString => Some "gxp_wmscsource"
                   | Some p => Some p
                   | None => Some "gxp_wmscsource"
                   end;
       ds_ows_url := match service_method geonode_service with
                     | INDEXED => Some (service_url geonode_service)
                     | CASCADED => None
                     end;
       ds_keywords := [];
       ds_permissions_set := false |} in
  geonode_dataset <~ io_try (create_fault F) (io_create defaults) ;;
  _ <~ io_try (update_fault F)
         (io_write (resource_manager_update geonode_dataset keywords)) ;;
  _ <~ io_try (set_permissions_fault F)
         (io_write (resource_manager_set_permissions geonode_dataset)) ;;
  io_ret geonode_dataset.

(** [_create_dataset_service_link] *)
Definition create_dataset_service_link_under (F : Faults) (geonode_service : Service)
    (geonode_dataset : Dataset) : io unit :=
  let ogc_sos_link_type := "OGC:SOS" in
  let ogc_sos_name := "OGC SOS: " ++ ds_store geonode_dataset ++ " Service" in
  let ogc_sos_url := ds_ows_url geonode_dataset in
  found <~ io_lift (get_capabilities_url geonode_service) ;;
  ogc_sos_url <~
    (match found with
     | Some u =>
         _ <~ io_try (update_ows_url_fault F)
                (io_write (dataset_update_ows_url geonode_dataset (Some u))) ;;
         io_ret (Some u)
     | None => io_ret ogc_sos_url
     end) ;;
  n <~ io_try (link_count_fault F)
         (io_read (link_count (ds_id geonode_dataset) ogc_sos_name ogc_sos_link_type)) ;;
  if (n <? 2)%nat then
    io_try (link_fault F)
      (io_write (link_update_or_create (ds_id geonode_dataset) ogc_sos_name
                   ogc_sos_link_type "html" ogc_sos_url "text/html"))
  else io_ret tt.

(** [harvest_resource] *)
Definition harvest_resource_under (F : Faults) (self : SosServiceHandler)
    (resource_id : string) (geonode_service : Service) : io unit :=
  offering <~ io_lift (get_resource self resource_id) ;;
  resource_fields <~ io_lift (get_indexed_dataset_fields self offering) ;;
  found <~ io_try (exists_fault F)
             (io_read (dataset_exists (f_name resource_fields) (f_store resource_fields)
                         (f_workspace resource_fields))) ;;
  if found : bool then io_lift (Raise (RuntimeError (already_harvested resource_id)))
  else
    let moderated := RESOURCE_PUBLISHING || ADMIN_MODERATE_UPLOADS in
    geonode_dataset <~ create_dataset_under F geonode_service resource_fields
                         (negb moderated) (negb moderated) ;;
    create_dataset_service_link_under F geonode_service geonode_dataset.

End Handler.
End Sos.

(* ===================================================================== *)
(** ** [urllib.parse] on ASCII text                                       *)
(* ===================================================================== *)

(** An executable instance of [UrlLib] that follows CPython's
    [urllib.parse] on ASCII text: percent-escapes of bytes below 128,
    URLs without control characters, with a scheme that starts with a
    letter and without a bracketed host.  The general statements below
    hold for every [UrlLib]; this instance is there to run the code on
    concrete URLs. *)
Module PyUrl.

Definition hex_value (c : ascii) : option nat :=
  let n := nat_of_ascii c in
  if ((48 <=? n) && (n <=? 57))%nat then Some (n - 48)%nat
  else if ((65 <=? n) && (n <=? 70))%nat then Some (n - 55)%nat
  else if ((97 <=? n) && (n <=? 102))%nat then Some (n - 87)%nat
  else None.

(** [unquote]: [%XX] becomes the character of that byte; anything else
    stays.  An escape of a byte from 128 on (part of a UTF-8 sequence in
    Python) is left in place. *)
Fixpoint unquote (s : string) : string :=
  match s with
  | EmptyString => EmptyString
  | String c rest =>
      if Ascii.eqb c "%" then
        match rest with
        | String a (String b rest') =>
            match hex_value a, hex_value b with
            | Some x, Some y =>
                if (16 * x + y <? 128)%nat
                then String (ascii_of_nat (16 * x + y)) (unquote rest')
                else String c (unquote rest)
            | _, _ => String c (unquote rest)
            end
        | _ => String c (unquote rest)
        end
      else String c (unquote rest)
  end.

(** [s.split(c, 1)] when [c] occurs: the text before and after its first
    occurrence. *)
Fixpoint break_at (c : ascii) (s : string) : option (string * string) :=
  match s with
  | EmptyString => None
  | String a s' =>
      if Ascii.eqb a c then Some (EmptyString, s')
      else match break_at c s' with
           | Some (p, q) => Some (String a p, q)
           | None => None
           end
  end.

Definition is_alpha (c : ascii) : bool :=
  let n := nat_of_ascii c in
  ((65 <=? n) && (n <=? 90) || (97 <=? n) && (n <=? 122))%nat.

Definition is_digit (c : ascii) : bool :=
  let n := nat_of_ascii c in ((48 <=? n) && (n <=? 57))%nat.

(** [scheme_chars] *)
Definition is_scheme_char (c : ascii) : bool :=
  is_alpha c || is_digit c || Ascii.eqb c "+" || Ascii.eqb c "-" || Ascii.eqb c ".".

Fixpoint forallb_string (f : ascii -> bool) (s : string) : bool :=
  match s with
  | EmptyString => true
  | String c s' => f c && forallb_string f s'
  end.

Definition lower_char (c : ascii) : ascii :=
  let n := nat_of_ascii c in
  if ((65 <=? n) && (n <=? 90))%nat then ascii_of_nat (n + 32) else c.

Fixpoint lower (s : string) : string :=
  match s with
  | EmptyString => EmptyString
  | String c s' => String (lower_char c) (lower s')
  end.

(** The scheme step of [urlsplit]. *)
Definition split_scheme (url : string) : string * string :=
  match break_at ":" url with
  | Some (String c0 p, rest) =>
      if is_alpha c0 && forallb_string is_scheme_char (String c0 p)
      then (lower (String c0 p), rest)
      else (EmptyString, url)
  | _ => (EmptyString, url)
  end.

(** [_splitnetloc(url, 2)] on the text after ["//"]. *)
Fixpoint span_netloc (s : string) : string * string :=
  match s with
  | EmptyString => (EmptyString, EmptyString)
  | String a s' =>
      if Ascii.eqb a "/" || Ascii.eqb a "?" || Ascii.eqb a "#" then (EmptyString, s)
      else let '(n, r) := span_netloc s' in (String a n, r)
  end.

(** [urlsplit]: [(scheme, netloc, path, query, fragment)]. *)
Definition urlsplit (url : string)
  : result (string * string * string * string * string) :=
  let '(scheme, url) := split_scheme url in
  '(netloc, url) <-
     (match url with
      | String "/" (String "/" after) =>
          let '(netloc, rest) := span_netloc after in
          if xorb (Str.has_char "[" netloc) (Str.has_char "]" netloc)
          then Raise ValueError
          else Ok (netloc, rest)
      | _ => Ok (EmptyString, url)
      end) ;;
  let '(url, fragment) :=
    match break_at "#" url with
    | Some (u, f) => (u, f)
    | None => (url, EmptyString)
    end in
  let '(url, query) :=
    match break_at "?" url with
    | Some (u, q) => (u, q)
    | None => (url, EmptyString)
    end in
  Ok (scheme, netloc, url, query, fragment).

Definition uses_params : list string :=
  [""; "ftp"; "hdl"; "prospero"; "http"; "imap"; "https"; "shttp"; "rtsp";
   "rtspu"; "sip"; "sips"; "mms"; "sftp"; "tel"].

Definition uses_netloc : list string :=
  [""; "ftp"; "http"; "gopher"; "nntp"; "telnet"; "imap"; "wais"; "file";
   "mms"; "https"; "shttp"; "snews"; "prospero"; "rtsp"; "rtspu"; "rsync";
   "svn"; "svn+ssh"; "sftp"; "nfs"; "git"; "git+ssh"; "ws"; "wss"].

(** The path up to and including its last ['/'], and the last segment. *)
Fixpoint last_segment (s : string) : string * string :=
  match s with
  | EmptyString => (EmptyString, EmptyString)
  | String a s' =>
      let '(d, l) := last_segment s' in
      match d with
      | EmptyString =>
          if Ascii.eqb a "/" then (String a EmptyString, l) else (EmptyString, String a l)
      | _ => (String a d, l)
      end
  end.

(** [_splitparams] *)
Definition splitparams (url : string) : string * string :=
  let '(d, l) := last_segment url in
  match break_at ";" l with
  | Some (p, q) => (d ++ p, q)
  | None => (url, EmptyString)
  end.

Definition urlparse (url : string) : result ParseResult :=
  '(scheme, netloc, url, query, fragment) <- urlsplit url ;;
  let '(url, params) :=
    if in_list scheme uses_params && Str.has_char ";" url then splitparams url
    else (url, EmptyString) in
  Ok {| scheme := scheme; netloc := netloc; path := url; params := params;
        query := query; fragment := fragment |}.

Definition nonempty (s : string) : bool :=
  match s with EmptyString => false | _ => true end.

(** [urlunsplit] *)
Definition urlunsplit (scheme netloc url query fragment : string) : string :=
  let url :=
    if nonempty netloc
       || (nonempty scheme && in_list scheme uses_netloc
           && negb (Str.startswith "//" url))
    then
      let url := if nonempty url && negb (Str.startswith "/" url)
                 then "/" ++ url else url in
      "//" ++ netloc ++ url
    else url in
  let url := if nonempty scheme then scheme ++ ":" ++ url else url in
  let url := if nonempty query then url ++ "?" ++ query else url in
  if nonempty fragment then url ++ "#" ++ fragment else url.

Definition urlunparse (p : ParseResult) : string :=
  let url := if nonempty (params p) then path p ++ ";" ++ params p else path p in
  urlunsplit (scheme p) (netloc p) url (query p) (fragment p).

(** [s.replace(a, b)] for two characters. *)
Fixpoint replace_char (a b : ascii) (s : string) : string :=
  match s with
  | EmptyString => EmptyString
  | String c s' => String (if Ascii.eqb c a then b else c) (replace_char a b s')
  end.

(** [parse_qsl(qs)]: fields are separated by ['&']; a field without
    ['='] or with an empty value is dropped. *)
Fixpoint parse_fields (fields : list string) : list (string * string) :=
  match fields with
  | [] => []
  | name_value :: rest =>
      match break_at "=" name_value with
      | Some (n, String c v) =>
          (unquote (replace_char "+" " " n), unquote (replace_char "+" " " (String c v)))
          :: parse_fields rest
      | _ => parse_fields rest
      end
  end.

Definition parse_qsl (qs : string) : list (string * string) :=
  parse_fields (Str.split_on "&" qs).

(** [_ALWAYS_SAFE] *)
Definition always_safe (c : ascii) : bool :=
  is_alpha c || is_digit c || Ascii.eqb c "_" || Ascii.eqb c "." || Ascii.eqb c "-"
  || Ascii.eqb c "~".

Definition hex_digit (n : nat) : ascii :=
  if (n <? 10)%nat then ascii_of_nat (48 + n) else ascii_of_nat (55 + n).

Definition escape (n : nat) : string :=
  String "%" (String (hex_digit (n / 16)) (String (hex_digit (n mod 16)) EmptyString)).

(** [quote(s, safe)] with [safe] empty or one space; a character from
    128 on is escaped as its two UTF-8 bytes. *)
Fixpoint quote_with (space_safe : bool) (s : string) : string :=
  match s with
  | EmptyString => EmptyString
  | String c s' =>
      let n := nat_of_ascii c in
      (if always_safe c || (space_safe && Ascii.eqb c " ") then String c EmptyString
       else if (n <? 128)%nat then escape n
       else escape (192 + n / 64) ++ escape (128 + n mod 64))
      ++ quote_with space_safe s'
  end.

Definition quote (s : string) : string := quote_with false s.

Definition quote_plus (s : string) : string :=
  replace_char " " "+" (quote_with true s).

(** [urlencode(d, doseq=True)] on [str] keys and values. *)
Definition urlencode (d : list (string * string)) : string :=
  Str.join "&" (map (fun kv => quote_plus (fst kv) ++ "=" ++ quote_plus (snd kv)) d).

Definition lib : UrlLib :=
  Build_UrlLib unquote urlparse urlunparse parse_qsl urlencode quote.

End PyUrl.

(* ===================================================================== *)
(** ** What the specification says a collection fetch returns             *)
(* ===================================================================== *)

Module Spec.

(** A finite chain of responses: the [value] array of each page, in page
    order.  Page [i] is served at [link i]; every page but the last names
    the next one under ['@iot.nextLink']. *)
Fixpoint responses (link : nat -> string) (i : nat) (pages : list (list json))
  : list (string * json) :=
  match pages with
  | [] => []
  | [v] => [(link i, JObj [("value", JArr v)])]
  | v :: rest =>
      (link i, JObj [("value", JArr v); ("@iot.nextLink", JStr (link (S i)))])
      :: responses link (S i) rest
  end.

(** [fetchAll], in the words of the specification: the concatenation of
    all pages' [value] arrays in page order. *)
Definition fetchAll (pages : list (list json)) : json := JArr (List.concat pages).

End Spec.

(* ===================================================================== *)
(** ** A sample deployment                                                *)
(* ===================================================================== *)

(** Concrete collaborators, to run the code on concrete inputs. *)
Module Demo.

(** A remote given by a table from URL to decoded body. *)
Definition table_remote (t : list (string * json)) : Remote :=
  Build_Remote (fun u =>
    match u with
    | JStr s => match assoc s t with
                | Some body => Ok body
                | None => Raise (External "404")
                end
    | _ => Raise (External "url")
    end).

Definition decimal_encode (v : json) : result (option (list json)) :=
  match v with
  | JArr l => Ok (Some l)
  | JNull => Ok None
  | _ => Raise TypeError
  end.

Fixpoint numbers (l : list json) : result (list Q) :=
  match l with
  | [] => Ok []
  | JNum q :: rest => qs <- numbers rest ;; Ok (q :: qs)
  | _ :: _ => Raise TypeError
  end.

Definition feature_coordinates (g : json) : result (list Q) :=
  c <- getitem "coordinates" g ;;
  match c with
  | JArr l => numbers l
  | _ => Raise TypeError
  end.

Definition platform : Platform :=
  Build_Platform (list json) PyUrl.lower (fun xy => Ok xy) decimal_encode
    feature_coordinates (fun _ => "?") "REMOTE" false false 60.

Definition root : string := "http://sta.example/v1.1".

Definition link (i : nat) : string :=
  match i with
  | O => "http://sta.example/v1.1/Datastreams"
  | S O => "http://sta.example/v1.1/Datastreams?$skip=1"
  | _ => "http://sta.example/v1.1/Datastreams?$skip=2"
  end.

Definition ds (id name : string) : json :=
  JObj [("@iot.id", JStr id); ("name", JStr name)].

Definition two_pages : list (list json) := [[ds "1" "a"]; [ds "2" "b"]].

Definition client : Sta.BaseSensorThingsService :=
  {| Sta.self_url := "http://sta.example/v1.1/";
     Sta.self_url_query_string := None;
     Sta.self_timeout := 60;
     Sta.self_datastreams := JNull;
     Sta.self_lastUpdate := None |}.

(** A server that answers the quoted lookup with an error object and the
    unquoted one with the record. *)
Definition numeric_ids : list (string * json) :=
  [("http://sta.example/v1.1/Datastreams('7')",
    JObj [("error", JStr "Not a valid id")]);
   ("http://sta.example/v1.1/Datastreams(7)",
    JObj [("@iot.id", JNum 7); ("name", JStr "air")])].

(** *** A SensorThings service *)

Definition sta_handler : Sta.StaServiceHandler :=
  @Sta.handler_init platform root.

Definition names_query (collection filter id : string) : string :=
  "http://sta.example/v1.1/" ++ collection ++ filter ++ id ++ "'" ++ "&"
  ++ Sta.SELECT_ID_NAME.

Definition named (n : string) : json := JObj [("name", JStr n)].

Definition keyword_pages (id : string) : list (string * json) :=
  [(names_query Sta.OBSERVED_PROPERTIES Sta.FILTER_DATASTREAMS_ID_EQ id,
    JObj [("value", JArr [named "temperature"])]);
   (names_query Sta.FEATURES_OF_INTEREST Sta.FILTER_OBSERVATION_DATASTREAM_ID_EQ id,
    JObj [("value", JArr [named "station"])]);
   (names_query Sta.SENSORS Sta.FILTER_DATASTREAMS_ID_EQ id,
    JObj [("value", JArr [named "thermometer"])]);
   (names_query Sta.THINGS Sta.FILTER_DATASTREAMS_ID_EQ id,
    JObj [("value", JArr [named "station"])])].

Definition point (x y : Q) : json :=
  JObj [("feature", JObj [("type", JStr "Point");
                          ("coordinates", JArr [JNum x; JNum y])])].

(** Datastream 7 carries a box, 8 a box of two numbers, 9 a [null] box
    and two features, 10 no box at all. *)
Definition datastream_7 : json :=
  JObj [("error", JNull); ("@iot.id", JStr "7"); ("name", JStr "air");
        ("description", JStr "Air temperature");
        ("observedArea", JArr [JNum 1; JNum 2; JNum 3; JNum 4])].

Definition datastream_8 : json :=
  JObj [("error", JNull); ("@iot.id", JStr "8"); ("name", JStr "soil");
        ("description", JStr "Soil moisture");
        ("observedArea", JArr [JNum 1; JNum 2])].

Definition datastream_9 : json :=
  JObj [("error", JNull); ("@iot.id", JStr "9"); ("name", JStr "rain");
        ("description", JStr "Rain gauge"); ("observedArea", JNull)].

Definition datastream_10 : json :=
  JObj [("error", JNull); ("@iot.id", JStr "10"); ("name", JStr "wind");
        ("description", JStr "Wind speed")].

Definition sta_pages : list (string * json) :=
  [("http://sta.example/v1.1/Datastreams('7')", datastream_7);
   ("http://sta.example/v1.1/Datastreams('8')", datastream_8);
   ("http://sta.example/v1.1/Datastreams('9')", datastream_9);
   ("http://sta.example/v1.1/Datastreams('10')", datastream_10);
   ("http://sta.example/v1.1/FeaturesOfInterest?$filter=Observations/Datastream/id eq '9'",
    JObj [("value", JArr [point 3 5; point 1 8; point 2 4])])]
  ++ keyword_pages "7" ++ keyword_pages "9".

Definition sta_remote : Remote := table_remote sta_pages.

(** *** A Sensor Observation Service *)

Definition offering_1 : Offering :=
  {| offering_id := "off1";
     offering_name := Some "Offering one";
     offering_description := Some "First offering";
     offering_bbox := Some [1; 2; 3; 4]%Q;
     offering_bbox_srs := None;
     offering_begin_position := Some "2020-01-01T00:00:00Z";
     offering_end_position := None;
     observed_properties := ["temperature"; "humidity"];
     procedures := ["thermometer"; "temperature"];
     features_of_interest := ["station"] |}.

Definition offering_2 : Offering :=
  {| offering_id := "off2";
     offering_name := Some "Offering two";
     offering_description := None;
     offering_bbox := Some [1; 2]%Q;
     offering_bbox_srs := None;
     offering_begin_position := None;
     offering_end_position := None;
     observed_properties := ["temperature"];
     procedures := [];
     features_of_interest := [] |}.

(** A text of one hundred characters, and an offering with two
    properties that differ only after it. *)
Definition hundred : string :=
  String.concat "" (repeat "0123456789" 10).

Definition offering_3 : Offering :=
  {| offering_id := "off3";
     offering_name := Some "Offering three";
     offering_description := None;
     offering_bbox := Some [1; 2; 3; 4]%Q;
     offering_bbox_srs := Some "EPSG:3857";
     offering_begin_position := None;
     offering_end_position := None;
     observed_properties := [hundred ++ "a"; hundred ++ "b"];
     procedures := [hundred ++ "a"];
     features_of_interest := [] |}.

Definition sos_client : SosClient :=
  {| contents := [("off1", offering_1); ("off2", offering_2); ("off3", offering_3)] |}.

Definition soslib : SosLib :=
  Build_SosLib
    (fun url => url)
    (fun url version proxy_base =>
       Ok (version, proxy_base ++ "?url=" ++ PyUrl.quote url, url))
    (fun _ _ => Ok sos_client)
    (fun _ _ => Ok sos_client).

Definition sos_url : string :=
  "http://sos.example/service?service=SOS&version=2.0.0&request=GetCapabilities".

Definition sos_handler : Sos.SosServiceHandler :=
  @Sos.handler_init platform sos_url.

Definition service : Service :=
  {| service_owner := "admin";
     service_name := "sensors";
     service_method := INDEXED;
     service_url := "http://sos.example/service";
     service_ptype := None;
     service_operations :=
       [("GetCapabilities",
         Some [ {| method_type := Some "Post"; method_url := Some "http://sos.example/post" |};
                {| method_type := Some "Get"; method_url := Some "http://sos.example/get" |} ])] |}.

Definition empty : @catalog platform := {| datasets := []; links := [] |}.

(** The normalised fields of offering [off1] and of datastream [7]. *)
Definition fields_off1 : @fields platform :=
  @Build_fields platform
    (JStr "off1") (Sos.handler_name sos_handler) "remote" "remoteWorkspace"
    "off1-offering one" (JStr "off1") (JStr "Offering one") (JStr "First offering")
    [JNum 1; JNum 3; JNum 2; JNum 4] (JStr "EPSG:4326")
    [JStr "temperature"; JStr "humidity"; JStr "thermometer"; JStr "station"]
    (Some (JStr "2020-01-01T00:00:00Z")) (Some JNull).

Definition fields_off3 : @fields platform :=
  @Build_fields platform
    (JStr "off3") (Sos.handler_name sos_handler) "remote" "remoteWorkspace"
    "off3-offering three" (JStr "off3") (JStr "Offering three") JNull
    [JNum 1; JNum 3; JNum 2; JNum 4] (JStr "EPSG:3857")
    [JStr hundred; JStr hundred]
    (Some JNull) (Some JNull).

Definition fields_7 : @fields platform :=
  @Build_fields platform
    (JStr "air") (Sta.handler_name sta_handler) "remote" "remoteWorkspace"
    "7-air" (JStr "air") (JStr "air") (JStr "Air temperature")
    [JNum 1; JNum 3; JNum 2; JNum 4] (JStr "EPSG:4326")
    [JStr "temperature"; JStr "station"; JStr "thermometer"]
    None None.

(** *** More sample answers *)

(** A listing of one page, a listing whose first page has no [value],
    and a count. *)
Definition one_page : list (string * json) :=
  [("http://sta.example/v1.1/Datastreams",
    JObj [("value", JArr [JObj [("@iot.id", JStr "1"); ("name", JStr "a");
                                ("description", JStr "first")];
                          JObj [("@iot.id", JNum 2)]]);
          ("@iot.nextLink", JNull)]);
   ("http://sta.example/v1.1/Datastreams?$count=true&$top=1",
    JObj [("@iot.count", JNum 2); ("value", JArr [])])].

Definition no_value : list (string * json) :=
  [("http://sta.example/v1.1/Datastreams",
    JObj [("@iot.nextLink", JStr "http://sta.example/v1.1/Datastreams?$skip=1")])].

Definition unnamed_items : json :=
  JArr [JObj [("name", JStr "thermometer"); ("@iot.id", JNum 1)];
        JObj [("name", JNull); ("@iot.id", JNum 2)]].

(** *** Deployments that fail *)

(** A handler whose URL asks for a version no client exists for. *)
Definition sos_handler_v3 : Sos.SosServiceHandler :=
  @Sos.handler_init platform
    "http://sos.example/service?service=SOS&version=3.0.0&request=GetCapabilities".

(** A service whose first [GetCapabilities] method has no type. *)
Definition untyped_service : Service :=
  {| service_owner := "admin";
     service_name := "sensors";
     service_method := INDEXED;
     service_url := "http://sos.example/service";
     service_ptype := None;
     service_operations :=
       [("GetCapabilities",
         Some [ {| method_type := None; method_url := Some "http://sos.example/get" |} ])] |}.

(** A server that reports the id of a datastream as a number. *)
Definition datastream_5 : json :=
  JObj [("error", JNull); ("@iot.id", JNum 5); ("name", JStr "snow");
        ("description", JStr "Snow depth");
        ("observedArea", JArr [JNum 1; JNum 2; JNum 3; JNum 4])].

Definition numbered_remote : Remote :=
  table_remote [("http://sta.example/v1.1/Datastreams('5')", datastream_5)].

(** The four collections of a service, one page each. *)
Definition collection_pages : list (string * json) :=
  [("http://sta.example/v1.1/ObservedProperties?$select=id,name",
    JObj [("value", JArr [named "temperature"; named "humidity"])]);
   ("http://sta.example/v1.1/FeaturesOfInterest?$select=id,name",
    JObj [("value", JArr [named "station"])]);
   ("http://sta.example/v1.1/Sensors?$select=id,name",
    JObj [("value", JArr [named "thermometer"; named "temperature"])]);
   ("http://sta.example/v1.1/Things?$select=id,name",
    JObj [("value", JArr [named "station"])])].

(** Datastream 11 has a [null] box and two features, at [(3, 2)] and at
    [(1, 4)]: they span minx = 1, miny = 2, maxx = 3, maxy = 4. *)
Definition datastream_11 : json :=
  JObj [("error", JNull); ("@iot.id", JStr "11"); ("name", JStr "fog");
        ("description", JStr "Fog density"); ("observedArea", JNull)].

Definition derived_pages : list (string * json) :=
  [("http://sta.example/v1.1/Datastreams('11')", datastream_11);
   ("http://sta.example/v1.1/FeaturesOfInterest?$filter=Observations/Datastream/id eq '11'",
    JObj [("value", JArr [point 3 2; point 1 4])])]
  ++ keyword_pages "11".

Definition derived_remote : Remote := table_remote derived_pages.

(** A catalog whose link call fails. *)
Definition link_fails : @Faults platform :=
  {| exists_fault := fun _ => None;
     create_fault := fun _ => None;
     update_fault := fun _ => None;
     set_permissions_fault := fun _ => None;
     update_ows_url_fault := fun _ => None;
     link_count_fault := fun _ => None;
     link_fault := fun _ => Some (External "catalog") |}.

End Demo.

(* ===================================================================== *)
(** ** Properties of the paginated fetch                                  *)
(* ===================================================================== *)

Section FetchFacts.
Context {remote : Remote}.

(** A response without the key gives [None]. *)
Lemma get_value_absent key m :
  assoc key m = None -> Sta.get_value key (JObj m) = Ok JNull.
Proof.
  intros H. unfold Sta.get_value, contains, has_key. rewrite H. reflexivity.
Qed.

Lemma get_value_present key m v :
  assoc key m = Some v -> Sta.get_value key (JObj m) = Ok v.
Proof.
  intros H. unfold Sta.get_value, contains, has_key, getitem.
  rewrite H. reflexivity.
Qed.

(** With no link to follow the loop ends at once, whatever the fuel. *)
Lemma follow_next_links_stop fuel elements :
  Sta.follow_next_links fuel elements JNull = Ok elements.
Proof. destruct fuel; reflexivity. Qed.

(** The first round of the loop never completes: the page is fetched and
    [.json()] is called on the decoded body. *)
Lemma follow_next_links_first_round fuel elements nextLink :
  is_None nextLink = false ->
  Sta.follow_next_links (S fuel) elements nextLink =
    match http_get_json nextLink with
    | Ok _ => Raise (AttributeError "json")
    | Raise e => Raise e
    end.
Proof.
  intros Hlink. simpl. rewrite Hlink.
  unfold Sta.get_json_data. destruct (http_get_json nextLink); reflexivity.
Qed.

(** A single page (no next link) is returned as it is. *)
Lemma get_elements_single_page fuel url m v :
  http_get_json (JStr url) = Ok (JObj m) ->
  assoc Sta.VALUE m = Some v ->
  assoc Sta.IOT_NEXT_LINK m = None ->
  Sta.get_elements fuel url = Ok v.
Proof.
  intros Hget Hv Hn. unfold Sta.get_elements, Sta.get_json_data.
  rewrite Hget. cbn [bind is_None negb].
  rewrite (get_value_present _ _ _ Hv). cbn [bind].
  unfold Sta.get_next_link. rewrite (get_value_absent _ _ Hn). cbn [bind].
  destruct (is_None v) eqn:E.
  - destruct v; try discriminate. reflexivity.
  - apply follow_next_links_stop.
Qed.

(** As soon as the first page names a next page, the fetch raises: it
    returns no list at all. *)
Lemma get_elements_next_page_raises fuel url m v link :
  http_get_json (JStr url) = Ok (JObj m) ->
  assoc Sta.VALUE m = Some v -> is_None v = false ->
  assoc Sta.IOT_NEXT_LINK m = Some link -> is_None link = false ->
  exists e, Sta.get_elements (S fuel) url = Raise e.
Proof.
  intros Hget Hv Hvn Hl Hln. unfold Sta.get_elements, Sta.get_json_data.
  rewrite Hget. cbn [bind is_None negb].
  rewrite (get_value_present _ _ _ Hv). cbn [bind].
  unfold Sta.get_next_link. rewrite (get_value_present _ _ _ Hl). cbn [bind].
  rewrite Hvn. cbn [negb].
  rewrite (follow_next_links_first_round _ _ _ Hln).
  destruct (http_get_json link); eauto.
Qed.

End FetchFacts.

(** C1 (the code departs from the claim).  On a chain of two pages, the
    first naming the second under ['@iot.nextLink'], the collection fetch
    raises [AttributeError] for every positive loop bound, where the
    specification's [fetchAll] gives the two records in page order. *)
Theorem get_elements_two_pages_raises :
  forall fuel : nat,
    @Sta.get_elements (Demo.table_remote (Spec.responses Demo.link 0 Demo.two_pages))
       (S fuel) (Demo.link 0)
    = Raise (AttributeError "json")
    /\ Spec.fetchAll Demo.two_pages = JArr [Demo.ds "1" "a"; Demo.ds "2" "b"].
Proof.
  intros fuel. split; reflexivity.
Qed.

(* ===================================================================== *)
(** ** Properties of the lookup by identifier                             *)
(* ===================================================================== *)

Section LookupFacts.
Context {remote : Remote}.

Lemma getDatastream_unfold self identifier :
  Sta.getDatastream self identifier =
    match http_get_json (Sta.quoted_url self Sta.DATASTREAMS identifier) with
    | Raise e => Raise e
    | Ok data =>
        match getitem "error" data with
        | Raise e => Raise e
        | Ok err => if is_None err then Ok data
                    else http_get_json (Sta.unquoted_url self Sta.DATASTREAMS identifier)
        end
    end.
Proof.
  unfold Sta.getDatastream, Sta.get_by_identifier, Sta.get_json_data.
  destruct (http_get_json _) as [data|e]; [|reflexivity]. cbn [bind].
  destruct (getitem "error" data) as [err|e]; [|reflexivity]. cbn [bind].
  destruct (is_None err); reflexivity.
Qed.

(** C10 (as amended).  [getDatastream] indexes the first response with
    ['error'].  A response object without that key makes the lookup raise
    [KeyError]; a first response whose ['error'] is [None] is returned
    as the record; a first response whose ['error'] is not [None] makes
    the lookup ask again with the unquoted identifier and return whatever
    that second request gives, unchecked.  So a record comes back only
    when the first response holds the key ['error']. *)
Theorem getDatastream_error_key self identifier :
  (forall m, http_get_json (Sta.quoted_url self Sta.DATASTREAMS identifier) = Ok (JObj m) ->
             assoc "error" m = None ->
             Sta.getDatastream self identifier = Raise (KeyError "error"))
  /\ (forall data, http_get_json (Sta.quoted_url self Sta.DATASTREAMS identifier) = Ok data ->
                   getitem "error" data = Ok JNull ->
                   Sta.getDatastream self identifier = Ok data)
  /\ (forall data err, http_get_json (Sta.quoted_url self Sta.DATASTREAMS identifier) = Ok data ->
                       getitem "error" data = Ok err -> is_None err = false ->
                       Sta.getDatastream self identifier
                       = http_get_json (Sta.unquoted_url self Sta.DATASTREAMS identifier))
  /\ (forall record, Sta.getDatastream self identifier = Ok record ->
        exists data err,
          http_get_json (Sta.quoted_url self Sta.DATASTREAMS identifier) = Ok data
          /\ getitem "error" data = Ok err
          /\ (err = JNull /\ record = data
              \/ err <> JNull
                 /\ http_get_json (Sta.unquoted_url self Sta.DATASTREAMS identifier) = Ok record)).
Proof.
  repeat split.
  - intros m Hget Hnone. rewrite getDatastream_unfold, Hget.
    unfold getitem. rewrite Hnone. reflexivity.
  - intros data Hget Herr. rewrite getDatastream_unfold, Hget, Herr. reflexivity.
  - intros data err Hget Herr Hnn.
    rewrite getDatastream_unfold, Hget, Herr, Hnn. reflexivity.
  - intros record. rewrite getDatastream_unfold.
    destruct (http_get_json (Sta.quoted_url self Sta.DATASTREAMS identifier)) as [data|e] eqn:Hget;
      [|discriminate].
    destruct (getitem "error" data) as [err|e] eqn:Herr; [|discriminate].
    destruct (is_None err) eqn:Hnone; intros H; exists data, err;
      (split; [reflexivity|split; [exact Herr|]]).
    + left. destruct err; try discriminate. split; congruence.
    + right. split; [intros ->; discriminate|exact H].
Qed.

End LookupFacts.

(** C10, a run of the fourth part: on the sample server the record that
    comes back is the answer to the unquoted lookup. *)
Lemma getDatastream_error_key_witness :
  exists data err,
    @http_get_json (Demo.table_remote Demo.numeric_ids) (Sta.quoted_url Demo.client Sta.DATASTREAMS "7")
    = Ok data
    /\ getitem "error" data = Ok err
    /\ (err = JNull /\ JObj [("@iot.id", JNum 7); ("name", JStr "air")] = data
        \/ err <> JNull
           /\ @http_get_json (Demo.table_remote Demo.numeric_ids)
                (Sta.unquoted_url Demo.client Sta.DATASTREAMS "7")
              = Ok (JObj [("@iot.id", JNum 7); ("name", JStr "air")])).
Proof.
  apply (proj2 (proj2 (proj2
    (@getDatastream_error_key (Demo.table_remote Demo.numeric_ids) Demo.client "7")))).
  reflexivity.
Defined.

(** C10 (the claim as written fails).  The first response maps ['error']
    to a value that is not [None]; [getDatastream] still returns a record,
    the second response, and neither response maps ['error'] to [None]. *)
Lemma getDatastream_returns_unchecked_retry :
  @Sta.getDatastream (Demo.table_remote Demo.numeric_ids) Demo.client "7"
  = Ok (JObj [("@iot.id", JNum 7); ("name", JStr "air")])
  /\ @http_get_json (Demo.table_remote Demo.numeric_ids) (Sta.quoted_url Demo.client Sta.DATASTREAMS "7")
     = Ok (JObj [("error", JStr "Not a valid id")])
  /\ getitem "error" (JObj [("error", JStr "Not a valid id")]) = Ok (JStr "Not a valid id")
  /\ getitem "error" (JObj [("@iot.id", JNum 7); ("name", JStr "air")])
     = Raise (KeyError "error").
Proof.
  repeat split.
Qed.

(* ===================================================================== *)
(** ** Properties of the normaliser                                       *)
(* ===================================================================== *)

(** Walk through a chain of [bind]s that is known to end in [Ok]. *)
Ltac ok_steps H :=
  repeat first
    [ match type of H with
      | bind ?c _ = Ok _ =>
          let E := fresh "E" in
          destruct c eqn:E; cbn [bind] in H; [|discriminate H]
      end
    | match type of H with
      | (let '(_, _) := ?p in _) = Ok _ => destruct p
      end ].

(** The same through every hypothesis, nested chains included. *)
Ltac ok_all :=
  repeat match goal with
         | H : bind ?c _ = Ok _ |- _ =>
             let E := fresh "E" in
             destruct c eqn:E; cbn [bind] in H; [|discriminate H]
         | H : (let '(_, _) := ?p in _) = Ok _ |- _ => destruct p
         | H : (if ?b then Raise _ else _) = Ok _ |- _ =>
             destruct b eqn:?; [discriminate H|]
         | H : Ok _ = Ok _ |- _ => inversion H; clear H; subst
         end.

(** Read off [l[i]] on a list whose head is known. *)
Ltac index_steps :=
  repeat match goal with
         | E : index _ (_ :: _) = Ok _ |- _ => cbn in E; inversion E; clear E; subst
         end.

Section NormaliserFacts.
Context {remote : Remote} {U : UrlLib} {P : Platform} {L : SosLib}.

Lemma length_lt_4 {A : Type} (a b c d : A) rest :
  (List.length (a :: b :: c :: d :: rest) <? 4)%nat = false.
Proof. reflexivity. Qed.

(** Whatever the four leading entries [(a, b, c, d)] of the resolved box
    are, the list the normaliser hands to the polygon builder is
    [(a, c, b, d)]: for an SOS offering and for an STA datastream.  The
    exchange is by position; which axis a position holds is left to
    whoever resolved the box. *)
Lemma bbox_positions_swapped :
  (forall (self : Sos.SosServiceHandler) offering rf a b c d rest,
      offering_bbox offering = Some (a :: b :: c :: d :: rest) ->
      Sos.get_indexed_dataset_fields self offering = Ok rf ->
      from_xy_as_polygon [JNum a; JNum c; JNum b; JNum d] = Ok (f_bbox_polygon rf))
  /\ (forall fuel (self : Sta.StaServiceHandler) dataset_meta rf a b c d rest,
      Sta.get_bbox fuel self dataset_meta = Ok (a :: b :: c :: d :: rest) ->
      Sta.get_indexed_dataset_fields fuel self dataset_meta = Ok rf ->
      from_xy_as_polygon [a; c; b; d] = Ok (f_bbox_polygon rf)).
Proof.
  split.
  - intros self offering rf a b c d rest Hbox H.
    unfold Sos.get_indexed_dataset_fields in H. rewrite Hbox in H.
    cbn [bind map] in H. rewrite length_lt_4 in H.
    ok_steps H. index_steps. inversion H; subst; clear H. cbn. assumption.
  - intros fuel self dataset_meta rf a b c d rest Hbox H.
    unfold Sta.get_indexed_dataset_fields in H. rewrite Hbox in H.
    cbn [bind] in H. ok_steps H. index_steps.
    inversion H; subst; clear H. cbn. assumption.
Qed.

End NormaliserFacts.

(* ===================================================================== *)
(** ** Properties of the bounding-box resolution                          *)
(* ===================================================================== *)

Section BoxFacts.
Context {remote : Remote} {U : UrlLib} {P : Platform}.

(** A datastream record that does not hold the key ['observedArea'] makes
    [__get_bbox] raise at its first statement. *)
Lemma get_bbox_absent fuel self m :
  assoc "observedArea" m = None ->
  Sta.get_bbox fuel self (JObj m) = Raise (KeyError "observedArea").
Proof.
  intros H. unfold Sta.get_bbox, getitem. rewrite H. reflexivity.
Qed.

(** A box that [decimal_encode] returns is checked for its length and
    returned; the features are not asked. *)
Lemma get_bbox_provided fuel self dataset_meta area b :
  getitem "observedArea" dataset_meta = Ok area ->
  is_None area = false ->
  decimal_encode area = Ok (Some b) ->
  Sta.get_bbox fuel self dataset_meta =
    if (List.length b <? 4)%nat then Raise (RuntimeError (bbox_not_valid b)) else Ok b.
Proof.
  intros Harea Hnn Henc. unfold Sta.get_bbox.
  rewrite Harea. cbn [bind]. rewrite Hnn. cbn [negb bind].
  rewrite Henc. reflexivity.
Qed.

Lemma Qlt_bool_true a b : Qlt_bool a b = true -> (a <= b)%Q.
Proof.
  unfold Qlt_bool. intros H. apply negb_true_iff in H.
  destruct (Qlt_le_dec a b) as [Hlt|Hle]; [apply Qlt_le_weak; exact Hlt|].
  apply Qle_bool_iff in Hle. congruence.
Qed.

Lemma Qlt_bool_false a b : Qlt_bool a b = false -> (b <= a)%Q.
Proof.
  unfold Qlt_bool. intros H. apply negb_false_iff in H.
  apply Qle_bool_iff. exact H.
Qed.

(** [min] keeps a member of the list that no member is below. *)
Lemma fold_min_spec (t : list Q) (x : Q) :
  In (fold_left (fun m y => if Qlt_bool y m then y else m) t x) (x :: t)
  /\ forall y, In y (x :: t) ->
       (fold_left (fun m y => if Qlt_bool y m then y else m) t x <= y)%Q.
Proof.
  revert x. induction t as [|z t IH]; intros x; cbn [fold_left].
  - split; [left; reflexivity|]. intros y [<-|[]]. apply Qle_refl.
  - destruct (Qlt_bool z x) eqn:E.
    + apply Qlt_bool_true in E. destruct (IH z) as [Hin Hle]. split.
      * destruct Hin as [Hin|Hin]; [right; left; exact Hin|right; right; exact Hin].
      * intros y [<-|[<-|Hy]].
        -- apply Qle_trans with z; [apply Hle; left; reflexivity|exact E].
        -- apply Hle. left; reflexivity.
        -- apply Hle. right; exact Hy.
    + apply Qlt_bool_false in E. destruct (IH x) as [Hin Hle]. split.
      * destruct Hin as [Hin|Hin]; [left; exact Hin|right; right; exact Hin].
      * intros y [<-|[<-|Hy]].
        -- apply Hle. left; reflexivity.
        -- apply Qle_trans with x; [apply Hle; left; reflexivity|exact E].
        -- apply Hle. right; exact Hy.
Qed.

Lemma fold_max_spec (t : list Q) (x : Q) :
  In (fold_left (fun m y => if Qlt_bool m y then y else m) t x) (x :: t)
  /\ forall y, In y (x :: t) ->
       (y <= fold_left (fun m y => if Qlt_bool m y then y else m) t x)%Q.
Proof.
  revert x. induction t as [|z t IH]; intros x; cbn [fold_left].
  - split; [left; reflexivity|]. intros y [<-|[]]. apply Qle_refl.
  - destruct (Qlt_bool x z) eqn:E.
    + apply Qlt_bool_true in E. destruct (IH z) as [Hin Hle]. split.
      * destruct Hin as [Hin|Hin]; [right; left; exact Hin|right; right; exact Hin].
      * intros y [<-|[<-|Hy]].
        -- apply Qle_trans with z; [exact E|apply Hle; left; reflexivity].
        -- apply Hle. left; reflexivity.
        -- apply Hle. right; exact Hy.
    + apply Qlt_bool_false in E. destruct (IH x) as [Hin Hle]. split.
      * destruct Hin as [Hin|Hin]; [left; exact Hin|right; right; exact Hin].
      * intros y [<-|[<-|Hy]].
        -- apply Hle. left; reflexivity.
        -- apply Qle_trans with x; [exact E|apply Hle; left; reflexivity].
        -- apply Hle. right; exact Hy.
Qed.

Lemma py_min_least l m :
  py_min l = Ok m -> In m l /\ forall y, In y l -> (m <= y)%Q.
Proof.
  destruct l as [|x t]; [discriminate|]. cbn [py_min]. intros [= <-].
  apply fold_min_spec.
Qed.

Lemma py_max_greatest l m :
  py_max l = Ok m -> In m l /\ forall y, In y l -> (y <= m)%Q.
Proof.
  destruct l as [|x t]; [discriminate|]. cbn [py_max]. intros [= <-].
  apply fold_max_spec.
Qed.

(** With ['observedArea'] present and [None], the box is derived from the
    features of interest: the least and the greatest first coordinate,
    then the least and the greatest second coordinate. *)
Lemma get_bbox_derived fuel self dataset_meta bbox :
  getitem "observedArea" dataset_meta = Ok JNull ->
  Sta.get_bbox fuel self dataset_meta = Ok bbox ->
  exists svc id features items x_list y_list minx maxx miny maxy,
    Sta.parsed_service self = Ok svc
    /\ getitem Sta.IOT_ID dataset_meta = Ok id
    /\ Sta.getFeaturesForDatastream fuel svc id = Ok features
    /\ iter features = Ok items
    /\ Sta.feature_axes items = Ok (x_list, y_list)
    /\ bbox = [JNum minx; JNum maxx; JNum miny; JNum maxy]
    /\ (In minx x_list /\ forall x, In x x_list -> (minx <= x)%Q)
    /\ (In maxx x_list /\ forall x, In x x_list -> (x <= maxx)%Q)
    /\ (In miny y_list /\ forall y, In y y_list -> (miny <= y)%Q)
    /\ (In maxy y_list /\ forall y, In y y_list -> (y <= maxy)%Q).
Proof.
  intros Harea H. unfold Sta.get_bbox in H. rewrite Harea in H.
  cbn [bind is_None negb] in H. ok_all.
  do 10 eexists. repeat split; try reflexivity; try eassumption;
    first [ eapply py_min_least; eassumption
          | eapply py_max_greatest; eassumption ].
Qed.

End BoxFacts.

(** C3 (the code departs from the claim).  The normaliser hands the
    polygon builder the resolved box with its second and third entry
    exchanged.  The box that [__get_bbox] derives from the features of
    interest is already [(min x, max x, min y, max y)], so for a
    datastream without an observed area the builder receives
    [(min x, min y, max x, max y)].  The features at [(3, 2)] and [(1, 4)]
    span minx = 1, miny = 2, maxx = 3, maxy = 4, and the polygon is built
    from [(1, 2, 3, 4)], not from [(1, 3, 2, 4)]. *)
Theorem derived_bbox_not_canonical :
  (forall (remote : Remote) (U : UrlLib) (P : Platform) fuel
          (self : Sta.StaServiceHandler) dataset_meta rf,
      getitem "observedArea" dataset_meta = Ok JNull ->
      Sta.get_indexed_dataset_fields fuel self dataset_meta = Ok rf ->
      exists svc id features items x_list y_list minx maxx miny maxy,
        Sta.parsed_service self = Ok svc
        /\ getitem Sta.IOT_ID dataset_meta = Ok id
        /\ Sta.getFeaturesForDatastream fuel svc id = Ok features
        /\ iter features = Ok items
        /\ Sta.feature_axes items = Ok (x_list, y_list)
        /\ (In minx x_list /\ forall x, In x x_list -> (minx <= x)%Q)
        /\ (In maxx x_list /\ forall x, In x x_list -> (x <= maxx)%Q)
        /\ (In miny y_list /\ forall y, In y y_list -> (miny <= y)%Q)
        /\ (In maxy y_list /\ forall y, In y y_list -> (y <= maxy)%Q)
        /\ Sta.get_bbox fuel self dataset_meta
           = Ok [JNum minx; JNum maxx; JNum miny; JNum maxy]
        /\ from_xy_as_polygon [JNum minx; JNum miny; JNum maxx; JNum maxy]
           = Ok (f_bbox_polygon rf))
  /\ (exists rf,
        @Sta.get_indexed_dataset_fields Demo.derived_remote PyUrl.lib Demo.platform 1
          Demo.sta_handler Demo.datastream_11 = Ok rf
        /\ @Sta.get_bbox Demo.derived_remote PyUrl.lib Demo.platform 1
             Demo.sta_handler Demo.datastream_11
           = Ok [JNum 1; JNum 3; JNum 2; JNum 4]
        /\ @f_bbox_polygon Demo.platform rf = [JNum 1; JNum 2; JNum 3; JNum 4]
        /\ @f_bbox_polygon Demo.platform rf <> [JNum 1; JNum 3; JNum 2; JNum 4]).
Proof.
  split.
  - intros remote U P fuel self dataset_meta rf Harea H.
    unfold Sta.get_indexed_dataset_fields in H.
    destruct (Sta.get_bbox fuel self dataset_meta) as [bbox|] eqn:Hbox;
      [|discriminate].
    cbn [bind] in H.
    destruct (get_bbox_derived fuel self dataset_meta bbox Harea Hbox)
      as (svc & id & features & items & x_list & y_list & minx & maxx & miny & maxy
          & Hsvc & Hid & Hf & Hit & Hax & Hb & Hminx & Hmaxx & Hminy & Hmaxy).
    subst bbox. ok_steps H. index_steps. inversion H; subst; clear H.
    exists svc, id, features, items, x_list, y_list, minx, maxx, miny, maxy.
    cbn [f_bbox_polygon].
    repeat (split; [first [assumption|reflexivity]|]). assumption.
  - eexists. split; [vm_compute; reflexivity|].
    split; [vm_compute; reflexivity|].
    split; [reflexivity|]. discriminate.
Qed.

(** C3 on datastream [11]: the derived box and the list the polygon is
    built from. *)
Lemma derived_bbox_not_canonical_witness :
  exists svc id features items x_list y_list minx maxx miny maxy,
    @Sta.parsed_service PyUrl.lib Demo.platform Demo.sta_handler = Ok svc
    /\ getitem Sta.IOT_ID Demo.datastream_11 = Ok id
    /\ @Sta.getFeaturesForDatastream Demo.derived_remote 1 svc id = Ok features
    /\ iter features = Ok items
    /\ @Sta.feature_axes Demo.platform items = Ok (x_list, y_list)
    /\ (In minx x_list /\ forall x, In x x_list -> (minx <= x)%Q)
    /\ (In maxx x_list /\ forall x, In x x_list -> (x <= maxx)%Q)
    /\ (In miny y_list /\ forall y, In y y_list -> (miny <= y)%Q)
    /\ (In maxy y_list /\ forall y, In y y_list -> (y <= maxy)%Q)
    /\ @Sta.get_bbox Demo.derived_remote PyUrl.lib Demo.platform 1
         Demo.sta_handler Demo.datastream_11
       = Ok [JNum minx; JNum maxx; JNum miny; JNum maxy]
    /\ @from_xy_as_polygon Demo.platform [JNum minx; JNum miny; JNum maxx; JNum maxy]
       = Ok [JNum 1; JNum 2; JNum 3; JNum 4].
Proof.
  refine (proj1 derived_bbox_not_canonical Demo.derived_remote PyUrl.lib Demo.platform
            1%nat Demo.sta_handler Demo.datastream_11
            (@Build_fields Demo.platform (JStr "fog") "http://sta.example/v1.1"
               "remote" "remoteWorkspace" "11-fog" (JStr "fog") (JStr "fog")
               (JStr "Fog density") [JNum 1; JNum 2; JNum 3; JNum 4]
               (JStr "EPSG:4326")
               [JStr "temperature"; JStr "station"; JStr "thermometer"] None None)
            _ _);
    vm_compute; reflexivity.
Defined.

(** C4 (the code departs from the claim).  A datastream record without
    the key ['observedArea'] makes [__get_bbox] raise [KeyError]: no box is
    derived from the features of interest.  A record that holds the key
    with [None] does get the derived box
    [(min x, max x, min y, max y)]. *)
Theorem get_bbox_missing_observedArea :
  forall (remote : Remote) (U : UrlLib) (P : Platform) fuel self,
    @Sta.get_bbox remote U P fuel self Demo.datastream_10
    = Raise (KeyError "observedArea")
    /\ @Sta.get_bbox Demo.sta_remote PyUrl.lib Demo.platform (S fuel)
         Demo.sta_handler Demo.datastream_9
       = Ok [JNum 1; JNum 3; JNum 4; JNum 8].
Proof.
  intros remote U P fuel self. split.
  - apply get_bbox_absent. reflexivity.
  - destruct fuel; vm_compute; reflexivity.
Qed.

(* ===================================================================== *)
(** ** Properties of the harvest workflow                                 *)
(* ===================================================================== *)

Lemma json_eqb_refl : forall v : json, json_eqb v v = true.
Proof.
  fix IH 1. intros [| b | q | s | items | members]; cbn [json_eqb].
  - reflexivity.
  - apply Bool.eqb_reflx.
  - rewrite Z.eqb_refl, Pos.eqb_refl. reflexivity.
  - apply String.eqb_refl.
  - induction items as [|x items IHitems]; [reflexivity|].
    rewrite (IH x). exact IHitems.
  - induction members as [|[k x] members IHmembers]; [reflexivity|].
    rewrite String.eqb_refl, (IH x). exact IHmembers.
Qed.

Section CatalogFacts.
Context {P : Platform}.

Lemma same_key_refl (d : Dataset) :
  same_key (ds_name d) (ds_store d) (ds_workspace d) d = true.
Proof.
  unfold same_key. rewrite json_eqb_refl, !String.eqb_refl. reflexivity.
Qed.

(** Rewriting rows without touching their key keeps every match. *)
Lemma alter_dataset_exists n st ws i f cat :
  (forall d, same_key n st ws (f d) = same_key n st ws d) ->
  dataset_exists n st ws (alter_dataset i f cat) = dataset_exists n st ws cat.
Proof.
  intros Hf. unfold dataset_exists, alter_dataset. cbn [datasets].
  induction (datasets cat) as [|d ds IH]; [reflexivity|].
  cbn [map existsb]. rewrite IH. f_equal.
  destruct (Nat.eqb (ds_id d) i); [apply Hf|reflexivity].
Qed.

Lemma create_exists row cat :
  let d := fst (resource_manager_create row cat) in
  dataset_exists (ds_name d) (ds_store d) (ds_workspace d)
    (snd (resource_manager_create row cat)) = true.
Proof.
  cbn. unfold dataset_exists. cbn [datasets]. rewrite existsb_app.
  cbn [existsb]. rewrite same_key_refl. apply orb_true_iff. right. reflexivity.
Qed.

Lemma link_update_or_create_datasets r n t e u m cat :
  datasets (link_update_or_create r n t e u m cat) = datasets cat.
Proof. reflexivity. Qed.

Lemma dataset_exists_datasets n st ws cat cat' :
  datasets cat' = datasets cat ->
  dataset_exists n st ws cat' = dataset_exists n st ws cat.
Proof. unfold dataset_exists. intros ->. reflexivity. Qed.

(** What [_create_dataset] leaves in the catalog (both handlers use this
    shape): the new row is found under its key. *)
Lemma created_row_found row kws cat :
  let d := fst (resource_manager_create row cat) in
  dataset_exists (ds_name d) (ds_store d) (ds_workspace d)
    (resource_manager_set_permissions d
       (resource_manager_update d kws (snd (resource_manager_create row cat)))) = true.
Proof.
  intros d. unfold resource_manager_set_permissions, resource_manager_update.
  rewrite !alter_dataset_exists by (intros; reflexivity).
  apply create_exists.
Qed.

End CatalogFacts.

Lemma names_already_harvested resource_id :
  Str.names (already_harvested resource_id) resource_id.
Proof.
  exists "Resource ", " has already been harvested". reflexivity.
Qed.

Section HarvestFacts.
Context {remote : Remote} {U : UrlLib} {P : Platform} {L : SosLib}.

(** The existence check comes before any write: with a match in the
    catalog the SOS harvest raises and leaves the catalog as it was. *)
Lemma sos_harvest_duplicate self resource_id svc cat offering rf :
  Sos.get_resource self resource_id = Ok offering ->
  Sos.get_indexed_dataset_fields self offering = Ok rf ->
  dataset_exists (f_name rf) (f_store rf) (f_workspace rf) cat = true ->
  Sos.harvest_resource self resource_id svc cat
  = (Raise (RuntimeError (already_harvested resource_id)), cat).
Proof.
  intros Hres Hnorm Hex. unfold Sos.harvest_resource, io_bind, io_lift, io_read.
  rewrite Hres, Hnorm, Hex. reflexivity.
Qed.

Lemma sta_harvest_duplicate fuel self resource_id svc cat dataset_meta rf :
  Sta.get_resource self resource_id = Ok dataset_meta ->
  Sta.get_indexed_dataset_fields fuel self dataset_meta = Ok rf ->
  dataset_exists (f_name rf) (f_store rf) (f_workspace rf) cat = true ->
  Sta.harvest_resource fuel self resource_id svc cat
  = (Raise (RuntimeError (already_harvested resource_id)), cat).
Proof.
  intros Hres Hnorm Hex. unfold Sta.harvest_resource, io_bind, io_lift, io_read.
  rewrite Hres, Hnorm, Hex. reflexivity.
Qed.

(** Without a match the SOS harvest creates the row and the link. *)
Lemma sos_harvest_creates self resource_id svc cat offering rf found :
  Sos.get_resource self resource_id = Ok offering ->
  Sos.get_indexed_dataset_fields self offering = Ok rf ->
  dataset_exists (f_name rf) (f_store rf) (f_workspace rf) cat = false ->
  Sos.get_capabilities_url svc = Ok found ->
  exists cat1,
    Sos.harvest_resource self resource_id svc cat = (Ok tt, cat1)
    /\ dataset_exists (f_name rf) (f_store rf) (f_workspace rf) cat1 = true.
Proof.
  intros Hres Hnorm Hex Hcap.
  unfold Sos.harvest_resource, io_bind, io_lift, io_read.
  rewrite Hres, Hnorm, Hex.
  unfold Sos.create_dataset.
  destruct (resource_manager_create _ cat) as [d cat0] eqn:Hcreate.
  unfold Sos.create_dataset_service_link, io_bind, io_lift, io_read, io_write, io_ret.
  rewrite Hcap.
  match type of Hcreate with
  | resource_manager_create ?row _ = _ =>
      pose proof (created_row_found row (f_keywords rf) cat) as Hfound
  end.
  rewrite Hcreate in Hfound. cbn [fst snd] in Hfound.
  assert (Hkey : ds_name d = f_name rf /\ ds_store d = f_store rf
                 /\ ds_workspace d = f_workspace rf).
  { unfold resource_manager_create in Hcreate. inversion Hcreate. cbn. auto. }
  destruct Hkey as (Hn & Hs & Hw). rewrite Hn, Hs, Hw in Hfound.
  destruct found as [u|];
    match goal with
    | |- context [if ?b then _ else _] => destruct b
    end;
    eexists; (split; [reflexivity|]);
    try (unfold dataset_update_ows_url;
         rewrite ?link_update_or_create_datasets);
    first [ rewrite (dataset_exists_datasets _ _ _ _ _
                       (link_update_or_create_datasets _ _ _ _ _ _ _))
          | idtac ];
    rewrite ?alter_dataset_exists by (intros; reflexivity);
    exact Hfound.
Qed.

Lemma sta_harvest_creates fuel self resource_id svc cat dataset_meta rf :
  Sta.get_resource self resource_id = Ok dataset_meta ->
  Sta.get_indexed_dataset_fields fuel self dataset_meta = Ok rf ->
  dataset_exists (f_name rf) (f_store rf) (f_workspace rf) cat = false ->
  exists cat1,
    Sta.harvest_resource fuel self resource_id svc cat = (Ok tt, cat1)
    /\ dataset_exists (f_name rf) (f_store rf) (f_workspace rf) cat1 = true.
Proof.
  intros Hres Hnorm Hex.
  unfold Sta.harvest_resource, io_bind, io_lift, io_read.
  rewrite Hres, Hnorm, Hex.
  unfold Sta.create_dataset.
  destruct (resource_manager_create _ cat) as [d cat0] eqn:Hcreate.
  unfold Sta.create_dataset_service_link, io_bind, io_lift, io_read, io_write, io_ret.
  match type of Hcreate with
  | resource_manager_create ?row _ = _ =>
      pose proof (created_row_found row (f_keywords rf) cat) as Hfound
  end.
  rewrite Hcreate in Hfound. cbn [fst snd] in Hfound.
  assert (Hkey : ds_name d = f_name rf /\ ds_store d = f_store rf
                 /\ ds_workspace d = f_workspace rf).
  { unfold resource_manager_create in Hcreate. inversion Hcreate. cbn. auto. }
  destruct Hkey as (Hn & Hs & Hw). rewrite Hn, Hs, Hw in Hfound.
  match goal with
  | |- context [if ?b then _ else _] => destruct b
  end; eexists; (split; [reflexivity|]).
  - rewrite (dataset_exists_datasets _ _ _ _ _
               (link_update_or_create_datasets _ _ _ _ _ _ _)).
    exact Hfound.
  - exact Hfound.
Qed.

End HarvestFacts.

Section HarvestClaims.
Context {remote : Remote} {U : UrlLib} {P : Platform} {L : SosLib}.

(** C2.  A resource that resolves and normalises, and whose key
    [(name, store, workspace)] has no match in the catalog, is harvested:
    the call succeeds and the catalog then holds a row under that key.
    Harvesting it again against that catalog raises the error
    ["Resource <id> has already been harvested"], which names the resource
    id, and writes nothing.  (For SOS the link step reads the
    [GetCapabilities] methods of the service and must not raise there.)
    The last two parts give the reason: the catalog is asked for the key
    before anything is created, and any match makes the call raise. *)
Theorem harvest_twice :
  (forall (self : Sos.SosServiceHandler) resource_id svc cat offering rf found,
      Sos.get_resource self resource_id = Ok offering ->
      Sos.get_indexed_dataset_fields self offering = Ok rf ->
      dataset_exists (f_name rf) (f_store rf) (f_workspace rf) cat = false ->
      Sos.get_capabilities_url svc = Ok found ->
      exists cat1,
        Sos.harvest_resource self resource_id svc cat = (Ok tt, cat1)
        /\ dataset_exists (f_name rf) (f_store rf) (f_workspace rf) cat1 = true
        /\ Sos.harvest_resource self resource_id svc cat1
           = (Raise (RuntimeError (already_harvested resource_id)), cat1)
        /\ Str.names (already_harvested resource_id) resource_id)
  /\ (forall fuel (self : Sta.StaServiceHandler) resource_id svc cat dataset_meta rf,
      Sta.get_resource self resource_id = Ok dataset_meta ->
      Sta.get_indexed_dataset_fields fuel self dataset_meta = Ok rf ->
      dataset_exists (f_name rf) (f_store rf) (f_workspace rf) cat = false ->
      exists cat1,
        Sta.harvest_resource fuel self resource_id svc cat = (Ok tt, cat1)
        /\ dataset_exists (f_name rf) (f_store rf) (f_workspace rf) cat1 = true
        /\ Sta.harvest_resource fuel self resource_id svc cat1
           = (Raise (RuntimeError (already_harvested resource_id)), cat1)
        /\ Str.names (already_harvested resource_id) resource_id)
  /\ (forall (self : Sos.SosServiceHandler) resource_id svc cat offering rf,
      Sos.get_resource self resource_id = Ok offering ->
      Sos.get_indexed_dataset_fields self offering = Ok rf ->
      dataset_exists (f_name rf) (f_store rf) (f_workspace rf) cat = true ->
      Sos.harvest_resource self resource_id svc cat
      = (Raise (RuntimeError (already_harvested resource_id)), cat))
  /\ (forall fuel (self : Sta.StaServiceHandler) resource_id svc cat dataset_meta rf,
      Sta.get_resource self resource_id = Ok dataset_meta ->
      Sta.get_indexed_dataset_fields fuel self dataset_meta = Ok rf ->
      dataset_exists (f_name rf) (f_store rf) (f_workspace rf) cat = true ->
      Sta.harvest_resource fuel self resource_id svc cat
      = (Raise (RuntimeError (already_harvested resource_id)), cat)).
Proof.
  split; [|split; [|split]];
    [| | exact sos_harvest_duplicate | exact sta_harvest_duplicate].
  - intros self resource_id svc cat offering rf found Hres Hnorm Hfree Hcap.
    destruct (sos_harvest_creates self resource_id svc cat offering rf found
                Hres Hnorm Hfree Hcap) as (cat1 & Hfirst & Hrow).
    exists cat1. split; [exact Hfirst|]. split; [exact Hrow|]. split.
    + eapply sos_harvest_duplicate; eassumption.
    + apply names_already_harvested.
  - intros fuel self resource_id svc cat dataset_meta rf Hres Hnorm Hfree.
    destruct (sta_harvest_creates fuel self resource_id svc cat dataset_meta rf
                Hres Hnorm Hfree) as (cat1 & Hfirst & Hrow).
    exists cat1. split; [exact Hfirst|]. split; [exact Hrow|]. split.
    + eapply sta_harvest_duplicate; eassumption.
    + apply names_already_harvested.
Qed.

(** C5.  A record whose box has fewer than four coordinates makes the
    harvest raise ["Resource BBOX is not valid: ..."] and leaves the
    catalog exactly as it was: no row, no link.  For SOS the box is the
    one on the offering; for STA it is the ['observedArea'] of the
    datastream as [decimal_encode] returns it. *)
Theorem short_bbox_harvest_fails :
  (forall (self : Sos.SosServiceHandler) resource_id svc cat offering b,
      Sos.get_resource self resource_id = Ok offering ->
      offering_bbox offering = Some b ->
      (List.length b < 4)%nat ->
      Sos.harvest_resource self resource_id svc cat
      = (Raise (RuntimeError (bbox_not_valid (map JNum b))), cat))
  /\ (forall fuel (self : Sta.StaServiceHandler) resource_id svc cat dataset_meta area b,
      Sta.get_resource self resource_id = Ok dataset_meta ->
      getitem "observedArea" dataset_meta = Ok area ->
      is_None area = false ->
      decimal_encode area = Ok (Some b) ->
      (List.length b < 4)%nat ->
      Sta.harvest_resource fuel self resource_id svc cat
      = (Raise (RuntimeError (bbox_not_valid b)), cat)).
Proof.
  split.
  - intros self resource_id svc cat offering b Hres Hbox Hlen.
    unfold Sos.harvest_resource, io_bind, io_lift.
    rewrite Hres. unfold Sos.get_indexed_dataset_fields. rewrite Hbox.
    cbn [bind]. rewrite length_map.
    apply Nat.ltb_lt in Hlen. rewrite Hlen. reflexivity.
  - intros fuel self resource_id svc cat dataset_meta area b Hres Harea Hnn Henc Hlen.
    unfold Sta.harvest_resource, io_bind, io_lift.
    rewrite Hres. unfold Sta.get_indexed_dataset_fields.
    rewrite (get_bbox_provided fuel self dataset_meta area b Harea Hnn Henc).
    apply Nat.ltb_lt in Hlen. rewrite Hlen. reflexivity.
Qed.

End HarvestClaims.

(** C2 on the sample deployment: offering [off1] and datastream [7], each
    harvested into the empty catalog and then once more. *)
Lemma harvest_twice_witness :
  (exists cat1,
      @Sos.harvest_resource Demo.soslib PyUrl.lib Demo.platform
        Demo.sos_handler "off1" Demo.service Demo.empty = (Ok tt, cat1)
      /\ dataset_exists (JStr "off1") (Sos.handler_name Demo.sos_handler)
           "remoteWorkspace" cat1 = true
      /\ @Sos.harvest_resource Demo.soslib PyUrl.lib Demo.platform
           Demo.sos_handler "off1" Demo.service cat1
         = (Raise (RuntimeError "Resource off1 has already been harvested"), cat1)
      /\ Str.names "Resource off1 has already been harvested" "off1")
  /\ (exists cat1,
      @Sta.harvest_resource Demo.sta_remote PyUrl.lib Demo.platform 1
        Demo.sta_handler "7" Demo.service Demo.empty = (Ok tt, cat1)
      /\ dataset_exists (JStr "air") (Sta.handler_name Demo.sta_handler)
           "remoteWorkspace" cat1 = true
      /\ @Sta.harvest_resource Demo.sta_remote PyUrl.lib Demo.platform 1
           Demo.sta_handler "7" Demo.service cat1
         = (Raise (RuntimeError "Resource 7 has already been harvested"), cat1)
      /\ Str.names "Resource 7 has already been harvested" "7").
Proof.
  split.
  - refine (proj1 (@harvest_twice Demo.sta_remote PyUrl.lib Demo.platform Demo.soslib)
              Demo.sos_handler "off1" Demo.service Demo.empty Demo.offering_1
              Demo.fields_off1
              (Some "http://sos.example/get") _ _ _ _);
      vm_compute; reflexivity.
  - refine (proj1 (proj2 (@harvest_twice Demo.sta_remote PyUrl.lib Demo.platform
                             Demo.soslib))
              1%nat Demo.sta_handler "7" Demo.service Demo.empty Demo.datastream_7
              Demo.fields_7
              _ _ _);
      vm_compute; reflexivity.
Defined.

(** C5 on the sample deployment: offering [off2] and datastream [8] carry
    a box of two numbers. *)
Lemma short_bbox_harvest_fails_witness :
  @Sos.harvest_resource Demo.soslib PyUrl.lib Demo.platform
    Demo.sos_handler "off2" Demo.service Demo.empty
  = (Raise (RuntimeError (@bbox_not_valid Demo.platform [JNum 1; JNum 2])), Demo.empty)
  /\ @Sta.harvest_resource Demo.sta_remote PyUrl.lib Demo.platform 1
       Demo.sta_handler "8" Demo.service Demo.empty
     = (Raise (RuntimeError (@bbox_not_valid Demo.platform [JNum 1; JNum 2])), Demo.empty).
Proof.
  split.
  - apply (proj1 (@short_bbox_harvest_fails Demo.sta_remote PyUrl.lib Demo.platform
                    Demo.soslib)
             Demo.sos_handler "off2" Demo.service Demo.empty Demo.offering_2 [1; 2]%Q);
      [reflexivity | reflexivity | cbn; lia].
  - apply (proj2 (@short_bbox_harvest_fails Demo.sta_remote PyUrl.lib Demo.platform
                    Demo.soslib)
             1%nat Demo.sta_handler "8" Demo.service Demo.empty Demo.datastream_8
             (JArr [JNum 1; JNum 2]) [JNum 1; JNum 2]);
      [reflexivity | reflexivity | reflexivity | reflexivity | cbn; lia].
Defined.

(* ===================================================================== *)
(** ** Properties of the keyword list                                     *)
(* ===================================================================== *)

Section SetFacts.

Lemma scalar_eqb_refl x : hashable x = true -> scalar_eqb x x = true.
Proof.
  destruct x as [| [|] | q | s | |]; cbn; intros H; try discriminate; try reflexivity.
  - apply Qeq_bool_iff. apply Qeq_refl.
  - apply String.eqb_refl.
Qed.

Lemma scalar_eqb_str k y : scalar_eqb (JStr k) y = true -> y = JStr k.
Proof.
  destruct y; cbn; intros H; try discriminate.
  apply String.eqb_eq in H. congruence.
Qed.

Lemma existsb_scalar_str k s :
  existsb (scalar_eqb (JStr k)) s = true <-> In (JStr k) s.
Proof.
  rewrite existsb_exists. split.
  - intros (y & Hy & He). apply scalar_eqb_str in He. congruence.
  - intros Hin. exists (JStr k). split; [exact Hin|]. cbn. apply String.eqb_refl.
Qed.

Lemma set_add_In x s y : In y (set_add x s) -> In y s \/ y = x.
Proof.
  unfold set_add. destruct (existsb _ s); [auto|].
  rewrite in_app_iff. cbn. intuition.
Qed.

Lemma set_add_incl x s y : In y s -> In y (set_add x s).
Proof.
  unfold set_add. destruct (existsb _ s); [auto|].
  rewrite in_app_iff. auto.
Qed.

Lemma set_add_str k s : In (JStr k) (set_add (JStr k) s).
Proof.
  unfold set_add. destruct (existsb _ s) eqn:E.
  - apply existsb_scalar_str. exact E.
  - rewrite in_app_iff. right. left. reflexivity.
Qed.

Lemma set_add_NoDup x s : hashable x = true -> NoDup s -> NoDup (set_add x s).
Proof.
  intros Hx Hs. unfold set_add. destruct (existsb _ s) eqn:E; [exact Hs|].
  apply NoDup_app; [exact Hs|constructor; [intros []|constructor]|].
  intros a Ha [Heq|[]]. subst a.
  assert (existsb (scalar_eqb x) s = true); [|congruence].
  apply existsb_exists. exists x. split; [exact Ha|apply scalar_eqb_refl; exact Hx].
Qed.

(** [s.update(xs)] leaves a set that holds the old members and, of [xs],
    exactly what it was given; nothing is listed twice. *)
Lemma set_update_spec xs : forall s r,
  set_update s xs = Ok r ->
  (NoDup s -> NoDup r)
  /\ (forall y, In y r -> In y s \/ In y xs)
  /\ (forall y, In y s -> In y r)
  /\ (forall k, In (JStr k) xs -> In (JStr k) r).
Proof.
  induction xs as [|x xs IH]; intros s r H; cbn [set_update] in H.
  - inversion H; subst. repeat split; auto. intros k [].
  - destruct (hashable x) eqn:Hx; [|discriminate].
    destruct (IH _ _ H) as (Hnd & Hinv & Hincl & Hstr). repeat split.
    + intros Hs. apply Hnd. apply set_add_NoDup; assumption.
    + intros y Hy. destruct (Hinv y Hy) as [Hy'|Hy'].
      * destruct (set_add_In _ _ _ Hy') as [?| ->]; [left; assumption|right; left; reflexivity].
      * right; right; exact Hy'.
    + intros y Hy. apply Hincl. apply set_add_incl. exact Hy.
    + intros k [->|Hk]; [apply Hincl; apply set_add_str|apply Hstr; exact Hk].
Qed.

Lemma set_update_NoDup xs s r : set_update s xs = Ok r -> NoDup s -> NoDup r.
Proof. intros H. apply (set_update_spec xs s r H). Qed.

Lemma set_update_str_iff xs s r k :
  set_update s xs = Ok r ->
  In (JStr k) r <-> In (JStr k) s \/ In (JStr k) xs.
Proof.
  intros H. destruct (set_update_spec xs s r H) as (_ & Hinv & Hincl & Hstr).
  split; [apply Hinv|]. intros [Hk|Hk]; [apply Hincl|apply Hstr]; exact Hk.
Qed.

(** Slicing every member keeps one entry per member, in the same
    order. *)
Lemma traverse_slice n members : forall kws,
  traverse (slice_to n) members = Ok kws ->
  Forall2 (fun m kw => exists s, m = JStr s /\ kw = JStr (truncate n s)) members kws.
Proof.
  induction members as [|m members IH]; intros kws H; cbn [traverse] in H.
  - inversion H. constructor.
  - destruct (slice_to n m) as [kw|] eqn:Hm; [|discriminate].
    destruct (traverse (slice_to n) members) as [rest|] eqn:Hrest; [|discriminate].
    inversion H; subst. constructor; [|apply IH; reflexivity].
    destruct m; try discriminate. cbn in Hm. inversion Hm. eauto.
Qed.

(** [s[:n]] is the first [min n (len s)] characters of [s]. *)
Lemma truncate_spec n : forall s,
  exists rest, s = truncate n s ++ rest
               /\ String.length (truncate n s) = Nat.min n (String.length s).
Proof.
  induction n as [|n IH]; intros s.
  - exists s. split; reflexivity.
  - destruct s as [|c s]; cbn [truncate].
    + exists "". split; reflexivity.
    + destruct (IH s) as (rest & Heq & Hlen). exists rest. cbn. split; congruence.
Qed.

Lemma in_map_JStr k l : In (JStr k) (map JStr l) <-> In k l.
Proof.
  rewrite in_map_iff. split.
  - intros (x & Hx & Hin). congruence.
  - intros Hin. exists k. auto.
Qed.

End SetFacts.

Section KeywordClaims.
Context {remote : Remote} {U : UrlLib} {P : Platform} {L : SosLib}.

(** C9.  The keyword list of a harvested resource has one entry per
    member of the union set, the first 100 characters of that member.
    The union is built first (it lists nothing twice and holds exactly the
    names of the keyword lists); the cut is applied to its members
    afterwards, so two members that differ only after 100 characters give
    two equal entries. *)
Theorem keywords_union_then_truncate :
  (forall (self : Sos.SosServiceHandler) offering rf,
      Sos.get_indexed_dataset_fields self offering = Ok rf ->
      exists members,
        Sos.get_keywords_for_resource offering = Ok members
        /\ NoDup members
        /\ (forall k, In (JStr k) members <->
                      In k (observed_properties offering)
                      \/ In k (procedures offering)
                      \/ In k (features_of_interest offering))
        /\ Forall2 (fun m kw => exists s, m = JStr s /\ kw = JStr (truncate 100 s))
             members (f_keywords rf))
  /\ (forall fuel (self : Sta.StaServiceHandler) dataset_meta rf,
      Sta.get_indexed_dataset_fields fuel self dataset_meta = Ok rf ->
      exists id svc observed features sensors things members,
        getitem Sta.IOT_ID dataset_meta = Ok id
        /\ Sta.parsed_service self = Ok svc
        /\ Sta.getObservedPropertyNamesForDatastream fuel svc id = Ok observed
        /\ Sta.getFeatureOfInterestNamesForDatastream fuel svc id = Ok features
        /\ Sta.getSensorNamesForDatastream fuel svc id = Ok sensors
        /\ Sta.getThingNamesForDatastream fuel svc id = Ok things
        /\ Sta.get_keywords_for_resource fuel self id = Ok members
        /\ NoDup members
        /\ (forall k, In (JStr k) members <->
                      In (JStr k) (observed ++ features ++ sensors ++ things)%list)
        /\ Forall2 (fun m kw => exists s, m = JStr s /\ kw = JStr (truncate 100 s))
             members (f_keywords rf)).
Proof.
  split.
  - intros self offering rf H. unfold Sos.get_indexed_dataset_fields in H.
    ok_all.
    match goal with
    | E : traverse _ ?m = Ok _ |- _ =>
        apply traverse_slice in E; exists m; split; [reflexivity|];
        split; [|split; [|exact E]]
    end;
      match goal with
      | E : Sos.get_keywords_for_resource _ = Ok _ |- _ =>
          unfold Sos.get_keywords_for_resource in E; ok_all
      end.
    + repeat match goal with
             | E : set_update _ _ = Ok ?r |- NoDup ?r =>
                 apply (set_update_NoDup _ _ _ E)
             end.
      constructor.
    + intros k.
      repeat match goal with
             | E : set_update ?s ?xs = Ok ?r |- context [In (JStr k) ?r] =>
                 rewrite (set_update_str_iff xs s r k E)
             end.
      rewrite !in_map_JStr. cbn [In]. tauto.
  - intros fuel self dataset_meta rf H. unfold Sta.get_indexed_dataset_fields in H.
    ok_all.
    match goal with
    | E : traverse _ _ = Ok _ |- _ => apply traverse_slice in E; rename E into Hcut
    end.
    match goal with
    | E : Sta.get_keywords_for_resource _ _ _ = Ok ?m |- _ =>
        pose proof E as Hkw; unfold Sta.get_keywords_for_resource in E; ok_all
    end.
    do 7 eexists.
    repeat (split; [first [reflexivity|eassumption]|]).
    split; [|split; [|exact Hcut]].
    + repeat match goal with
             | E : set_update _ _ = Ok ?r |- NoDup ?r =>
                 apply (set_update_NoDup _ _ _ E)
             end.
      constructor.
    + intros k.
      repeat match goal with
             | E : set_update ?s ?xs = Ok ?r |- context [In (JStr k) ?r] =>
                 rewrite (set_update_str_iff xs s r k E)
             end.
      rewrite !in_app_iff. cbn [In]. tauto.
Qed.

End KeywordClaims.

(** C9 on the sample deployment.  Offering [off3] lists two properties
    that differ only in their 101st character: the set keeps both and the
    keyword list holds the same 100 characters twice.  Datastream [7]
    names ["station"] as feature and as thing: the set keeps it once. *)
Lemma keywords_union_then_truncate_witness :
  (f_keywords Demo.fields_off3 = [JStr Demo.hundred; JStr Demo.hundred]
   /\ exists members,
        Sos.get_keywords_for_resource Demo.offering_3 = Ok members
        /\ NoDup members
        /\ (forall k, In (JStr k) members <->
                      In k (observed_properties Demo.offering_3)
                      \/ In k (procedures Demo.offering_3)
                      \/ In k (features_of_interest Demo.offering_3))
        /\ Forall2 (fun m kw => exists s, m = JStr s /\ kw = JStr (truncate 100 s))
             members (f_keywords Demo.fields_off3))
  /\ (f_keywords Demo.fields_7
      = [JStr "temperature"; JStr "station"; JStr "thermometer"]
      /\ exists id svc observed features sensors things members,
        getitem Sta.IOT_ID Demo.datastream_7 = Ok id
        /\ @Sta.parsed_service PyUrl.lib Demo.platform Demo.sta_handler = Ok svc
        /\ @Sta.getObservedPropertyNamesForDatastream Demo.sta_remote 1 svc id = Ok observed
        /\ @Sta.getFeatureOfInterestNamesForDatastream Demo.sta_remote 1 svc id = Ok features
        /\ @Sta.getSensorNamesForDatastream Demo.sta_remote 1 svc id = Ok sensors
        /\ @Sta.getThingNamesForDatastream Demo.sta_remote 1 svc id = Ok things
        /\ @Sta.get_keywords_for_resource Demo.sta_remote PyUrl.lib Demo.platform 1
             Demo.sta_handler id = Ok members
        /\ NoDup members
        /\ (forall k, In (JStr k) members <->
                      In (JStr k) (observed ++ features ++ sensors ++ things)%list)
        /\ Forall2 (fun m kw => exists s, m = JStr s /\ kw = JStr (truncate 100 s))
             members (f_keywords Demo.fields_7)).
Proof.
  split; (split; [reflexivity|]).
  - apply (proj1 (@keywords_union_then_truncate Demo.sta_remote PyUrl.lib Demo.platform)
             Demo.sos_handler Demo.offering_3 Demo.fields_off3).
    vm_compute. reflexivity.
  - apply (proj2 (@keywords_union_then_truncate Demo.sta_remote PyUrl.lib Demo.platform)
             1%nat Demo.sta_handler Demo.datastream_7 Demo.fields_7).
    vm_compute. reflexivity.
Defined.

(* ===================================================================== *)
(** ** Properties of the client factories                                 *)
(* ===================================================================== *)

Lemma append_assoc (a b c : string) : (a ++ b) ++ c = a ++ (b ++ c).
Proof. induction a as [|x a IH]; cbn; [reflexivity|]. rewrite IH. reflexivity. Qed.


Lemma in_list_false_cons x y l :
  in_list x (y :: l) = false -> x <> y /\ in_list x l = false.
Proof.
  unfold in_list. cbn [existsb]. intros H. apply orb_false_iff in H.
  destruct H as [Hxy Hl]. split; [|exact Hl]. intros ->.
  rewrite String.eqb_refl in Hxy. discriminate.
Qed.

Lemma split_on_length_pos c s : (1 <= List.length (Str.split_on c s))%nat.
Proof.
  induction s as [|a s IH]; cbn [Str.split_on]; [cbn; lia|].
  destruct (Ascii.eqb a c); [cbn; lia|].
  destruct (Str.split_on c s); cbn in *; lia.
Qed.

Lemma split_on_has_char c s :
  Str.has_char c s = true -> (2 <= List.length (Str.split_on c s))%nat.
Proof.
  induction s as [|a s IH]; cbn [Str.has_char Str.split_on]; [discriminate|].
  destruct (Ascii.eqb a c); cbn [orb].
  - intros _. pose proof (split_on_length_pos c s). cbn [List.length]. lia.
  - intros H. specialize (IH H).
    destruct (Str.split_on c s); cbn in *; lia.
Qed.

Lemma has_char_app c a b :
  Str.has_char c (a ++ b) = Str.has_char c a || Str.has_char c b.
Proof.
  induction a as [|x a IH]; [reflexivity|].
  cbn [append Str.has_char]. rewrite IH. apply orb_assoc.
Qed.

Lemma split_on_none c s : Str.has_char c s = false -> Str.split_on c s = [s].
Proof.
  induction s as [|x s IH]; [reflexivity|].
  cbn [Str.has_char Str.split_on]. intros H. apply orb_false_iff in H.
  destruct H as [Hx Hs]. rewrite Hx, (IH Hs). reflexivity.
Qed.

Lemma split_on_app c a b :
  Str.split_on c (a ++ String c b) = (Str.split_on c a ++ Str.split_on c b)%list.
Proof.
  induction a as [|x a IH]; cbn [append Str.split_on].
  - rewrite Ascii.eqb_refl. reflexivity.
  - destruct (Ascii.eqb x c); rewrite IH; [reflexivity|].
    pose proof (split_on_length_pos c a) as Hpos.
    destruct (Str.split_on c a) as [|w ws]; [cbn in Hpos; lia|reflexivity].
Qed.

Lemma init_one_question u q timeout :
  Str.has_char "?" u = false ->
  Str.has_char "?" q = false ->
  Sta.init (u ++ "?" ++ q) timeout
  = Ok {| Sta.self_url := u; Sta.self_url_query_string := Some q;
          Sta.self_timeout := timeout; Sta.self_datastreams := JNull;
          Sta.self_lastUpdate := None |}.
Proof.
  intros Hu Hq. unfold Sta.init.
  rewrite has_char_app. cbn [append Str.has_char]. rewrite Ascii.eqb_refl.
  rewrite orb_true_r.
  rewrite split_on_app, (split_on_none _ _ Hu), (split_on_none _ _ Hq).
  reflexivity.
Qed.

Lemma init_two_questions u q r timeout :
  Sta.init (u ++ "?" ++ q ++ "?" ++ r) timeout = Raise ValueError.
Proof.
  unfold Sta.init.
  rewrite has_char_app. cbn [append Str.has_char]. rewrite Ascii.eqb_refl.
  rewrite orb_true_r.
  rewrite !split_on_app.
  pose proof (split_on_length_pos "?" u) as Hu.
  pose proof (split_on_length_pos "?" q) as Hq.
  pose proof (split_on_length_pos "?" r) as Hr.
  destruct (Str.split_on "?" u) as [|u0 [|u1 us]]; [cbn in Hu; lia| |].
  - destruct (Str.split_on "?" q) as [|q0 qs]; [cbn in Hq; lia|].
    destruct (Str.split_on "?" r) as [|r0 rs]; [cbn in Hr; lia|].
    cbn [app]. destruct qs; reflexivity.
  - destruct (Str.split_on "?" q) as [|q0 qs]; [cbn in Hq; lia|].
    cbn [app]. destruct us; reflexivity.
Qed.


Section FactoryFacts.
Context {U : UrlLib} {L : SosLib}.



(** With a proxy, an ['http...'] URL that parses keeps its version; the
    client URL is the proxy followed by the quoted base URL, and the base
    URL is the URL without its query. *)
Lemma sta_resolve_proxied url version p parsed :
  falsy (Some p) = false ->
  Str.startswith "http" url = true ->
  urlparse url = Ok parsed ->
  Sta.resolve url version (Some p)
  = Ok (version,
        p ++ "?url=" ++ quote (urlunparse
               {| scheme := scheme parsed; netloc := netloc parsed;
                  path := path parsed; params := params parsed;
                  query := ""; fragment := fragment parsed |}),
        urlunparse
          {| scheme := scheme parsed; netloc := netloc parsed;
             path := path parsed; params := params parsed;
             query := ""; fragment := fragment parsed |}).
Proof.
  intros Hp Hhttp Hparse. unfold Sta.resolve, Sta.get_proxified_sta_url.
  rewrite Hp, Hhttp, Hparse. reflexivity.
Qed.

(** The version dispatch of the STA factory. *)
Lemma sta_dispatch url version timeout proxy_base v clean base :
  Sta.resolve url version proxy_base = Ok (v, clean, base) ->
  Sta.SensorThingsService url version timeout proxy_base =
    if in_list v ["1.1"] then
      match Sta.init clean timeout with
      | Ok client => Ok (base, client)
      | Raise e => Raise e
      end
    else Raise (NotImplementedError (Sta.unsupported_message v)).
Proof.
  intros H. unfold Sta.SensorThingsService. rewrite H. cbn [bind].
  destruct (in_list v ["1.1"]); [|reflexivity].
  destruct (Sta.init clean timeout); reflexivity.
Qed.


(** A URL with at most one ['?'] always gives a client. *)
Lemma sta_init_ok url timeout :
  (List.length (Str.split_on "?" url) <= 2)%nat ->
  exists client, Sta.init url timeout = Ok client.
Proof.
  intros Hlen. unfold Sta.init.
  destruct (Str.has_char "?" url) eqn:Hq; [|eauto].
  pose proof (split_on_has_char _ _ Hq) as Hparts.
  destruct (Str.split_on "?" url) as [|u [|q [|x rest]]]; cbn in Hlen, Hparts;
    try lia. eauto.
Qed.








End FactoryFacts.




(* ===================================================================== *)
(** ** Properties of the URL cleaning                                     *)
(* ===================================================================== *)

Section DictFacts.

Lemma assoc_dict_set_eq k v d : assoc k (Sos.dict_set k v d) = Some v.
Proof.
  induction d as [|[k' v'] d IH]; cbn.
  - rewrite String.eqb_refl. reflexivity.
  - destruct (String.eqb k k') eqn:E; cbn; rewrite E; [reflexivity|exact IH].
Qed.

Lemma assoc_dict_set_ne k j v d :
  j <> k -> assoc j (Sos.dict_set k v d) = assoc j d.
Proof.
  intros Hne. induction d as [|[k' v'] d IH]; cbn.
  - apply String.eqb_neq in Hne. rewrite Hne. reflexivity.
  - destruct (String.eqb k k') eqn:E; cbn.
    + apply String.eqb_eq in E. subst k'.
      apply String.eqb_neq in Hne. rewrite Hne. reflexivity.
    + rewrite IH. reflexivity.
Qed.

(** In [dict(pairs)] a key holds the value of its last pair. *)
Lemma assoc_dict_of_pairs k pairs :
  assoc k (Sos.dict_of_pairs pairs) = assoc k (rev pairs).
Proof.
  unfold Sos.dict_of_pairs.
  assert (G : forall d, assoc k (fold_left
                 (fun d kv => Sos.dict_set (fst kv) (snd kv) d) pairs d)
              = match assoc k (rev pairs) with
                | Some v => Some v
                | None => assoc k d
                end).
  { induction pairs as [|[j v] pairs IH]; intros d; cbn [fold_left rev].
    - reflexivity.
    - rewrite IH. cbn [fst snd].
      assert (Happ : forall (l : list (string * string)) x,
                 assoc k (l ++ [x]) = match assoc k l with
                                      | Some w => Some w
                                      | None => assoc k [x]
                                      end).
      { induction l as [|[a b] l IHl]; intros x; cbn; [reflexivity|].
        destruct (String.eqb k a); [reflexivity|apply IHl]. }
      rewrite Happ. destruct (assoc k (rev pairs)); [reflexivity|].
      cbn. destruct (String.eqb k j) eqn:E.
      + apply String.eqb_eq in E. subst j. apply assoc_dict_set_eq.
      + apply assoc_dict_set_ne. apply String.eqb_neq. exact E. }
  rewrite G. destruct (assoc k (rev pairs)); reflexivity.
Qed.

Lemma assoc_dict_pop_eq k d : assoc k (Sos.dict_pop k d) = None.
Proof.
  unfold Sos.dict_pop. induction d as [|[k' v'] d IH]; [reflexivity|].
  cbn [filter fst]. destruct (String.eqb k' k) eqn:E; cbn [negb]; [exact IH|].
  cbn [assoc]. rewrite String.eqb_sym, E. exact IH.
Qed.

Lemma assoc_dict_pop_ne k j d : j <> k -> assoc j (Sos.dict_pop k d) = assoc j d.
Proof.
  intros Hne. unfold Sos.dict_pop. induction d as [|[k' v'] d IH]; [reflexivity|].
  cbn [filter fst]. destruct (String.eqb k' k) eqn:E; cbn [negb assoc].
  - apply String.eqb_eq in E. subst k'.
    apply String.eqb_neq in Hne. rewrite Hne. exact IH.
  - rewrite IH. reflexivity.
Qed.

Lemma in_dict_pop k d j v :
  In (j, v) (Sos.dict_pop k d) <-> In (j, v) d /\ j <> k.
Proof.
  unfold Sos.dict_pop. rewrite filter_In. cbn [fst].
  rewrite negb_true_iff, String.eqb_neq. reflexivity.
Qed.

End DictFacts.

Section CleaningFacts.
Context {U : UrlLib}.

(** C8 (as amended).  When the unquoted URL parses, the cleaning step
    builds a dictionary from the pairs of its query (a repeated key keeps
    its last value), takes ['version'] (default ["2.0.0"]), ['service']
    and ['request'] out of it and returns them, and puts the encoding of
    the remaining entries, in their order, as the query of the new URL;
    scheme, host, path, parameters and fragment are those of the unquoted
    URL.  The entries that remain are exactly the entries under other
    keys. *)
Theorem get_cleaned_url_params_spec url parsed :
  urlparse (unquote url) = Ok parsed ->
  exists new_url rest,
    Sos.get_cleaned_url_params url
    = Ok (new_url,
          assoc "service" (rev (parse_qsl (query parsed))),
          match assoc "version" (rev (parse_qsl (query parsed))) with
          | Some v => v
          | None => "2.0.0"
          end,
          assoc "request" (rev (parse_qsl (query parsed))))
    /\ query new_url = urlencode rest
    /\ rest = filter (fun kv => negb (in_list (fst kv) ["version"; "service"; "request"]))
                (Sos.dict_of_pairs (parse_qsl (query parsed)))
    /\ (forall k v, In (k, v) rest <->
                    In (k, v) (Sos.dict_of_pairs (parse_qsl (query parsed)))
                    /\ k <> "version" /\ k <> "service" /\ k <> "request")
    /\ assoc "version" rest = None /\ assoc "service" rest = None
    /\ assoc "request" rest = None
    /\ scheme new_url = scheme parsed /\ netloc new_url = netloc parsed
    /\ path new_url = path parsed /\ params new_url = params parsed
    /\ fragment new_url = fragment parsed.
Proof.
  intros Hparse. unfold Sos.get_cleaned_url_params. rewrite Hparse. cbn [bind].
  set (d := Sos.dict_of_pairs (parse_qsl (query parsed))).
  assert (Hrest : Sos.dict_pop "request" (Sos.dict_pop "service" (Sos.dict_pop "version" d))
                  = filter (fun kv => negb (in_list (fst kv) ["version"; "service"; "request"])) d).
  { unfold Sos.dict_pop, in_list. clear. induction d as [|[k v] d IH]; [reflexivity|].
    cbn [filter fst existsb].
    destruct (String.eqb k "version") eqn:E1; cbn [negb orb filter fst]; [exact IH|].
    destruct (String.eqb k "service") eqn:E2; cbn [negb orb filter fst]; [exact IH|].
    destruct (String.eqb k "request") eqn:E3; cbn [negb orb filter fst]; [exact IH|].
    rewrite IH. reflexivity. }
  eexists. exists (Sos.dict_pop "request" (Sos.dict_pop "service" (Sos.dict_pop "version" d))).
  split.
  - rewrite !assoc_dict_pop_ne by discriminate.
    subst d. rewrite !assoc_dict_of_pairs. reflexivity.
  - split; [reflexivity|]. split; [exact Hrest|]. split.
    + intros k v. rewrite !in_dict_pop. tauto.
    + rewrite assoc_dict_pop_ne, assoc_dict_pop_ne, !assoc_dict_pop_eq by discriminate.
      rewrite assoc_dict_pop_ne, !assoc_dict_pop_eq by discriminate.
      repeat split; reflexivity.
Qed.

End CleaningFacts.

(** C8 on the sample deployment: the three keys go, the rest stays. *)
Lemma get_cleaned_url_params_spec_witness :
  exists new_url rest,
    @Sos.get_cleaned_url_params PyUrl.lib
      "http://sos.example/service?b=2&service=SOS&a=1&a=3&request=GetCapabilities"
    = Ok (new_url, Some "SOS", "2.0.0", Some "GetCapabilities")
    /\ query new_url = "b=2&a=3"
    /\ rest = [("b", "2"); ("a", "3")]
    /\ @geturl PyUrl.lib new_url = "http://sos.example/service?b=2&a=3".
Proof.
  destruct (@get_cleaned_url_params_spec PyUrl.lib
              "http://sos.example/service?b=2&service=SOS&a=1&a=3&request=GetCapabilities"
              {| scheme := "http"; netloc := "sos.example"; path := "/service";
                 params := "";
                 query := "b=2&service=SOS&a=1&a=3&request=GetCapabilities";
                 fragment := "" |} eq_refl)
    as (new_url & rest & Hclean & Hquery & Hrest & _).
  exists new_url, rest.
  split; [exact Hclean|]. split; [rewrite Hquery, Hrest; reflexivity|].
  split; [rewrite Hrest; reflexivity|].
  vm_compute in Hclean. inversion Hclean. reflexivity.
Defined.

(** C8 (the claim as written fails).  Cleaning an already-cleaned URL
    does not always give the same text: the cleaned form of
    ["http://h/p?a=x%2526y"] is ["http://h/p?a=x%26y"], and cleaning that
    gives ["http://h/p?a=x"]. *)
Lemma cleaning_not_idempotent :
  @Sos.cleaned_url PyUrl.lib "http://h/p?a=x%2526y" = Ok "http://h/p?a=x%26y"
  /\ @Sos.cleaned_url PyUrl.lib "http://h/p?a=x%26y" = Ok "http://h/p?a=x"
  /\ "http://h/p?a=x%26y" <> "http://h/p?a=x".
Proof.
  split; [reflexivity|]. split; [reflexivity|]. discriminate.
Qed.

(* ===================================================================== *)
(** ** Further properties of the collection fetch                         *)
(* ===================================================================== *)

Section FetchEdges.
Context {remote : Remote}.

Lemma fetch_last_page fuel url m :
  http_get_json (JStr url) = Ok (JObj m) ->
  assoc Sta.IOT_NEXT_LINK m = None \/ assoc Sta.IOT_NEXT_LINK m = Some JNull ->
  Sta.get_elements fuel url
  = Ok (match assoc Sta.VALUE m with
        | Some v => v
        | None => JNull
        end).
Proof.
  intros Hget Hnext. unfold Sta.get_elements, Sta.get_json_data.
  rewrite Hget. cbn [bind is_None negb].
  assert (Hlink : Sta.get_next_link (JObj m) = Ok JNull).
  { unfold Sta.get_next_link.
    destruct Hnext as [H|H];
      [apply get_value_absent|apply get_value_present]; exact H. }
  destruct (assoc Sta.VALUE m) as [v|] eqn:Hv.
  - rewrite (get_value_present _ _ _ Hv). cbn [bind]. rewrite Hlink. cbn [bind].
    destruct v; cbn [is_None negb]; try apply follow_next_links_stop. reflexivity.
  - rewrite (get_value_absent _ _ Hv). cbn [bind]. rewrite Hlink. reflexivity.
Qed.

(** X1.  A response without a usable next link (['@iot.nextLink'] absent
    or [None]) is the whole result: the fetch returns its [value], or
    [None] when it has none, whatever the loop bound. *)
Theorem get_elements_last_page fuel url m :
  http_get_json (JStr url) = Ok (JObj m) ->
  assoc Sta.IOT_NEXT_LINK m = None \/ assoc Sta.IOT_NEXT_LINK m = Some JNull ->
  Sta.get_elements fuel url
  = Ok (match assoc Sta.VALUE m with
        | Some v => v
        | None => JNull
        end).
Proof. exact (fetch_last_page fuel url m). Qed.

(** X2.  A first response that is [None], or an object whose [value] is
    absent or [None], gives [None]; a next link in it is not followed. *)
Theorem get_elements_without_value fuel url :
  (http_get_json (JStr url) = Ok JNull -> Sta.get_elements fuel url = Ok JNull)
  /\ (forall m link,
        http_get_json (JStr url) = Ok (JObj m) ->
        assoc Sta.VALUE m = None \/ assoc Sta.VALUE m = Some JNull ->
        assoc Sta.IOT_NEXT_LINK m = Some link ->
        Sta.get_elements fuel url = Ok JNull).
Proof.
  split.
  - intros Hget. unfold Sta.get_elements, Sta.get_json_data. rewrite Hget. reflexivity.
  - intros m link Hget Hv Hlink. unfold Sta.get_elements, Sta.get_json_data.
    rewrite Hget. cbn [bind is_None negb].
    assert (Hvalue : Sta.get_value Sta.VALUE (JObj m) = Ok JNull).
    { destruct Hv as [H|H];
        [apply get_value_absent|apply get_value_present]; exact H. }
    rewrite Hvalue. cbn [bind]. unfold Sta.get_next_link.
    rewrite (get_value_present _ _ _ Hlink). reflexivity.
Qed.

Lemma fetch_next_link fuel url m v link :
  http_get_json (JStr url) = Ok (JObj m) ->
  assoc Sta.VALUE m = Some v -> is_None v = false ->
  assoc Sta.IOT_NEXT_LINK m = Some link -> is_None link = false ->
  Sta.get_elements (S fuel) url
  = match http_get_json link with
    | Ok _ => Raise (AttributeError "json")
    | Raise e => Raise e
    end.
Proof.
  intros Hget Hv Hvn Hl Hln. unfold Sta.get_elements, Sta.get_json_data.
  rewrite Hget. cbn [bind is_None negb].
  rewrite (get_value_present _ _ _ Hv). cbn [bind].
  unfold Sta.get_next_link. rewrite (get_value_present _ _ _ Hl). cbn [bind].
  rewrite Hvn. cbn [negb].
  apply follow_next_links_first_round. exact Hln.
Qed.

(** X3.  When the first page has a [value] and names a next page, the
    fetch returns no list: it raises what the request for the next page
    raises, and [AttributeError] when that request succeeds. *)
Theorem get_elements_next_link_error fuel url m v link :
  http_get_json (JStr url) = Ok (JObj m) ->
  assoc Sta.VALUE m = Some v -> is_None v = false ->
  assoc Sta.IOT_NEXT_LINK m = Some link -> is_None link = false ->
  Sta.get_elements (S fuel) url
  = match http_get_json link with
    | Ok _ => Raise (AttributeError "json")
    | Raise e => Raise e
    end.
Proof. exact (fetch_next_link fuel url m v link). Qed.

End FetchEdges.

(** X1 on the sample listing of one page (its next link is [null]). *)
Lemma get_elements_last_page_witness :
  @Sta.get_elements (Demo.table_remote Demo.one_page) 0
    "http://sta.example/v1.1/Datastreams"
  = Ok (JArr [JObj [("@iot.id", JStr "1"); ("name", JStr "a");
                    ("description", JStr "first")];
              JObj [("@iot.id", JNum 2)]]).
Proof.
  refine (@get_elements_last_page (Demo.table_remote Demo.one_page) 0
            "http://sta.example/v1.1/Datastreams" _ eq_refl _).
  right. reflexivity.
Defined.

(** X2 on the sample page that names a next page but holds no [value]. *)
Lemma get_elements_without_value_witness :
  @Sta.get_elements (Demo.table_remote Demo.no_value) 0
    "http://sta.example/v1.1/Datastreams" = Ok JNull.
Proof.
  refine (proj2 (@get_elements_without_value (Demo.table_remote Demo.no_value) 0
                   "http://sta.example/v1.1/Datastreams") _ _ eq_refl _ eq_refl).
  left. reflexivity.
Defined.

(** X3 on the sample chain of two pages. *)
Lemma get_elements_next_link_error_witness :
  @Sta.get_elements (Demo.table_remote (Spec.responses Demo.link 0 Demo.two_pages)) 1
    (Demo.link 0)
  = Raise (AttributeError "json").
Proof.
  exact (@get_elements_next_link_error
           (Demo.table_remote (Spec.responses Demo.link 0 Demo.two_pages)) 0
           (Demo.link 0) _ _ _ eq_refl eq_refl eq_refl eq_refl eq_refl).
Defined.

(* ===================================================================== *)
(** ** Further properties of the client                                   *)
(* ===================================================================== *)

Section ClientFacts.
Context {remote : Remote}.

Lemma get_name_items_spec items : forall names,
  Sta.get_name_items items = Ok names ->
  Forall2 (fun item n =>
             exists nm, getitem Sta.NAME item = Ok nm
                        /\ (if is_None nm then getitem Sta.IOT_ID item = Ok n
                            else n = nm))
          items names.
Proof.
  induction items as [|item items IH]; intros names H; cbn [Sta.get_name_items] in H.
  - inversion H. constructor.
  - destruct (getitem Sta.NAME item) as [nm|] eqn:Hnm; [|discriminate].
    cbn [bind] in H.
    destruct (is_None nm) eqn:Hnone; cbn [negb] in H.
    + destruct (getitem Sta.IOT_ID item) as [i|] eqn:Hid; [|discriminate].
      cbn [bind] in H.
      destruct (Sta.get_name_items items) as [rest|] eqn:Hrest; [|discriminate].
      inversion H; subst. constructor; [|apply IH; reflexivity].
      exists nm. rewrite Hnone. auto.
    + cbn [bind] in H.
      destruct (Sta.get_name_items items) as [rest|] eqn:Hrest; [|discriminate].
      inversion H; subst. constructor; [|apply IH; reflexivity].
      exists nm. rewrite Hnone. auto.
Qed.

Lemma get_name_items_missing_name items m :
  In (JObj m) items -> assoc Sta.NAME m = None ->
  exists e, Sta.get_name_items items = Raise e.
Proof.
  intros Hin Hm. induction items as [|item items IH]; [destruct Hin|].
  cbn [Sta.get_name_items].
  destruct Hin as [->|Hin].
  - unfold getitem at 1. rewrite Hm. cbn. eauto.
  - destruct (IH Hin) as [e He]. rewrite He.
    destruct (getitem Sta.NAME item) as [nm|e']; [|cbn; eauto]. cbn [bind].
    destruct (is_None nm); cbn [negb bind]; [|eauto].
    destruct (getitem Sta.IOT_ID item); cbn; eauto.
Qed.

(** X4.  [__get_name] gives one name per item, in order: the item's
    ['name'], or its ['@iot.id'] when the name is [None].  An item that
    has no ['name'] key at all makes the whole call raise, also when it
    has an id. *)
Theorem get_name_spec items :
  (forall names,
      Sta.get_name (JArr items) = Ok names ->
      Forall2 (fun item n =>
                 exists nm, getitem Sta.NAME item = Ok nm
                            /\ (if is_None nm then getitem Sta.IOT_ID item = Ok n
                                else n = nm))
              items names)
  /\ (forall m, In (JObj m) items -> assoc Sta.NAME m = None ->
                exists e, Sta.get_name (JArr items) = Raise e).
Proof.
  split.
  - intros names H. apply get_name_items_spec. exact H.
  - intros m Hin Hm. apply (get_name_items_missing_name items m Hin Hm).
Qed.

Lemma Qlt_bool_iff a b : Qlt_bool a b = true <-> (a < b)%Q.
Proof.
  unfold Qlt_bool. rewrite negb_true_iff. split.
  - intros H. apply Qnot_le_lt. intros Hle. apply Qle_bool_iff in Hle. congruence.
  - intros H. destruct (Qle_bool b a) eqn:E; [|reflexivity].
    apply Qle_bool_iff in E. exfalso. exact (Qlt_not_le _ _ H E).
Qed.

(** X5.  [hasDatastreams] asks for the count with
    ["?$count=true&$top=1"].  An answer without ['@iot.count'], or with
    [None] there, means no datastreams; a number means datastreams
    exactly when it is positive; a count given as text makes the call
    raise [TypeError]. *)
Theorem hasDatastreams_cases self m :
  http_get_json (JStr (Sta.self_url self ++ Sta.DATASTREAMS ++ "?$count=true&$top=1"))
  = Ok (JObj m) ->
  (assoc "@iot.count" m = None \/ assoc "@iot.count" m = Some JNull ->
     Sta.hasDatastreams self = Ok false)
  /\ (forall q, assoc "@iot.count" m = Some (JNum q) ->
                exists b, Sta.hasDatastreams self = Ok b /\ (b = true <-> (0 < q)%Q))
  /\ (forall s, assoc "@iot.count" m = Some (JStr s) ->
                Sta.hasDatastreams self = Raise TypeError).
Proof.
  intros Hget. unfold Sta.hasDatastreams, Sta.get_json_data. rewrite Hget.
  cbn [bind]. split; [|split].
  - intros [H|H].
    + rewrite (get_value_absent _ _ H). reflexivity.
    + rewrite (get_value_present _ _ _ H). reflexivity.
  - intros q H. rewrite (get_value_present _ _ _ H). cbn.
    eexists. split; [reflexivity|]. apply Qlt_bool_iff.
  - intros s H. rewrite (get_value_present _ _ _ H). reflexivity.
Qed.

End ClientFacts.

(** X4 on two sample items, the second with a [null] name. *)
Lemma get_name_spec_witness :
  Forall2 (fun item n =>
             exists nm, getitem Sta.NAME item = Ok nm
                        /\ (if is_None nm then getitem Sta.IOT_ID item = Ok n
                            else n = nm))
          [JObj [("name", JStr "thermometer"); ("@iot.id", JNum 1)];
           JObj [("name", JNull); ("@iot.id", JNum 2)]]
          [JStr "thermometer"; JNum 2].
Proof.
  apply (proj1 (get_name_spec _)). reflexivity.
Defined.

(** X5 on the sample count. *)
Lemma hasDatastreams_cases_witness :
  exists b, @Sta.hasDatastreams (Demo.table_remote Demo.one_page) Demo.client = Ok b
            /\ (b = true <-> (0 < 2)%Q).
Proof.
  apply (proj1 (proj2 (@hasDatastreams_cases (Demo.table_remote Demo.one_page)
                         Demo.client _ eq_refl))).
  reflexivity.
Defined.

(** X6.  The listing cache of [getDatastreams].  After a first call at
    time [now] that fetched a listing, a call within the hour returns
    that listing without asking the remote (the answer is the same
    whatever the remote would say).  Once more than an hour has passed,
    or when the listing fetched was [None], the client fetches again,
    exactly as a client that never held a listing. *)
Theorem getDatastreams_cache (remote remote' : Remote) fuel fuel' now now' self self' ds :
  Sta.self_datastreams self = JNull ->
  @Sta.getDatastreams remote fuel now self = Ok (self', ds) ->
  (is_None ds = false -> (now' - 3600 <= now)%Z ->
     @Sta.getDatastreams remote' fuel' now' self' = Ok (self', ds))
  /\ ((now < now' - 3600)%Z \/ is_None ds = true ->
      @Sta.getDatastreams remote' fuel' now' self'
      = @Sta.getDatastreams remote' fuel' now' self).
Proof.
  intros Hfresh Hfirst. unfold Sta.getDatastreams in Hfirst.
  rewrite Hfresh in Hfirst. cbn [is_None] in Hfirst.
  unfold Sta.update_datastreams in Hfirst.
  destruct (Sta.get_elements fuel (Sta.self_url self ++ Sta.DATASTREAMS))
    as [listing|] eqn:Hfetch; [|discriminate].
  cbn in Hfirst. inversion Hfirst; subst; clear Hfirst.
  split.
  - intros Hds Hnow. unfold Sta.getDatastreams. cbn [Sta.self_datastreams Sta.self_lastUpdate].
    rewrite Hds.
    assert (Hlt : (now <? now' - 3600)%Z = false) by (apply Z.ltb_ge; lia).
    rewrite Hlt. reflexivity.
  - intros Hstale. unfold Sta.getDatastreams at 2. rewrite Hfresh. cbn [is_None].
    unfold Sta.getDatastreams. cbn [Sta.self_datastreams Sta.self_lastUpdate].
    destruct (is_None ds) eqn:Hds.
    + reflexivity.
    + destruct Hstale as [Hlt|Habs]; [|discriminate].
      apply Z.ltb_lt in Hlt. rewrite Hlt. reflexivity.
Qed.

(** X6 on the sample listing: fetched at time 0 and asked again half an
    hour later from a remote that answers nothing. *)
Lemma getDatastreams_cache_witness :
  exists self' ds,
    @Sta.getDatastreams (Demo.table_remote Demo.one_page) 0 0 Demo.client = Ok (self', ds)
    /\ @Sta.getDatastreams (Demo.table_remote []) 0 1800 self' = Ok (self', ds).
Proof.
  do 2 eexists. split; [reflexivity|].
  refine (proj1 (@getDatastreams_cache (Demo.table_remote Demo.one_page)
                   (Demo.table_remote []) 0 0 0%Z 1800%Z Demo.client _ _
                   eq_refl eq_refl) eq_refl _).
  lia.
Defined.

(* ===================================================================== *)
(** ** Properties of the listings                                         *)
(* ===================================================================== *)

Section ListingFacts.
Context {remote : Remote} {U : UrlLib} {P : Platform}.

(** The handler's client is new at every access: it holds no listing. *)
Lemma parsed_service_fresh (self : Sta.StaServiceHandler) svc :
  Sta.parsed_service self = Ok svc ->
  Sta.self_datastreams svc = JNull.
Proof.
  unfold Sta.parsed_service, Sta.SensorThingsService, Sta.resolve.
  cbn [falsy bind in_list existsb String.eqb Ascii.eqb Bool.eqb orb].
  unfold Sta.init.
  destruct (Str.has_char "?" (Sta.handler_url self)).
  - destruct (Str.split_on "?" (Sta.handler_url self)) as [|u [|q [|x rest]]];
      cbn; intros H; inversion H; reflexivity.
  - cbn. intros H. inversion H. reflexivity.
Qed.

Lemma item_or_None_object key kv :
  Sta.item_or_None key (JObj kv)
  = Ok (match assoc key kv with Some v => v | None => JNull end).
Proof.
  unfold Sta.item_or_None, contains, has_key, getitem.
  destruct (assoc key kv); reflexivity.
Qed.

Lemma traverse_dataset_meta_objects items :
  Forall (fun item => exists kv, item = JObj kv) items ->
  exists metas,
    traverse Sta.dataset_meta items = Ok metas
    /\ Forall2 (fun item meta =>
                  exists kv, item = JObj kv
                    /\ Sta.datastream_id meta
                       = match assoc Sta.IOT_ID kv with Some v => v | None => JNull end
                    /\ Sta.datastream_title meta
                       = match assoc Sta.NAME kv with Some v => v | None => JNull end
                    /\ Sta.datastream_abstract meta
                       = match assoc Sta.DESCRIPTION kv with Some v => v | None => JNull end)
               items metas.
Proof.
  induction 1 as [|item items [kv ->] _ IH].
  - exists []. split; [reflexivity|constructor].
  - destruct IH as (metas & Hmetas & Hall).
    cbn [traverse]. unfold Sta.dataset_meta at 1.
    rewrite !item_or_None_object. cbn [bind]. rewrite Hmetas.
    eexists. split; [reflexivity|]. constructor; [|exact Hall].
    exists kv. cbn. auto.
Qed.

(** X7.  A listing of more than one page is lost without an error: when
    the first page of [Datastreams] has a [value] and names a next page,
    [get_resources] returns [None], because the exception of the fetch is
    caught. *)
Theorem get_resources_paged_listing_lost fuel now self svc m v link :
  Sta.parsed_service self = Ok svc ->
  http_get_json (JStr (Sta.self_url svc ++ Sta.DATASTREAMS)) = Ok (JObj m) ->
  assoc Sta.VALUE m = Some v -> is_None v = false ->
  assoc Sta.IOT_NEXT_LINK m = Some link -> is_None link = false ->
  http_get_json link <> Raise OutOfFuel ->
  Sta.get_resources (S fuel) now self = Ok None.
Proof.
  intros Hsvc Hget Hv Hvn Hl Hln Hfuel. unfold Sta.get_resources.
  rewrite Hsvc. cbn [bind]. unfold Sta.getDatastreams.
  rewrite (parsed_service_fresh _ _ Hsvc). cbn [is_None].
  unfold Sta.update_datastreams.
  rewrite (fetch_next_link fuel _ m v link Hget Hv Hvn Hl Hln).
  destruct (http_get_json link) as [page|e]; [reflexivity|].
  destruct e; try reflexivity. congruence.
Qed.

(** X8.  A listing of one page gives one entry per record, in order.
    Each entry takes its id, title and abstract from the keys
    ['@iot.id'], ['name'] and ['description'] of the record; a key the
    record does not have gives [None], no error. *)
Theorem get_resources_single_page fuel now self svc m items :
  Sta.parsed_service self = Ok svc ->
  http_get_json (JStr (Sta.self_url svc ++ Sta.DATASTREAMS)) = Ok (JObj m) ->
  assoc Sta.VALUE m = Some (JArr items) ->
  assoc Sta.IOT_NEXT_LINK m = None \/ assoc Sta.IOT_NEXT_LINK m = Some JNull ->
  Forall (fun item => exists kv, item = JObj kv) items ->
  exists metas,
    Sta.get_resources fuel now self = Ok (Some metas)
    /\ Forall2 (fun item meta =>
                  exists kv, item = JObj kv
                    /\ Sta.datastream_id meta
                       = match assoc Sta.IOT_ID kv with Some v => v | None => JNull end
                    /\ Sta.datastream_title meta
                       = match assoc Sta.NAME kv with Some v => v | None => JNull end
                    /\ Sta.datastream_abstract meta
                       = match assoc Sta.DESCRIPTION kv with Some v => v | None => JNull end)
               items metas.
Proof.
  intros Hsvc Hget Hv Hnext Hitems.
  destruct (traverse_dataset_meta_objects items Hitems) as (metas & Hmetas & Hall).
  exists metas. split; [|exact Hall].
  unfold Sta.get_resources. rewrite Hsvc. cbn [bind]. unfold Sta.getDatastreams.
  rewrite (parsed_service_fresh _ _ Hsvc). cbn [is_None].
  unfold Sta.update_datastreams.
  rewrite (fetch_last_page fuel _ m Hget Hnext), Hv. cbn.
  unfold Sta.parse_datasets. cbn [iter bind]. rewrite Hmetas. reflexivity.
Qed.

End ListingFacts.

(** X7 on the sample chain of two pages. *)
Lemma get_resources_paged_listing_lost_witness :
  @Sta.get_resources (Demo.table_remote (Spec.responses Demo.link 0 Demo.two_pages))
    PyUrl.lib Demo.platform 1 0 Demo.sta_handler
  = Ok None.
Proof.
  refine (@get_resources_paged_listing_lost
            (Demo.table_remote (Spec.responses Demo.link 0 Demo.two_pages))
            PyUrl.lib Demo.platform 0 0%Z Demo.sta_handler Demo.client
            _ _ _ eq_refl eq_refl eq_refl eq_refl eq_refl eq_refl _).
  discriminate.
Defined.

(** X8 on the sample listing of one page: the second record has an id
    only. *)
Lemma get_resources_single_page_witness :
  exists metas,
    @Sta.get_resources (Demo.table_remote Demo.one_page) PyUrl.lib Demo.platform
      0 0 Demo.sta_handler = Ok (Some metas)
    /\ Forall2 (fun item meta =>
                  exists kv, item = JObj kv
                    /\ Sta.datastream_id meta
                       = match assoc Sta.IOT_ID kv with Some v => v | None => JNull end
                    /\ Sta.datastream_title meta
                       = match assoc Sta.NAME kv with Some v => v | None => JNull end
                    /\ Sta.datastream_abstract meta
                       = match assoc Sta.DESCRIPTION kv with Some v => v | None => JNull end)
               [JObj [("@iot.id", JStr "1"); ("name", JStr "a");
                      ("description", JStr "first")];
                JObj [("@iot.id", JNum 2)]]
               metas.
Proof.
  refine (@get_resources_single_page (Demo.table_remote Demo.one_page) PyUrl.lib
            Demo.platform 0 0%Z Demo.sta_handler Demo.client _ _
            eq_refl eq_refl eq_refl _ _).
  - right. reflexivity.
  - repeat constructor; eexists; reflexivity.
Defined.

(* ===================================================================== *)
(** ** Further properties of the harvest workflow                         *)
(* ===================================================================== *)

Section HarvestEdges.
Context {remote : Remote} {U : UrlLib} {P : Platform} {L : SosLib}.

(** X9.  The version an SOS URL carries in its query decides which client
    is built.  When it is not a supported one, every access to the
    service raises [NotImplementedError] naming it: [has_resources] and
    [harvest_resource] raise (the harvest writes nothing), while
    [get_resources] catches the exception and answers [None]. *)
Theorem sos_unsupported_version_in_url (self : Sos.SosServiceHandler) new_url s v r :
  Sos.get_cleaned_url_params (Sos.handler_url self) = Ok (new_url, s, v, r) ->
  in_list v ["1.0.0"; "2.0.0"; "2.0"] = false ->
  Sos.parsed_service self = Raise (NotImplementedError (Sos.unsupported_message v))
  /\ Sos.has_resources self = Raise (NotImplementedError (Sos.unsupported_message v))
  /\ Sos.get_resources self = Ok None
  /\ forall resource_id svc cat,
       Sos.harvest_resource self resource_id svc cat
       = (Raise (NotImplementedError (Sos.unsupported_message v)), cat).
Proof.
  intros Hclean Hout.
  assert (Hsvc : Sos.parsed_service self
                 = Raise (NotImplementedError (Sos.unsupported_message v))).
  { unfold Sos.parsed_service. rewrite Hclean. cbn [bind].
    unfold Sos.SensorObservationService, Sos.resolve. cbn [falsy bind].
    destruct (in_list_false_cons _ _ _ Hout) as [Hne Hrest].
    assert (H1 : in_list v ["1.0.0"] = false).
    { unfold in_list. cbn [existsb]. apply orb_false_iff. split; [|reflexivity].
      apply String.eqb_neq. exact Hne. }
    rewrite H1, Hrest. reflexivity. }
  split; [exact Hsvc|]. split; [|split].
  - unfold Sos.has_resources. rewrite Hsvc. reflexivity.
  - unfold Sos.get_resources. rewrite Hsvc. reflexivity.
  - intros resource_id svc cat.
    unfold Sos.harvest_resource, io_bind, io_lift, Sos.get_resource.
    rewrite Hsvc. reflexivity.
Qed.

(** X11.  An SOS harvest can stop half way.  When the [GetCapabilities]
    methods of the service cannot be read (a method without a type), the
    dataset row is already created: the call raises, the row stays, no
    link is written, and harvesting again reports the resource as
    already harvested. *)
Theorem sos_harvest_stops_after_create (self : Sos.SosServiceHandler)
    resource_id svc cat offering rf e :
  Sos.get_resource self resource_id = Ok offering ->
  Sos.get_indexed_dataset_fields self offering = Ok rf ->
  dataset_exists (f_name rf) (f_store rf) (f_workspace rf) cat = false ->
  Sos.get_capabilities_url svc = Raise e ->
  exists cat1,
    Sos.harvest_resource self resource_id svc cat = (Raise e, cat1)
    /\ dataset_exists (f_name rf) (f_store rf) (f_workspace rf) cat1 = true
    /\ links cat1 = links cat
    /\ Sos.harvest_resource self resource_id svc cat1
       = (Raise (RuntimeError (already_harvested resource_id)), cat1).
Proof.
  intros Hres Hnorm Hfree Hcap.
  assert (Hfirst : exists cat1,
             Sos.harvest_resource self resource_id svc cat = (Raise e, cat1)
             /\ dataset_exists (f_name rf) (f_store rf) (f_workspace rf) cat1 = true
             /\ links cat1 = links cat).
  { unfold Sos.harvest_resource, io_bind, io_lift, io_read.
    rewrite Hres, Hnorm, Hfree.
    unfold Sos.create_dataset.
    destruct (resource_manager_create _ cat) as [d cat0] eqn:Hcreate.
    unfold Sos.create_dataset_service_link, io_bind, io_lift.
    rewrite Hcap.
    match type of Hcreate with
    | resource_manager_create ?row _ = _ =>
        pose proof (created_row_found row (f_keywords rf) cat) as Hfound
    end.
    rewrite Hcreate in Hfound. cbn [fst snd] in Hfound.
    unfold resource_manager_create in Hcreate. inversion Hcreate; subst; clear Hcreate.
    cbn in Hfound.
    eexists. split; [reflexivity|]. split; [exact Hfound|reflexivity]. }
  destruct Hfirst as (cat1 & Hfirst & Hrow & Hlinks).
  exists cat1. repeat split; try assumption.
  eapply sos_harvest_duplicate; eassumption.
Qed.

End HarvestEdges.

(** X9 on a handler whose URL carries [version=3.0.0]. *)
Lemma sos_unsupported_version_in_url_witness :
  @Sos.parsed_service Demo.soslib PyUrl.lib Demo.sos_handler_v3
  = Raise (NotImplementedError (Sos.unsupported_message "3.0.0"))
  /\ @Sos.has_resources Demo.soslib PyUrl.lib Demo.sos_handler_v3
     = Raise (NotImplementedError (Sos.unsupported_message "3.0.0"))
  /\ @Sos.get_resources Demo.soslib PyUrl.lib Demo.sos_handler_v3 = Ok None
  /\ forall resource_id svc cat,
       @Sos.harvest_resource Demo.soslib PyUrl.lib Demo.platform
         Demo.sos_handler_v3 resource_id svc cat
       = (Raise (NotImplementedError (Sos.unsupported_message "3.0.0")), cat).
Proof.
  refine (@sos_unsupported_version_in_url PyUrl.lib Demo.platform Demo.soslib
            Demo.sos_handler_v3
            {| scheme := "http"; netloc := "sos.example"; path := "/service";
               params := ""; query := ""; fragment := "" |}
            (Some "SOS") "3.0.0" (Some "GetCapabilities") _ _);
    vm_compute; reflexivity.
Defined.

(** X11 on offering [off1] and a service whose method has no type. *)
Lemma sos_harvest_stops_after_create_witness :
  exists cat1,
    @Sos.harvest_resource Demo.soslib PyUrl.lib Demo.platform
      Demo.sos_handler "off1" Demo.untyped_service Demo.empty
    = (Raise (AttributeError "upper"), cat1)
    /\ dataset_exists (f_name Demo.fields_off1) (f_store Demo.fields_off1)
         (f_workspace Demo.fields_off1) cat1 = true
    /\ links cat1 = links Demo.empty
    /\ @Sos.harvest_resource Demo.soslib PyUrl.lib Demo.platform
         Demo.sos_handler "off1" Demo.untyped_service cat1
       = (Raise (RuntimeError (already_harvested "off1")), cat1).
Proof.
  refine (@sos_harvest_stops_after_create PyUrl.lib Demo.platform Demo.soslib
            Demo.sos_handler "off1" Demo.untyped_service Demo.empty
            Demo.offering_1 Demo.fields_off1 (AttributeError "upper") _ _ _ _);
    vm_compute; reflexivity.
Defined.

(* ===================================================================== *)
(** ** What a successful harvest writes                                   *)
(* ===================================================================== *)

Section RowFacts.
Context {P : Platform}.

Lemma le_fold_max (l : list nat) (n : nat) :
  In n l -> (n <= fold_right Nat.max 0 l)%nat.
Proof.
  induction l as [|x l IH]; [intros []|].
  intros [->|Hin]; cbn [fold_right]; [lia|].
  specialize (IH Hin). lia.
Qed.

(** The id [create] gives out is the id of no row of the catalog. *)
Lemma fresh_id_unused (cat : catalog) (d : Dataset) :
  In d (datasets cat) -> Nat.eqb (ds_id d) (fresh_id cat) = false.
Proof.
  intros Hin. apply Nat.eqb_neq. unfold fresh_id.
  pose proof (le_fold_max (map ds_id (datasets cat)) (ds_id d)
                (in_map ds_id _ _ Hin)). lia.
Qed.

Lemma alter_last (i : nat) (f : Dataset -> Dataset) (rows : list Dataset)
    (d : Dataset) (ls : list Link) :
  (forall x, In x rows -> Nat.eqb (ds_id x) i = false) ->
  ds_id d = i ->
  alter_dataset i f {| datasets := (rows ++ [d])%list; links := ls |}
  = {| datasets := (rows ++ [f d])%list; links := ls |}.
Proof.
  intros Hrows Hd. unfold alter_dataset. cbn [datasets links]. f_equal.
  rewrite map_app. cbn [map]. rewrite Hd, Nat.eqb_refl. f_equal.
  induction rows as [|x rows IH]; [reflexivity|].
  cbn [map]. rewrite (Hrows x (or_introl eq_refl)). f_equal.
  apply IH. intros y Hy. apply Hrows. right. exact Hy.
Qed.

(** What the three writes of [_create_dataset] leave: the rows that were
    there, and one new row with the keywords and the permissions set. *)
Lemma create_update_permissions (row : nat -> Dataset) (kws : list json) (cat : catalog) :
  (forall i, ds_id (row i) = i) ->
  let d := fst (resource_manager_create row cat) in
  resource_manager_set_permissions d
    (resource_manager_update d kws (snd (resource_manager_create row cat)))
  = {| datasets := (datasets cat
                    ++ [with_permissions (with_keywords kws (row (fresh_id cat)))])%list;
       links := links cat |}.
Proof.
  intros Hrow d. subst d. cbn [resource_manager_create fst snd].
  unfold resource_manager_set_permissions, resource_manager_update.
  rewrite Hrow.
  rewrite alter_last; [|intros x Hx; apply fresh_id_unused; exact Hx|apply Hrow].
  rewrite alter_last; [reflexivity|intros x Hx; apply fresh_id_unused; exact Hx|].
  cbn. apply Hrow.
Qed.

Lemma link_count_zero_create r n t e u m cat :
  link_count r n t cat = 0%nat ->
  links (link_update_or_create r n t e u m cat)
  = (links cat ++ [ {| link_resource := r; link_name := n; link_type := t;
                       link_extension := e; link_url := u; link_mime := m |} ])%list.
Proof.
  unfold link_count, link_update_or_create. cbn [links]. intros Hzero.
  assert (Hnone : existsb (link_matches r n t) (links cat) = false).
  { induction (links cat) as [|l ls IH]; [reflexivity|].
    cbn [filter existsb] in *. destruct (link_matches r n t l); [discriminate|].
    cbn [orb]. apply IH. exact Hzero. }
  rewrite Hnone. reflexivity.
Qed.

End RowFacts.

Section HarvestWrites.
Context {remote : Remote} {U : UrlLib} {P : Platform} {L : SosLib}.

(** X13.  A successful STA harvest adds exactly one dataset row behind
    the rows that were there and changes none of them.  The new row has
    the key of the normalised fields, their keywords, the permissions
    set, and is approved and published exactly when neither moderation
    setting is on; its OWS URL is the service URL for an indexed service
    and absent otherwise.  When the new id had no STA link, one link is
    added, and its URL is the OWS URL of the row. *)
Theorem sta_harvest_writes fuel (self : Sta.StaServiceHandler)
    resource_id svc cat dataset_meta rf :
  Sta.get_resource self resource_id = Ok dataset_meta ->
  Sta.get_indexed_dataset_fields fuel self dataset_meta = Ok rf ->
  dataset_exists (f_name rf) (f_store rf) (f_workspace rf) cat = false ->
  exists d cat1,
    Sta.harvest_resource fuel self resource_id svc cat = (Ok tt, cat1)
    /\ datasets cat1 = (datasets cat ++ [d])%list
    /\ ds_id d = fresh_id cat
    /\ (ds_name d, ds_store d, ds_workspace d) = (f_name rf, f_store rf, f_workspace rf)
    /\ ds_keywords d = f_keywords rf
    /\ ds_permissions_set d = true
    /\ ds_is_approved d = negb (RESOURCE_PUBLISHING || ADMIN_MODERATE_UPLOADS)
    /\ ds_is_published d = negb (RESOURCE_PUBLISHING || ADMIN_MODERATE_UPLOADS)
    /\ ds_ows_url d = match service_method svc with
                      | INDEXED => Some (service_url svc)
                      | CASCADED => None
                      end
    /\ (link_count (fresh_id cat) ("OGC STA: " ++ f_store rf ++ " Service") "OGC:STA" cat
        = 0%nat ->
        links cat1
        = (links cat ++ [ {| link_resource := fresh_id cat;
                             link_name := "OGC STA: " ++ f_store rf ++ " Service";
                             link_type := "OGC:STA";
                             link_extension := "html";
                             link_url := ds_ows_url d;
                             link_mime := "text/html" |} ])%list).
Proof.
  intros Hres Hnorm Hfree.
  unfold Sta.harvest_resource, io_bind, io_lift, io_read.
  rewrite Hres, Hnorm, Hfree.
  unfold Sta.create_dataset.
  match goal with
  | |- context [resource_manager_create ?row cat] =>
      pose proof (create_update_permissions row (f_keywords rf) cat
                    (fun i => eq_refl)) as Hrows;
      set (defaults := row) in *
  end.
  cbn zeta in Hrows.
  destruct (resource_manager_create defaults cat) as [d0 cat0] eqn:Hcreate.
  cbn [fst snd] in Hrows.
  assert (Hd0 : d0 = defaults (fresh_id cat)).
  { unfold resource_manager_create in Hcreate. inversion Hcreate. reflexivity. }
  rewrite Hrows.
  unfold Sta.create_dataset_service_link, io_bind, io_read, io_write, io_ret.
  exists (with_permissions (with_keywords (f_keywords rf) (defaults (fresh_id cat)))).
  assert (Hcount : forall n t,
             link_count (ds_id d0) n t
               {| datasets := (datasets cat ++
                    [with_permissions (with_keywords (f_keywords rf)
                                         (defaults (fresh_id cat)))])%list;
                  links := links cat |}
             = link_count (fresh_id cat) n t cat).
  { intros n t. rewrite Hd0. reflexivity. }
  rewrite Hcount.
  destruct (link_count (fresh_id cat) _ _ cat <? 2)%nat eqn:Hlt.
  - eexists. split; [reflexivity|].
    repeat (split; [reflexivity|]).
    intros Hzero. rewrite Hd0. subst defaults. cbn [ds_id ds_store ds_ows_url].
    rewrite link_count_zero_create; [reflexivity|].
    unfold link_count. cbn [links]. exact Hzero.
  - eexists. split; [reflexivity|].
    repeat (split; [reflexivity|]).
    intros Hzero. rewrite Hd0 in Hlt. subst defaults. cbn [ds_store] in Hlt.
    rewrite Hzero in Hlt. discriminate.
Qed.

(** X14.  A successful SOS harvest adds exactly one dataset row behind
    the rows that were there and changes none of them.  The row has the
    keywords of the normalised fields, the permissions set and the
    moderation flags; its OWS URL is the URL of the first [GET] binding
    of [GetCapabilities] when there is one, and else the service URL (for
    an indexed service) or nothing.  When the new id had no SOS link, one
    link is added, and its URL is the OWS URL of the row. *)
Theorem sos_harvest_writes (self : Sos.SosServiceHandler)
    resource_id svc cat offering rf found :
  Sos.get_resource self resource_id = Ok offering ->
  Sos.get_indexed_dataset_fields self offering = Ok rf ->
  dataset_exists (f_name rf) (f_store rf) (f_workspace rf) cat = false ->
  Sos.get_capabilities_url svc = Ok found ->
  exists d cat1,
    Sos.harvest_resource self resource_id svc cat = (Ok tt, cat1)
    /\ datasets cat1 = (datasets cat ++ [d])%list
    /\ ds_id d = fresh_id cat
    /\ (ds_name d, ds_store d, ds_workspace d) = (f_name rf, f_store rf, f_workspace rf)
    /\ ds_keywords d = f_keywords rf
    /\ ds_permissions_set d = true
    /\ ds_is_approved d = negb (RESOURCE_PUBLISHING || ADMIN_MODERATE_UPLOADS)
    /\ ds_is_published d = negb (RESOURCE_PUBLISHING || ADMIN_MODERATE_UPLOADS)
    /\ ds_ows_url d = match found, service_method svc with
                      | Some u, _ => Some u
                      | None, INDEXED => Some (service_url svc)
                      | None, CASCADED => None
                      end
    /\ (link_count (fresh_id cat) ("OGC SOS: " ++ f_store rf ++ " Service") "OGC:SOS" cat
        = 0%nat ->
        links cat1
        = (links cat ++ [ {| link_resource := fresh_id cat;
                             link_name := "OGC SOS: " ++ f_store rf ++ " Service";
                             link_type := "OGC:SOS";
                             link_extension := "html";
                             link_url := ds_ows_url d;
                             link_mime := "text/html" |} ])%list).
Proof.
  intros Hres Hnorm Hfree Hcap.
  unfold Sos.harvest_resource, io_bind, io_lift, io_read.
  rewrite Hres, Hnorm, Hfree.
  unfold Sos.create_dataset.
  match goal with
  | |- context [resource_manager_create ?row cat] =>
      pose proof (create_update_permissions row (f_keywords rf) cat
                    (fun i => eq_refl)) as Hrows;
      set (defaults := row) in *
  end.
  cbn zeta in Hrows.
  destruct (resource_manager_create defaults cat) as [d0 cat0] eqn:Hcreate.
  cbn [fst snd] in Hrows.
  assert (Hd0 : d0 = defaults (fresh_id cat)).
  { unfold resource_manager_create in Hcreate. inversion Hcreate. reflexivity. }
  rewrite Hrows.
  unfold Sos.create_dataset_service_link, io_bind, io_lift, io_read, io_write, io_ret.
  rewrite Hcap.
  destruct found as [u|].
  - unfold dataset_update_ows_url.
    rewrite alter_last;
      [|intros x Hx; rewrite Hd0; apply fresh_id_unused; exact Hx
       |rewrite Hd0; reflexivity].
    exists (with_ows_url (Some u)
              (with_permissions (with_keywords (f_keywords rf)
                                   (defaults (fresh_id cat))))).
    match goal with
    | |- context [(link_count ?i ?n ?t ?c <? 2)%nat] =>
        change (link_count i n t c)
          with (link_count (ds_id d0) ("OGC SOS: " ++ ds_store d0 ++ " Service")
                  "OGC:SOS" cat)
    end.
    rewrite Hd0. subst defaults. cbn [ds_id ds_store].
    destruct (link_count (fresh_id cat) _ _ cat <? 2)%nat eqn:Hlt.
    + eexists. split; [reflexivity|].
      repeat (split; [reflexivity|]).
      intros Hzero. cbn [ds_ows_url with_ows_url].
      rewrite link_count_zero_create; [reflexivity|].
      unfold link_count. cbn [links]. exact Hzero.
    + eexists. split; [reflexivity|].
      repeat (split; [reflexivity|]).
      intros Hzero. rewrite Hzero in Hlt. discriminate.
  - exists (with_permissions (with_keywords (f_keywords rf) (defaults (fresh_id cat)))).
    match goal with
    | |- context [(link_count ?i ?n ?t ?c <? 2)%nat] =>
        change (link_count i n t c)
          with (link_count (ds_id d0) ("OGC SOS: " ++ ds_store d0 ++ " Service")
                  "OGC:SOS" cat)
    end.
    rewrite Hd0. subst defaults. cbn [ds_id ds_store].
    destruct (link_count (fresh_id cat) _ _ cat <? 2)%nat eqn:Hlt.
    + eexists. split; [reflexivity|].
      repeat (split; [reflexivity|]).
      intros Hzero. cbn [ds_ows_url with_permissions with_keywords].
      rewrite link_count_zero_create; [reflexivity|].
      unfold link_count. cbn [links]. exact Hzero.
    + eexists. split; [reflexivity|].
      repeat (split; [reflexivity|]).
      intros Hzero. rewrite Hzero in Hlt. discriminate.
Qed.

End HarvestWrites.

(** X13 on datastream [7], harvested into the empty catalog. *)
Lemma sta_harvest_writes_witness :
  exists d cat1,
    @Sta.harvest_resource Demo.sta_remote PyUrl.lib Demo.platform 1
      Demo.sta_handler "7" Demo.service Demo.empty = (Ok tt, cat1)
    /\ datasets cat1 = (datasets Demo.empty ++ [d])%list
    /\ ds_id d = fresh_id Demo.empty
    /\ (ds_name d, ds_store d, ds_workspace d)
       = (f_name Demo.fields_7, f_store Demo.fields_7, f_workspace Demo.fields_7)
    /\ ds_keywords d = f_keywords Demo.fields_7
    /\ ds_permissions_set d = true
    /\ ds_is_approved d
       = negb (@RESOURCE_PUBLISHING Demo.platform || @ADMIN_MODERATE_UPLOADS Demo.platform)
    /\ ds_is_published d
       = negb (@RESOURCE_PUBLISHING Demo.platform || @ADMIN_MODERATE_UPLOADS Demo.platform)
    /\ ds_ows_url d = match service_method Demo.service with
                      | INDEXED => Some (service_url Demo.service)
                      | CASCADED => None
                      end
    /\ (link_count (fresh_id Demo.empty)
          ("OGC STA: " ++ f_store Demo.fields_7 ++ " Service") "OGC:STA" Demo.empty
        = 0%nat ->
        links cat1
        = (links Demo.empty
           ++ [ {| link_resource := fresh_id Demo.empty;
                   link_name := "OGC STA: " ++ f_store Demo.fields_7 ++ " Service";
                   link_type := "OGC:STA";
                   link_extension := "html";
                   link_url := ds_ows_url d;
                   link_mime := "text/html" |} ])%list).
Proof.
  refine (@sta_harvest_writes Demo.sta_remote PyUrl.lib Demo.platform
            1%nat Demo.sta_handler "7" Demo.service Demo.empty
            Demo.datastream_7 Demo.fields_7 _ _ _);
    vm_compute; reflexivity.
Defined.

(** X14 on offering [off1], harvested into the empty catalog. *)
Lemma sos_harvest_writes_witness :
  exists d cat1,
    @Sos.harvest_resource Demo.soslib PyUrl.lib Demo.platform
      Demo.sos_handler "off1" Demo.service Demo.empty = (Ok tt, cat1)
    /\ datasets cat1 = (datasets Demo.empty ++ [d])%list
    /\ ds_id d = fresh_id Demo.empty
    /\ (ds_name d, ds_store d, ds_workspace d)
       = (f_name Demo.fields_off1, f_store Demo.fields_off1,
          f_workspace Demo.fields_off1)
    /\ ds_keywords d = f_keywords Demo.fields_off1
    /\ ds_permissions_set d = true
    /\ ds_is_approved d
       = negb (@RESOURCE_PUBLISHING Demo.platform || @ADMIN_MODERATE_UPLOADS Demo.platform)
    /\ ds_is_published d
       = negb (@RESOURCE_PUBLISHING Demo.platform || @ADMIN_MODERATE_UPLOADS Demo.platform)
    /\ ds_ows_url d = Some "http://sos.example/get"
    /\ (link_count (fresh_id Demo.empty)
          ("OGC SOS: " ++ f_store Demo.fields_off1 ++ " Service") "OGC:SOS" Demo.empty
        = 0%nat ->
        links cat1
        = (links Demo.empty
           ++ [ {| link_resource := fresh_id Demo.empty;
                   link_name := "OGC SOS: " ++ f_store Demo.fields_off1 ++ " Service";
                   link_type := "OGC:SOS";
                   link_extension := "html";
                   link_url := ds_ows_url d;
                   link_mime := "text/html" |} ])%list).
Proof.
  refine (@sos_harvest_writes PyUrl.lib Demo.platform Demo.soslib
            Demo.sos_handler "off1" Demo.service Demo.empty
            Demo.offering_1 Demo.fields_off1 (Some "http://sos.example/get") _ _ _ _);
    vm_compute; reflexivity.
Defined.

(* ===================================================================== *)
(** ** The harvest when a catalog call can fail                           *)
(* ===================================================================== *)

Section FaultyCatalog.
Context {remote : Remote} {U : UrlLib} {P : Platform} {L : SosLib}.

(** A row appended under a key is found under that key. *)
Lemma appended_row_found cat cat' d n st ws :
  datasets cat' = (datasets cat ++ [d])%list ->
  (ds_name d, ds_store d, ds_workspace d) = (n, st, ws) ->
  dataset_exists n st ws cat' = true.
Proof.
  intros Hrows Hkey. inversion Hkey; subst; clear Hkey.
  unfold dataset_exists. rewrite Hrows, existsb_app. cbn [existsb].
  rewrite same_key_refl. apply orb_true_iff. right. reflexivity.
Qed.

(** With no fault the methods are the ones the claims are about. *)
Lemma sta_harvest_no_faults fuel (self : Sta.StaServiceHandler) resource_id svc cat :
  Sta.harvest_resource_under no_faults fuel self resource_id svc cat
  = Sta.harvest_resource fuel self resource_id svc cat.
Proof.
  unfold Sta.harvest_resource_under, Sta.harvest_resource, io_bind, io_lift, io_try,
    io_read.
  destruct (Sta.get_resource self resource_id) as [dataset_meta|]; [|reflexivity].
  destruct (Sta.get_indexed_dataset_fields fuel self dataset_meta) as [rf|];
    [|reflexivity].
  cbn [no_faults exists_fault].
  destruct (dataset_exists _ _ _ cat); reflexivity.
Qed.

Lemma sos_harvest_no_faults (self : Sos.SosServiceHandler) resource_id svc cat :
  Sos.harvest_resource_under no_faults self resource_id svc cat
  = Sos.harvest_resource self resource_id svc cat.
Proof.
  unfold Sos.harvest_resource_under, Sos.harvest_resource, io_bind, io_lift, io_try,
    io_read.
  destruct (Sos.get_resource self resource_id) as [offering|]; [|reflexivity].
  destruct (Sos.get_indexed_dataset_fields self offering) as [rf|]; [|reflexivity].
  cbn [no_faults exists_fault].
  destruct (dataset_exists _ _ _ cat); [reflexivity|].
  unfold Sos.create_dataset_under, Sos.create_dataset, io_bind, io_try, io_create,
    io_write, io_ret.
  cbn [no_faults create_fault update_fault set_permissions_fault].
  unfold Sos.create_dataset_service_link_under, Sos.create_dataset_service_link,
    io_bind, io_lift, io_try, io_read, io_write, io_ret.
  cbn [resource_manager_create].
  destruct (Sos.get_capabilities_url svc) as [[u|]|]; reflexivity.
Qed.


(** The states [_create_dataset] can leave: nothing written (the create
    call failed), or the rows that were there and one new row under the
    key of the fields (a later call may have failed). *)
Ltac create_under_cases :=
  unfold io_bind, io_try, io_create, io_write, io_ret;
  match goal with
  | |- context [create_fault ?F ?cat] =>
      destruct (create_fault F cat);
      [intros [= <- <-]; left; split; [reflexivity|eauto]|]
  end;
  cbn [resource_manager_create];
  match goal with
  | |- context [update_fault ?F ?c] =>
      destruct (update_fault F c);
      [intros [= <- <-]; right; eexists; cbn [datasets links];
       repeat split; try reflexivity; intros d' Hd'; discriminate Hd'|]
  end;
  unfold resource_manager_update; cbn [ds_id];
  rewrite alter_last;
    [|intros x Hx; apply fresh_id_unused; exact Hx|reflexivity];
  match goal with
  | |- context [set_permissions_fault ?F ?c] =>
      destruct (set_permissions_fault F c);
      [intros [= <- <-]; right; eexists; cbn [datasets links];
       repeat split; try reflexivity; intros d' Hd'; discriminate Hd'|]
  end;
  unfold resource_manager_set_permissions; cbn [ds_id];
  rewrite alter_last;
    [|intros x Hx; apply fresh_id_unused; exact Hx|reflexivity];
  intros [= <- <-]; right; eexists; cbn [datasets links];
  repeat split; try reflexivity;
  intros d' Hd'; inversion Hd'; subst; reflexivity.

Lemma sta_create_under_cases (F : Faults) svc rf a b cat r cat1 :
  Sta.create_dataset_under F svc rf a b cat = (r, cat1) ->
  (cat1 = cat /\ exists e, r = Raise e)
  \/ exists d,
       datasets cat1 = (datasets cat ++ [d])%list
       /\ links cat1 = links cat
       /\ ds_id d = fresh_id cat
       /\ (ds_name d, ds_store d, ds_workspace d)
          = (f_name rf, f_store rf, f_workspace rf)
       /\ forall d', r = Ok d' -> ds_id d' = fresh_id cat.
Proof. unfold Sta.create_dataset_under. create_under_cases. Qed.

Lemma sos_create_under_cases (F : Faults) svc rf a b cat r cat1 :
  Sos.create_dataset_under F svc rf a b cat = (r, cat1) ->
  (cat1 = cat /\ exists e, r = Raise e)
  \/ exists d,
       datasets cat1 = (datasets cat ++ [d])%list
       /\ links cat1 = links cat
       /\ ds_id d = fresh_id cat
       /\ (ds_name d, ds_store d, ds_workspace d)
          = (f_name rf, f_store rf, f_workspace rf)
       /\ forall d', r = Ok d' -> ds_id d' = fresh_id cat.
Proof. unfold Sos.create_dataset_under. create_under_cases. Qed.


(** The STA link step touches no dataset row, and writes nothing when it
    raises. *)
Lemma sta_link_under_cases (F : Faults) d' cat1 r cat2 :
  Sta.create_dataset_service_link_under F d' cat1 = (r, cat2) ->
  datasets cat2 = datasets cat1 /\ (forall e, r = Raise e -> cat2 = cat1).
Proof.
  unfold Sta.create_dataset_service_link_under, io_bind, io_try, io_read, io_write,
    io_ret.
  destruct (link_count_fault F cat1);
    [intros [= <- <-]; split; [reflexivity|intros; reflexivity]|].
  destruct (link_count _ _ _ cat1 <? 2)%nat.
  - destruct (link_fault F cat1); intros [= <- <-]; split;
      first [reflexivity | intros; reflexivity | intros e He; discriminate He].
  - intros [= <- <-]. split; [reflexivity|intros e He; discriminate He].
Qed.

(** The SOS link step changes at most the OWS URL of the new row, and
    writes no link when it raises. *)
Lemma sos_link_under_cases (F : Faults) svc d' cat1 rows d r cat2 :
  datasets cat1 = (rows ++ [d])%list ->
  (forall x, In x rows -> Nat.eqb (ds_id x) (ds_id d') = false) ->
  ds_id d = ds_id d' ->
  Sos.create_dataset_service_link_under F svc d' cat1 = (r, cat2) ->
  exists d2,
    datasets cat2 = (rows ++ [d2])%list
    /\ (ds_name d2, ds_store d2, ds_workspace d2)
       = (ds_name d, ds_store d, ds_workspace d)
    /\ (forall e, r = Raise e -> links cat2 = links cat1).
Proof.
  intros Hrows Hfresh Hid.
  destruct cat1 as [rows1 ls]. cbn [datasets links] in *. subst rows1.
  unfold Sos.create_dataset_service_link_under, io_bind, io_lift, io_try, io_read,
    io_write, io_ret.
  destruct (Sos.get_capabilities_url svc) as [[u|]|e0].
  - destruct (update_ows_url_fault F _);
      [intros [= <- <-]; exists d; repeat split; intros; reflexivity|].
    unfold dataset_update_ows_url. rewrite (alter_last _ _ _ _ _ Hfresh Hid).
    destruct (link_count_fault F _);
      [intros [= <- <-]; eexists; repeat split; intros; reflexivity|].
    destruct (link_count _ _ _ _ <? 2)%nat.
    + destruct (link_fault F _); intros [= <- <-]; eexists; cbn [datasets links];
        repeat split; first [reflexivity | intros e He; discriminate He | intros; reflexivity].
    + intros [= <- <-]. eexists. cbn [datasets links].
      repeat split; intros e He; discriminate He.
  - destruct (link_count_fault F _);
      [intros [= <- <-]; exists d; repeat split; intros; reflexivity|].
    destruct (link_count _ _ _ _ <? 2)%nat.
    + destruct (link_fault F _); intros [= <- <-]; exists d; cbn [datasets links];
        repeat split; first [reflexivity | intros e He; discriminate He | intros; reflexivity].
    + intros [= <- <-]. exists d. cbn [datasets links].
      repeat split; intros e He; discriminate He.
  - intros [= <- <-]. exists d. repeat split; intros; reflexivity.
Qed.

Lemma result_cases {A : Type} (c : result A) :
  (exists a, c = Ok a) \/ (exists e, c = Raise e).
Proof. destruct c; eauto. Qed.

(** A resource whose row is in the catalog is refused when the existence
    query answers. *)
Lemma sta_under_duplicate (F : Faults) fuel (self : Sta.StaServiceHandler)
    resource_id svc cat dataset_meta rf :
  Sta.get_resource self resource_id = Ok dataset_meta ->
  Sta.get_indexed_dataset_fields fuel self dataset_meta = Ok rf ->
  exists_fault F cat = None ->
  dataset_exists (f_name rf) (f_store rf) (f_workspace rf) cat = true ->
  Sta.harvest_resource_under F fuel self resource_id svc cat
  = (Raise (RuntimeError (already_harvested resource_id)), cat).
Proof.
  intros Hres Hnorm Hanswer Hfound.
  unfold Sta.harvest_resource_under, io_bind, io_lift, io_try, io_read.
  rewrite Hres, Hnorm, Hanswer, Hfound. reflexivity.
Qed.

Lemma sos_under_duplicate (F : Faults) (self : Sos.SosServiceHandler)
    resource_id svc cat offering rf :
  Sos.get_resource self resource_id = Ok offering ->
  Sos.get_indexed_dataset_fields self offering = Ok rf ->
  exists_fault F cat = None ->
  dataset_exists (f_name rf) (f_store rf) (f_workspace rf) cat = true ->
  Sos.harvest_resource_under F self resource_id svc cat
  = (Raise (RuntimeError (already_harvested resource_id)), cat).
Proof.
  intros Hres Hnorm Hanswer Hfound.
  unfold Sos.harvest_resource_under, io_bind, io_lift, io_try, io_read.
  rewrite Hres, Hnorm, Hanswer, Hfound. reflexivity.
Qed.

(** X10.  An STA harvest whose catalog calls can fail.  Whenever
    [harvest_resource] raises, either nothing was written, or the catalog
    holds exactly one row more than before, under the key of the
    resource, and no new link: what [_create_dataset] wrote is not taken
    back.  Harvesting the resource again against that catalog then raises
    'has already been harvested', whatever the service and however the
    catalog calls behave, as long as the existence query answers. *)
Theorem sta_harvest_failure_cases (F : Faults) fuel (self : Sta.StaServiceHandler)
    resource_id svc cat e cat' :
  Sta.harvest_resource_under F fuel self resource_id svc cat = (Raise e, cat') ->
  cat' = cat
  \/ exists dataset_meta rf d,
       Sta.get_resource self resource_id = Ok dataset_meta
       /\ Sta.get_indexed_dataset_fields fuel self dataset_meta = Ok rf
       /\ datasets cat' = (datasets cat ++ [d])%list
       /\ links cat' = links cat
       /\ (ds_name d, ds_store d, ds_workspace d)
          = (f_name rf, f_store rf, f_workspace rf)
       /\ dataset_exists (f_name rf) (f_store rf) (f_workspace rf) cat' = true
       /\ forall (F' : Faults) svc',
            exists_fault F' cat' = None ->
            Sta.harvest_resource_under F' fuel self resource_id svc' cat'
            = (Raise (RuntimeError (already_harvested resource_id)), cat').
Proof.
  intros H. unfold Sta.harvest_resource_under in H.
  unfold io_bind at 1 2 3 in H. unfold io_lift, io_try, io_read in H.
  destruct (result_cases (Sta.get_resource self resource_id))
    as [[dataset_meta Hres]|[e0 Hres]]; rewrite Hres in H;
    [|inversion H; left; reflexivity].
  destruct (result_cases (Sta.get_indexed_dataset_fields fuel self dataset_meta))
    as [[rf Hnorm]|[e0 Hnorm]]; rewrite Hnorm in H;
    [|inversion H; left; reflexivity].
  destruct (exists_fault F cat); [inversion H; left; reflexivity|].
  destruct (dataset_exists _ _ _ cat); [inversion H; left; reflexivity|].
  unfold io_bind in H.
  destruct (Sta.create_dataset_under F svc rf _ _ cat) as [r cat1] eqn:Hcreate.
  destruct (sta_create_under_cases _ _ _ _ _ _ _ _ Hcreate)
    as [[-> [e1 ->]]|(d & Hrows & Hlinks & Hid & Hkey & Hhandle)];
    [inversion H; left; reflexivity|].
  assert (Hstate : datasets cat' = (datasets cat ++ [d])%list /\ links cat' = links cat).
  { destruct r as [d'|e1].
    - destruct (Sta.create_dataset_service_link_under F d' cat1) as [r2 cat2] eqn:Hlink.
      destruct (sta_link_under_cases _ _ _ _ _ Hlink) as [_ Hraise].
      inversion H; subst. rewrite (Hraise e eq_refl). split; assumption.
    - inversion H; subst. split; assumption. }
  destruct Hstate as [Hrows' Hlinks'].
  right. exists dataset_meta, rf, d.
  assert (Hfound : dataset_exists (f_name rf) (f_store rf) (f_workspace rf) cat' = true)
    by (apply (appended_row_found cat cat' d); assumption).
  repeat (split; [assumption|]).
  intros F' svc' Hanswer.
  apply (sta_under_duplicate F' fuel self resource_id svc' cat' dataset_meta rf);
    assumption.
Qed.

(** X12.  An SOS harvest whose catalog calls can fail.  Whenever
    [harvest_resource] raises, either nothing was written, or the catalog
    holds exactly one row more than before, under the key of the
    resource, and no new link; this is also the state a failing search
    for the [GetCapabilities] URL leaves.  Harvesting the resource again
    against that catalog then raises 'has already been harvested', as
    long as the existence query answers. *)
Theorem sos_harvest_failure_cases (F : Faults) (self : Sos.SosServiceHandler)
    resource_id svc cat e cat' :
  Sos.harvest_resource_under F self resource_id svc cat = (Raise e, cat') ->
  cat' = cat
  \/ exists offering rf d,
       Sos.get_resource self resource_id = Ok offering
       /\ Sos.get_indexed_dataset_fields self offering = Ok rf
       /\ datasets cat' = (datasets cat ++ [d])%list
       /\ links cat' = links cat
       /\ (ds_name d, ds_store d, ds_workspace d)
          = (f_name rf, f_store rf, f_workspace rf)
       /\ dataset_exists (f_name rf) (f_store rf) (f_workspace rf) cat' = true
       /\ forall (F' : Faults) svc',
            exists_fault F' cat' = None ->
            Sos.harvest_resource_under F' self resource_id svc' cat'
            = (Raise (RuntimeError (already_harvested resource_id)), cat').
Proof.
  intros H. unfold Sos.harvest_resource_under in H.
  unfold io_bind at 1 2 3 in H. unfold io_lift, io_try, io_read in H.
  destruct (result_cases (Sos.get_resource self resource_id))
    as [[offering Hres]|[e0 Hres]]; rewrite Hres in H;
    [|inversion H; left; reflexivity].
  destruct (result_cases (Sos.get_indexed_dataset_fields self offering))
    as [[rf Hnorm]|[e0 Hnorm]]; rewrite Hnorm in H;
    [|inversion H; left; reflexivity].
  destruct (exists_fault F cat); [inversion H; left; reflexivity|].
  destruct (dataset_exists _ _ _ cat); [inversion H; left; reflexivity|].
  unfold io_bind in H.
  destruct (Sos.create_dataset_under F svc rf _ _ cat) as [r cat1] eqn:Hcreate.
  destruct (sos_create_under_cases _ _ _ _ _ _ _ _ Hcreate)
    as [[-> [e1 ->]]|(d & Hrows & Hlinks & Hid & Hkey & Hhandle)];
    [inversion H; left; reflexivity|].
  assert (Hstate : exists d2,
             datasets cat' = (datasets cat ++ [d2])%list
             /\ links cat' = links cat
             /\ (ds_name d2, ds_store d2, ds_workspace d2)
                = (f_name rf, f_store rf, f_workspace rf)).
  { destruct r as [d'|e1].
    - destruct (Sos.create_dataset_service_link_under F svc d' cat1)
        as [r2 cat2] eqn:Hlink.
      assert (Hd' : ds_id d' = fresh_id cat) by (apply Hhandle; reflexivity).
      destruct (sos_link_under_cases F svc d' cat1 (datasets cat) d r2 cat2 Hrows)
        as (d2 & Hrows2 & Hkey2 & Hraise); [| |exact Hlink|].
      + intros x Hx. rewrite Hd'. apply fresh_id_unused. exact Hx.
      + congruence.
      + inversion H; subst. exists d2. split; [exact Hrows2|].
        split; [rewrite (Hraise e eq_refl); exact Hlinks|congruence].
    - inversion H; subst. exists d. repeat split; assumption. }
  destruct Hstate as (d2 & Hrows' & Hlinks' & Hkey').
  right. exists offering, rf, d2.
  assert (Hfound : dataset_exists (f_name rf) (f_store rf) (f_workspace rf) cat' = true)
    by (apply (appended_row_found cat cat' d2); assumption).
  repeat (split; [assumption|]).
  intros F' svc' Hanswer.
  apply (sos_under_duplicate F' self resource_id svc' cat' offering rf); assumption.
Qed.

End FaultyCatalog.

(** X10 on datastream [7] and a catalog whose link call fails: the row
    is written, the call raises. *)
Lemma sta_harvest_failure_cases_witness :
  exists cat1,
    @Sta.harvest_resource_under Demo.sta_remote PyUrl.lib Demo.platform
      Demo.link_fails 1 Demo.sta_handler "7" Demo.service Demo.empty
    = (Raise (External "catalog"), cat1)
    /\ List.length (datasets cat1) = 1%nat
    /\ (cat1 = Demo.empty
        \/ exists dataset_meta rf d,
             @Sta.get_resource Demo.sta_remote PyUrl.lib Demo.platform
               Demo.sta_handler "7" = Ok dataset_meta
             /\ @Sta.get_indexed_dataset_fields Demo.sta_remote PyUrl.lib Demo.platform
                  1 Demo.sta_handler dataset_meta = Ok rf
             /\ datasets cat1 = (datasets Demo.empty ++ [d])%list
             /\ links cat1 = links Demo.empty
             /\ (ds_name d, ds_store d, ds_workspace d)
                = (f_name rf, f_store rf, f_workspace rf)
             /\ dataset_exists (f_name rf) (f_store rf) (f_workspace rf) cat1 = true
             /\ forall (F' : Faults) svc',
                  exists_fault F' cat1 = None ->
                  @Sta.harvest_resource_under Demo.sta_remote PyUrl.lib Demo.platform
                    F' 1 Demo.sta_handler "7" svc' cat1
                  = (Raise (RuntimeError (already_harvested "7")), cat1)).
Proof.
  eexists. split; [vm_compute; reflexivity|]. split; [reflexivity|].
  refine (@sta_harvest_failure_cases Demo.sta_remote PyUrl.lib Demo.platform
            Demo.link_fails 1%nat Demo.sta_handler "7" Demo.service Demo.empty
            (External "catalog") _ _).
  vm_compute; reflexivity.
Defined.

(** X12 on offering [off1] and a catalog whose link call fails. *)
Lemma sos_harvest_failure_cases_witness :
  exists cat1,
    @Sos.harvest_resource_under Demo.soslib PyUrl.lib Demo.platform
      Demo.link_fails Demo.sos_handler "off1" Demo.service Demo.empty
    = (Raise (External "catalog"), cat1)
    /\ List.length (datasets cat1) = 1%nat
    /\ (cat1 = Demo.empty
        \/ exists offering rf d,
             @Sos.get_resource Demo.soslib PyUrl.lib Demo.sos_handler "off1" = Ok offering
             /\ @Sos.get_indexed_dataset_fields Demo.platform Demo.sos_handler offering
                = Ok rf
             /\ datasets cat1 = (datasets Demo.empty ++ [d])%list
             /\ links cat1 = links Demo.empty
             /\ (ds_name d, ds_store d, ds_workspace d)
                = (f_name rf, f_store rf, f_workspace rf)
             /\ dataset_exists (f_name rf) (f_store rf) (f_workspace rf) cat1 = true
             /\ forall (F' : Faults) svc',
                  exists_fault F' cat1 = None ->
                  @Sos.harvest_resource_under Demo.soslib PyUrl.lib Demo.platform
                    F' Demo.sos_handler "off1" svc' cat1
                  = (Raise (RuntimeError (already_harvested "off1")), cat1)).
Proof.
  eexists. split; [vm_compute; reflexivity|]. split; [reflexivity|].
  refine (@sos_harvest_failure_cases PyUrl.lib Demo.platform Demo.soslib
            Demo.link_fails Demo.sos_handler "off1" Demo.service Demo.empty
            (External "catalog") _ _).
  vm_compute; reflexivity.
Defined.

(* ===================================================================== *)
(** ** The search for the GetCapabilities URL                             *)
(* ===================================================================== *)

Section CapabilitiesUrl.

(** A method the search passes over has a type, and either the type is
    not [GET] (in any case of letters) or the method has no URL. *)
Lemma search_past_prefix pre rest d :
  Forall (fun m => exists t, method_type m = Some t
                             /\ String.eqb (Sos.upper t) "GET"
                                && Sos.truthy (method_url m) = false) pre ->
  Sos.first_get_url (pre ++ rest) = Sos.first_get_url rest
  /\ Sos.last_get_url d (pre ++ rest) = Sos.last_get_url d rest.
Proof.
  induction 1 as [|m pre (t & Ht & Hno) _ IH]; [split; reflexivity|].
  cbn [app Sos.first_get_url Sos.last_get_url]. rewrite Ht, Hno. exact IH.
Qed.

(** X15.  The link step of an SOS harvest and [create_cascaded_store]
    search the same methods differently.  At the first [GET] binding that
    has a URL the link step stops and takes that URL, whatever follows;
    the store goes on through the remaining methods with that URL as its
    candidate, so a later [GET] binding replaces it and a later method
    without a type makes it raise. *)
Theorem get_url_first_and_last pre m post t u d :
  Forall (fun m => exists t, method_type m = Some t
                             /\ String.eqb (Sos.upper t) "GET"
                                && Sos.truthy (method_url m) = false) pre ->
  method_type m = Some t ->
  Sos.upper t = "GET" ->
  method_url m = Some u ->
  u <> "" ->
  Sos.first_get_url (pre ++ m :: post) = Ok (Some u)
  /\ Sos.last_get_url d (pre ++ m :: post) = Sos.last_get_url u post.
Proof.
  intros Hpre Ht Hget Hu Hne.
  destruct (search_past_prefix pre (m :: post) d Hpre) as [-> ->].
  cbn [Sos.first_get_url Sos.last_get_url]. rewrite Ht, Hget, Hu.
  assert (Htruthy : Sos.truthy (Some u) = true).
  { unfold Sos.truthy, falsy. destruct u; [contradiction Hne; reflexivity|reflexivity]. }
  rewrite Htruthy. cbn. split; reflexivity.
Qed.

Lemma last_get_url_typed d ms :
  Forall (fun m => method_type m <> None) ms ->
  exists u, Sos.last_get_url d ms = Ok u
            /\ (u = d \/ exists m t, In m ms /\ method_type m = Some t
                                     /\ Sos.upper t = "GET" /\ method_url m = Some u).
Proof.
  intros Hall. revert d.
  induction Hall as [|m ms Hm _ IH]; intros d.
  - exists d. split; [reflexivity|left; reflexivity].
  - cbn [Sos.last_get_url].
    destruct (method_type m) as [t|] eqn:Ht; [|contradiction Hm; reflexivity].
    destruct (String.eqb (Sos.upper t) "GET" && Sos.truthy (method_url m)) eqn:Hq.
    + apply andb_true_iff in Hq. destruct Hq as [Hget Hurl].
      apply String.eqb_eq in Hget.
      destruct (method_url m) as [u0|] eqn:Hu; [|discriminate Hurl].
      destruct (IH u0) as (u & Hrun & Hwhich).
      exists u. split; [exact Hrun|]. right.
      destruct Hwhich as [->|(m' & t' & Hin & Ht' & Hget' & Hu')].
      * exists m, t. repeat split; try assumption. left. reflexivity.
      * exists m', t'. repeat split; try assumption. right. exact Hin.
    + destruct (IH d) as (u & Hrun & Hwhich).
      exists u. split; [exact Hrun|].
      destruct Hwhich as [->|(m' & t' & Hin & Ht' & Hget' & Hu')];
        [left; reflexivity|right].
      exists m', t'. repeat split; try assumption. right. exact Hin.
Qed.

Lemma last_get_url_untyped d ms :
  Exists (fun m => method_type m = None) ms ->
  Sos.last_get_url d ms = Raise (AttributeError "upper").
Proof.
  intros Hex. revert d.
  induction Hex as [m ms Hm|m ms _ IH]; intros d; cbn [Sos.last_get_url].
  - rewrite Hm. reflexivity.
  - destruct (method_type m) as [t|]; [|reflexivity].
    destruct (String.eqb (Sos.upper t) "GET" && Sos.truthy (method_url m)); apply IH.
Qed.

(** X16.  The URL [create_cascaded_store] stores as the capabilities URL
    of the store.  Without a [GetCapabilities] operation, or with one
    that has no methods, it is the service URL.  With methods, one method
    without a type anywhere in the list makes the call raise
    [AttributeError]; when every method has a type the URL is the
    service URL or the URL of a [GET] binding of the list. *)
Theorem cascaded_store_url_cases (service : Service) :
  (In (assoc "GetCapabilities" (service_operations service))
      [None; Some None; Some (Some [])] ->
   Sos.cascaded_store_url service = Ok (service_url service))
  /\ (forall ms,
        assoc "GetCapabilities" (service_operations service) = Some (Some ms) ->
        Exists (fun m => method_type m = None) ms ->
        Sos.cascaded_store_url service = Raise (AttributeError "upper"))
  /\ (forall ms,
        assoc "GetCapabilities" (service_operations service) = Some (Some ms) ->
        Forall (fun m => method_type m <> None) ms ->
        exists u,
          Sos.cascaded_store_url service = Ok u
          /\ (u = service_url service
              \/ exists m t, In m ms /\ method_type m = Some t
                             /\ Sos.upper t = "GET" /\ method_url m = Some u)).
Proof.
  unfold Sos.cascaded_store_url. split; [|split].
  - intros [<-|[<-|[<-|[]]]]; reflexivity.
  - intros ms -> Hex. destruct ms as [|m ms]; [inversion Hex|].
    apply last_get_url_untyped. exact Hex.
  - intros ms -> Hall. destruct ms as [|m ms].
    + exists (service_url service). split; [reflexivity|left; reflexivity].
    + apply last_get_url_typed. exact Hall.
Qed.

End CapabilitiesUrl.

(** X15 on a [POST] binding followed by two [GET] bindings. *)
Lemma get_url_first_and_last_witness :
  Sos.first_get_url
    [ {| method_type := Some "Post"; method_url := Some "http://sos.example/post" |};
      {| method_type := Some "Get"; method_url := Some "http://sos.example/a" |};
      {| method_type := Some "GET"; method_url := Some "http://sos.example/b" |} ]
  = Ok (Some "http://sos.example/a")
  /\ Sos.last_get_url "http://sos.example/service"
       [ {| method_type := Some "Post"; method_url := Some "http://sos.example/post" |};
         {| method_type := Some "Get"; method_url := Some "http://sos.example/a" |};
         {| method_type := Some "GET"; method_url := Some "http://sos.example/b" |} ]
     = Ok "http://sos.example/b".
Proof.
  refine (get_url_first_and_last
            [ {| method_type := Some "Post";
                 method_url := Some "http://sos.example/post" |} ]
            {| method_type := Some "Get"; method_url := Some "http://sos.example/a" |}
            [ {| method_type := Some "GET"; method_url := Some "http://sos.example/b" |} ]
            "Get" "http://sos.example/a" "http://sos.example/service" _ _ _ _ _).
  - constructor; [|constructor]. exists "Post". split; reflexivity.
  - reflexivity.
  - reflexivity.
  - reflexivity.
  - discriminate.
Defined.

(** X16 on a service whose method has no type, and on the sample
    service. *)
Lemma cascaded_store_url_cases_witness :
  Sos.cascaded_store_url Demo.untyped_service = Raise (AttributeError "upper")
  /\ exists u,
       Sos.cascaded_store_url Demo.service = Ok u
       /\ (u = service_url Demo.service
           \/ exists m t,
                In m [ {| method_type := Some "Post";
                          method_url := Some "http://sos.example/post" |};
                       {| method_type := Some "Get";
                          method_url := Some "http://sos.example/get" |} ]
                /\ method_type m = Some t
                /\ Sos.upper t = "GET" /\ method_url m = Some u).
Proof.
  split.
  - refine (proj1 (proj2 (cascaded_store_url_cases Demo.untyped_service)) _ eq_refl _).
    constructor. reflexivity.
  - refine (proj2 (proj2 (cascaded_store_url_cases Demo.service)) _ eq_refl _).
    repeat constructor; discriminate.
Defined.

(* ===================================================================== *)
(** ** Bounds the normalised fields keep                                  *)
(* ===================================================================== *)

Section FieldBounds.
Context {remote : Remote} {U : UrlLib} {P : Platform} {L : SosLib}.

Lemma truncate_length n s : (String.length (truncate n s) <= n)%nat.
Proof.
  destruct (truncate_spec n s) as (_ & _ & Hlen). rewrite Hlen. lia.
Qed.

Lemma sliced_bounded n members kws :
  traverse (slice_to n) members = Ok kws ->
  Forall (fun kw => exists s, kw = JStr s /\ (String.length s <= n)%nat) kws.
Proof.
  intros H. apply traverse_slice in H.
  induction H as [|m kw members kws (s & _ & ->) _ IH]; constructor; [|exact IH].
  exists (truncate n s). split; [reflexivity|apply truncate_length].
Qed.

(** X17.  The fields a normaliser returns for a handler built by
    [__init__] fit the columns they go to: the store name has at most 255
    characters and every keyword is a text of at most 100 characters,
    whatever the service URL and the names the remote service reports;
    the workspace is always [remoteWorkspace] and the subtype [remote].
    For STA the name of the datastream serves as name, alternate and
    title. *)
Theorem normalised_fields_fit :
  (forall url offering rf,
      Sos.get_indexed_dataset_fields (Sos.handler_init url) offering = Ok rf ->
      (String.length (f_store rf) <= 255)%nat
      /\ Forall (fun kw => exists s, kw = JStr s /\ (String.length s <= 100)%nat)
           (f_keywords rf)
      /\ f_workspace rf = "remoteWorkspace" /\ f_subtype rf = "remote"
      /\ f_name rf = JStr (offering_id offering) /\ f_alternate rf = f_name rf)
  /\ (forall fuel url dataset_meta rf,
      Sta.get_indexed_dataset_fields fuel (Sta.handler_init url) dataset_meta = Ok rf ->
      (String.length (f_store rf) <= 255)%nat
      /\ Forall (fun kw => exists s, kw = JStr s /\ (String.length s <= 100)%nat)
           (f_keywords rf)
      /\ f_workspace rf = "remoteWorkspace" /\ f_subtype rf = "remote"
      /\ getitem Sta.NAME dataset_meta = Ok (f_name rf)
      /\ f_alternate rf = f_name rf /\ f_title rf = f_name rf).
Proof.
  split.
  - intros url offering rf H. unfold Sos.get_indexed_dataset_fields in H.
    ok_all. cbn [f_store f_keywords f_workspace f_subtype f_name f_alternate].
    split; [exact (truncate_length 255 (slugify url))|].
    split; [eapply sliced_bounded; eassumption|].
    repeat split.
  - intros fuel url dataset_meta rf H. unfold Sta.get_indexed_dataset_fields in H.
    ok_all.
    cbn [f_store f_keywords f_workspace f_subtype f_name f_alternate f_title].
    split; [exact (truncate_length 255 (slugify url))|].
    split; [eapply sliced_bounded; eassumption|].
    repeat split; assumption.
Qed.

End FieldBounds.

(** X17 on offering [off3], whose property names have 101 characters, and
    on datastream [7]. *)
Lemma normalised_fields_fit_witness :
  ((String.length (f_store Demo.fields_off3) <= 255)%nat
   /\ Forall (fun kw => exists s, kw = JStr s /\ (String.length s <= 100)%nat)
        (f_keywords Demo.fields_off3)
   /\ f_workspace Demo.fields_off3 = "remoteWorkspace"
   /\ f_subtype Demo.fields_off3 = "remote"
   /\ f_name Demo.fields_off3 = JStr (offering_id Demo.offering_3)
   /\ f_alternate Demo.fields_off3 = f_name Demo.fields_off3)
  /\ ((String.length (f_store Demo.fields_7) <= 255)%nat
      /\ Forall (fun kw => exists s, kw = JStr s /\ (String.length s <= 100)%nat)
           (f_keywords Demo.fields_7)
      /\ f_workspace Demo.fields_7 = "remoteWorkspace"
      /\ f_subtype Demo.fields_7 = "remote"
      /\ getitem Sta.NAME Demo.datastream_7 = Ok (f_name Demo.fields_7)
      /\ f_alternate Demo.fields_7 = f_name Demo.fields_7
      /\ f_title Demo.fields_7 = f_name Demo.fields_7).
Proof.
  split.
  - refine (proj1 (@normalised_fields_fit Demo.sta_remote PyUrl.lib Demo.platform)
              Demo.sos_url Demo.offering_3 Demo.fields_off3 _).
    vm_compute; reflexivity.
  - refine (proj2 (@normalised_fields_fit Demo.sta_remote PyUrl.lib Demo.platform)
              1%nat Demo.root Demo.datastream_7
              Demo.fields_7 _).
    vm_compute; reflexivity.
Defined.

(* ===================================================================== *)
(** ** The URL of an STA client                                           *)
(* ===================================================================== *)

Section ClientUrl.

(** [(a + c + b).split(c)] is [a.split(c) + b.split(c)]. *)
Lemma rstrip_idempotent c s : Str.rstrip c (Str.rstrip c s) = Str.rstrip c s.
Proof.
  induction s as [|x s IH]; [reflexivity|].
  cbn [Str.rstrip].
  destruct (Str.rstrip c s) as [|y t] eqn:Ht.
  - destruct (Ascii.eqb x c) eqn:Hx; [reflexivity|].
    cbn [Str.rstrip]. rewrite Hx. reflexivity.
  - cbn [Str.rstrip]. cbn [Str.rstrip] in IH.
    change (match Str.rstrip c t with
            | "" => if Ascii.eqb y c then "" else String y ""
            | String a0 s0 => String y (String a0 s0)
            end) with (Str.rstrip c (String y t)).
    change (match Str.rstrip c t with
            | "" => if Ascii.eqb y c then "" else String y ""
            | String a0 s0 => String y (String a0 s0)
            end) with (Str.rstrip c (String y t)) in IH.
    rewrite IH. reflexivity.
Qed.

Lemma rstrip_app_char c s : Str.rstrip c (s ++ String c "") = Str.rstrip c s.
Proof.
  induction s as [|x s IH]; cbn [append Str.rstrip].
  - rewrite Ascii.eqb_refl. reflexivity.
  - rewrite IH. reflexivity.
Qed.

Lemma has_char_rstrip c d s :
  Str.has_char c s = false -> Str.has_char c (Str.rstrip d s) = false.
Proof.
  induction s as [|x s IH]; [reflexivity|].
  cbn [Str.has_char Str.rstrip]. intros H. apply orb_false_iff in H.
  destruct H as [Hx Hs]. specialize (IH Hs).
  destruct (Str.rstrip d s) as [|y t].
  - destruct (Ascii.eqb x d); [reflexivity|]. cbn [Str.has_char]. rewrite Hx. reflexivity.
  - cbn [Str.has_char] in *. rewrite Hx. exact IH.
Qed.

(** X18.  How the client constructor reads its URL.  Without a ['?'] the
    URL gets exactly one trailing slash, and building a client on that
    URL again changes nothing.  With exactly one ['?'] the URL is cut
    there and the part before it is kept as it is: no slash is added.
    With two or more ['?'] the constructor raises [ValueError]. *)
Theorem init_url_cases (timeout : Z) :
  (forall url,
      Str.has_char "?" url = false ->
      exists client,
        Sta.init url timeout = Ok client
        /\ Sta.self_url client = Str.rstrip "/" url ++ "/"
        /\ Sta.self_url_query_string client = None
        /\ Sta.init (Sta.self_url client) timeout = Ok client)
  /\ (forall u q,
      Str.has_char "?" u = false ->
      Str.has_char "?" q = false ->
      exists client,
        Sta.init (u ++ "?" ++ q) timeout = Ok client
        /\ Sta.self_url client = u
        /\ Sta.self_url_query_string client = Some q)
  /\ (forall u q r,
      Sta.init (u ++ "?" ++ q ++ "?" ++ r) timeout = Raise ValueError).
Proof.
  split; [|split].
  - intros url Hq. unfold Sta.init at 1. rewrite Hq.
    eexists. split; [reflexivity|]. cbn [Sta.self_url Sta.self_url_query_string].
    repeat split.
    unfold Sta.init.
    rewrite has_char_app, (has_char_rstrip _ _ _ Hq). cbn [Str.has_char orb].
    change (Ascii.eqb "/" "?") with false. cbn [orb].
    rewrite rstrip_app_char, rstrip_idempotent. reflexivity.
  - intros u q Hu Hq. rewrite (init_one_question u q timeout Hu Hq).
    eexists. repeat split.
  - intros u q r. apply init_two_questions.
Qed.

End ClientUrl.

(** X18 on a URL with two trailing slashes, on a proxied URL and on a URL
    with two question marks. *)
Lemma init_url_cases_witness :
  (exists client,
      Sta.init "http://sta.example/v1.1//" 30 = Ok client
      /\ Sta.self_url client = Str.rstrip "/" "http://sta.example/v1.1//" ++ "/"
      /\ Sta.self_url_query_string client = None
      /\ Sta.init (Sta.self_url client) 30 = Ok client)
  /\ (exists client,
      Sta.init ("http://proxy.example/proxy" ++ "?" ++ "url=http%3A%2F%2Fsta.example%2Fv1.1")
        30 = Ok client
      /\ Sta.self_url client = "http://proxy.example/proxy"
      /\ Sta.self_url_query_string client = Some "url=http%3A%2F%2Fsta.example%2Fv1.1")
  /\ Sta.init ("http://sta.example/v1.1" ++ "?" ++ "a=1" ++ "?" ++ "b=2") 30
     = Raise ValueError.
Proof.
  split; [|split].
  - apply (proj1 (init_url_cases 30) "http://sta.example/v1.1//"). reflexivity.
  - apply (proj1 (proj2 (init_url_cases 30))); reflexivity.
  - apply (proj2 (proj2 (init_url_cases 30))).
Defined.

Section ProxiedClient.
Context {U : UrlLib}.

(** X19.  What the STA factory builds behind a proxy.  The client URL
    handed to the constructor is the proxy base, ['?url='] and the quoted
    endpoint, so the constructor cuts it at the ['?']: the client's URL
    is the proxy base alone, without a trailing slash, and the endpoint
    sits only in the query-string attribute.  The URLs the client builds
    for its requests therefore start with the proxy base and do not hold
    the endpoint.  A proxy base that itself has a ['?'] makes the factory
    raise [ValueError]. *)
Theorem sta_client_behind_proxy url p timeout parsed :
  falsy (Some p) = false ->
  Str.startswith "http" url = true ->
  urlparse url = Ok parsed ->
  Str.has_char "?" (quote (urlunparse
      {| scheme := scheme parsed; netloc := netloc parsed; path := path parsed;
         params := params parsed; query := ""; fragment := fragment parsed |})) = false ->
  (Str.has_char "?" p = false ->
   exists base client,
     Sta.SensorThingsService url "1.1" timeout (Some p) = Ok (base, client)
     /\ Sta.self_url client = p
     /\ Sta.self_url_query_string client = Some ("url=" ++ quote base)
     /\ forall id, Sta.quoted_url client Sta.DATASTREAMS id
                   = JStr (p ++ "Datastreams('" ++ id ++ "')"))
  /\ (forall a b,
        p = a ++ "?" ++ b ->
        Sta.SensorThingsService url "1.1" timeout (Some p) = Raise ValueError).
Proof.
  intros Hp Hhttp Hparse Hquote.
  pose proof (sta_resolve_proxied url "1.1" p parsed Hp Hhttp Hparse) as Hres.
  split.
  - intros Hnoq.
    rewrite (sta_dispatch _ _ timeout _ _ _ _ Hres).
    change (in_list "1.1" ["1.1"]) with true. cbn iota.
    change (p ++ "?url=" ++ ?x) with (p ++ "?" ++ ("url=" ++ x)).
    rewrite init_one_question; [|exact Hnoq|].
    + do 2 eexists. split; [reflexivity|]. repeat split.
    + rewrite has_char_app. cbn [Str.has_char]. exact Hquote.
  - intros a b ->.
    rewrite (sta_dispatch _ _ timeout _ _ _ _ Hres).
    change (in_list "1.1" ["1.1"]) with true. cbn iota.
    match goal with
    | |- context [Sta.init ((a ++ "?" ++ b) ++ "?url=" ++ ?x) _] =>
        replace ((a ++ "?" ++ b) ++ "?url=" ++ x)
          with (a ++ "?" ++ b ++ "?" ++ ("url=" ++ x))
    end.
    + rewrite init_two_questions. reflexivity.
    + rewrite !append_assoc. reflexivity.
Qed.

End ProxiedClient.

(** X19 on the sample endpoint behind [http://proxy.example/proxy]. *)
Lemma sta_client_behind_proxy_witness :
  (exists base client,
     @Sta.SensorThingsService PyUrl.lib "http://sta.example/v1.1?key=1" "1.1" 30
       (Some "http://proxy.example/proxy") = Ok (base, client)
     /\ Sta.self_url client = "http://proxy.example/proxy"
     /\ Sta.self_url_query_string client = Some ("url=" ++ PyUrl.quote base)
     /\ forall id, Sta.quoted_url client Sta.DATASTREAMS id
                   = JStr ("http://proxy.example/proxy" ++ "Datastreams('" ++ id ++ "')"))
  /\ @Sta.SensorThingsService PyUrl.lib "http://sta.example/v1.1?key=1" "1.1" 30
       (Some ("http://proxy.example/proxy" ++ "?" ++ "token=1")) = Raise ValueError.
Proof.
  split.
  - refine (proj1 (@sta_client_behind_proxy PyUrl.lib "http://sta.example/v1.1?key=1"
                     "http://proxy.example/proxy" 30
                     {| scheme := "http"; netloc := "sta.example"; path := "/v1.1";
                        params := ""; query := "key=1"; fragment := "" |}
                     _ _ _ _) _);
      vm_compute; reflexivity.
  - refine (proj2 (@sta_client_behind_proxy PyUrl.lib "http://sta.example/v1.1?key=1"
                     ("http://proxy.example/proxy" ++ "?" ++ "token=1") 30
                     {| scheme := "http"; netloc := "sta.example"; path := "/v1.1";
                        params := ""; query := "key=1"; fragment := "" |}
                     _ _ _ _)
              "http://proxy.example/proxy" "token=1" eq_refl);
      vm_compute; reflexivity.
Defined.

(* ===================================================================== *)
(** ** Identifiers that are not text                                      *)
(* ===================================================================== *)

Section NumericIdentifiers.
Context {remote : Remote} {U : UrlLib} {P : Platform}.

Lemma names_for_datastream_text_only collection filter fuel svc id names :
  Sta.names_for_datastream collection filter fuel svc id = Ok names ->
  exists s, id = JStr s.
Proof.
  unfold Sta.names_for_datastream, str_add.
  destruct id; cbn [bind]; try discriminate. eauto.
Qed.

Lemma keywords_text_only fuel self id members :
  Sta.get_keywords_for_resource fuel self id = Ok members ->
  exists s, id = JStr s.
Proof.
  intros H. unfold Sta.get_keywords_for_resource in H. ok_all.
  match goal with
  | E : Sta.getObservedPropertyNamesForDatastream _ _ _ = Ok _ |- _ =>
      exact (names_for_datastream_text_only _ _ _ _ _ _ E)
  end.
Qed.

(** X20.  The client builds its per-datastream queries by string
    concatenation with the value under ['@iot.id'].  A datastream whose
    id the server reports as a number (or as anything but text) can
    therefore never be normalised, and harvesting it always raises and
    leaves the catalog as it was. *)
Theorem non_text_id_not_harvested fuel (self : Sta.StaServiceHandler)
    resource_id svc cat dataset_meta id :
  Sta.get_resource self resource_id = Ok dataset_meta ->
  getitem Sta.IOT_ID dataset_meta = Ok id ->
  (forall s, id <> JStr s) ->
  (forall members, Sta.get_keywords_for_resource fuel self id <> Ok members)
  /\ (forall rf, Sta.get_indexed_dataset_fields fuel self dataset_meta <> Ok rf)
  /\ exists e, Sta.harvest_resource fuel self resource_id svc cat = (Raise e, cat).
Proof.
  intros Hres Hid Hnum.
  assert (Hkw : forall members, Sta.get_keywords_for_resource fuel self id <> Ok members).
  { intros members H. destruct (keywords_text_only _ _ _ _ H) as [s ->].
    exact (Hnum s eq_refl). }
  assert (Hnorm : forall rf, Sta.get_indexed_dataset_fields fuel self dataset_meta <> Ok rf).
  { intros rf H. unfold Sta.get_indexed_dataset_fields in H. ok_all.
    match goal with
    | E : Sta.get_keywords_for_resource _ _ ?i = Ok ?m |- _ =>
        first [ exact (Hkw m E)
              | assert (i = id) by congruence; subst i; exact (Hkw m E) ]
    end. }
  split; [exact Hkw|]. split; [exact Hnorm|].
  unfold Sta.harvest_resource, io_bind, io_lift. rewrite Hres.
  destruct (Sta.get_indexed_dataset_fields fuel self dataset_meta) as [rf|e] eqn:E.
  - exfalso. exact (Hnorm rf eq_refl).
  - exists e. reflexivity.
Qed.

End NumericIdentifiers.

(** X20 on a datastream whose id is the number 5. *)
Lemma non_text_id_not_harvested_witness :
  (forall members,
      @Sta.get_keywords_for_resource Demo.numbered_remote PyUrl.lib Demo.platform 1
        Demo.sta_handler (JNum 5) <> Ok members)
  /\ (forall rf,
        @Sta.get_indexed_dataset_fields Demo.numbered_remote PyUrl.lib Demo.platform 1
          Demo.sta_handler Demo.datastream_5 <> Ok rf)
  /\ exists e,
       @Sta.harvest_resource Demo.numbered_remote PyUrl.lib Demo.platform 1
         Demo.sta_handler "5" Demo.service Demo.empty = (Raise e, Demo.empty).
Proof.
  refine (@non_text_id_not_harvested Demo.numbered_remote PyUrl.lib Demo.platform
            1%nat Demo.sta_handler "5" Demo.service Demo.empty Demo.datastream_5
            (JNum 5) _ _ _).
  - vm_compute; reflexivity.
  - vm_compute; reflexivity.
  - intros s; discriminate.
Defined.

(* ===================================================================== *)
(** ** Service-wide keywords and the SOS listing                          *)
(* ===================================================================== *)

Section ServiceWide.
Context {remote : Remote} {U : UrlLib} {P : Platform} {L : SosLib}.

(** X21.  The keywords of an STA service are the union of the names of
    its four collections: whenever [get_keywords] returns, each of the
    four name queries returned, no keyword is listed twice, and a text is
    a keyword exactly when it is a name of one of the four lists. *)
Theorem sta_get_keywords_union fuel (self : Sta.StaServiceHandler) keywords :
  Sta.get_keywords fuel self = Ok keywords ->
  exists svc observed features sensors things,
    Sta.parsed_service self = Ok svc
    /\ Sta.getObservedPropertyNames fuel svc = Ok observed
    /\ Sta.getFeatureOfInterestNames fuel svc = Ok features
    /\ Sta.getSensorNames fuel svc = Ok sensors
    /\ Sta.getThingNames fuel svc = Ok things
    /\ NoDup keywords
    /\ forall k, In (JStr k) keywords <->
                 In (JStr k) (observed ++ features ++ sensors ++ things)%list.
Proof.
  intros H. unfold Sta.get_keywords in H. ok_all.
  do 5 eexists.
  repeat (split; [first [reflexivity|eassumption]|]).
  split.
  - repeat match goal with
           | E : set_update _ _ = Ok ?r |- NoDup ?r =>
               apply (set_update_NoDup _ _ _ E)
           end.
    constructor.
  - intros k.
    repeat match goal with
           | E : set_update ?s ?xs = Ok ?r |- context [In (JStr k) ?r] =>
               rewrite (set_update_str_iff xs s r k E)
           end.
    rewrite !in_app_iff. cbn [In]. tauto.
Qed.

Lemma assoc_first_key {A : Type} (m : list (string * A)) k v :
  In (k, v) m -> exists v', assoc k m = Some v'.
Proof.
  induction m as [|[k' x] m IH]; [intros []|].
  intros [Heq|Hin]; cbn [assoc].
  - inversion Heq; subst. rewrite String.eqb_refl. eauto.
  - destruct (String.eqb k k'); [eauto|apply IH; exact Hin].
Qed.

Lemma assoc_In {A : Type} (m : list (string * A)) k v :
  assoc k m = Some v -> In (k, v) m.
Proof.
  induction m as [|[k' x] m IH]; cbn [assoc]; [discriminate|].
  destruct (String.eqb k k') eqn:Hk.
  - apply String.eqb_eq in Hk. intros [= ->]. left. subst. reflexivity.
  - intros H. right. apply IH. exact H.
Qed.

(** X22.  The three readers of an SOS service agree.  When the client is
    built, [get_resources] lists one entry per offering of [contents], in
    order, with the offering's id, name and description; [has_resources]
    is true exactly when that list is not empty; and when every offering
    is filed under its own id, each listed id is one [get_resource]
    resolves, to an offering with that id. *)
Theorem sos_listing_agrees (self : Sos.SosServiceHandler) svc :
  Sos.parsed_service self = Ok svc ->
  exists listed,
    Sos.get_resources self = Ok (Some listed)
    /\ map Sos.meta_id listed = map (fun kv => offering_id (snd kv)) (contents svc)
    /\ map Sos.meta_title listed = map (fun kv => offering_name (snd kv)) (contents svc)
    /\ map Sos.meta_abstract listed
       = map (fun kv => offering_description (snd kv)) (contents svc)
    /\ Sos.has_resources self = Ok (negb (Nat.eqb (List.length listed) 0))
    /\ (Forall (fun kv => fst kv = offering_id (snd kv)) (contents svc) ->
        forall m, In m listed ->
                  exists offering,
                    Sos.get_resource self (Sos.meta_id m) = Ok offering
                    /\ offering_id offering = Sos.meta_id m).
Proof.
  intros Hsvc.
  exists (Sos.parse_offerings (map snd (contents svc))).
  unfold Sos.get_resources, Sos.has_resources, Sos.get_resource, Sos.parse_offerings.
  rewrite Hsvc. cbn [bind Sta.except_Exception].
  split; [reflexivity|].
  rewrite !map_map. cbn [Sos.meta_id Sos.meta_title Sos.meta_abstract Sos.offering_meta].
  repeat (split; [reflexivity|]).
  split.
  - rewrite !length_map. destruct (contents svc); reflexivity.
  - intros Hkeys m Hm.
    apply in_map_iff in Hm. destruct Hm as ([k o] & <- & Hin).
    pose proof (proj1 (Forall_forall _ _) Hkeys _ Hin) as Hk. cbn [fst snd] in Hk.
    subst k. cbn [snd Sos.meta_id Sos.offering_meta].
    destruct (assoc_first_key _ _ _ Hin) as [o1 Ho1]. rewrite Ho1.
    exists o1. split; [reflexivity|].
    pose proof (proj1 (Forall_forall _ _) Hkeys _ (assoc_In _ _ _ Ho1)) as Hk1.
    cbn [fst snd] in Hk1. symmetry. exact Hk1.
Qed.

End ServiceWide.

(** X21 on a service whose collections share two names. *)
Lemma sta_get_keywords_union_witness :
  exists svc observed features sensors things,
    @Sta.parsed_service PyUrl.lib Demo.platform Demo.sta_handler = Ok svc
    /\ @Sta.getObservedPropertyNames (Demo.table_remote Demo.collection_pages) 1 svc
       = Ok observed
    /\ @Sta.getFeatureOfInterestNames (Demo.table_remote Demo.collection_pages) 1 svc
       = Ok features
    /\ @Sta.getSensorNames (Demo.table_remote Demo.collection_pages) 1 svc = Ok sensors
    /\ @Sta.getThingNames (Demo.table_remote Demo.collection_pages) 1 svc = Ok things
    /\ NoDup [JStr "temperature"; JStr "humidity"; JStr "station"; JStr "thermometer"]
    /\ forall k,
         In (JStr k) [JStr "temperature"; JStr "humidity"; JStr "station";
                      JStr "thermometer"]
         <-> In (JStr k) (observed ++ features ++ sensors ++ things)%list.
Proof.
  refine (@sta_get_keywords_union (Demo.table_remote Demo.collection_pages) PyUrl.lib
            Demo.platform 1%nat Demo.sta_handler
            [JStr "temperature"; JStr "humidity"; JStr "station"; JStr "thermometer"] _).
  vm_compute; reflexivity.
Defined.

(** X22 on the sample service and its three offerings. *)
Lemma sos_listing_agrees_witness :
  exists listed,
    @Sos.get_resources Demo.soslib PyUrl.lib Demo.sos_handler = Ok (Some listed)
    /\ map Sos.meta_id listed
       = map (fun kv => offering_id (snd kv)) (contents Demo.sos_client)
    /\ map Sos.meta_title listed
       = map (fun kv => offering_name (snd kv)) (contents Demo.sos_client)
    /\ map Sos.meta_abstract listed
       = map (fun kv => offering_description (snd kv)) (contents Demo.sos_client)
    /\ @Sos.has_resources Demo.soslib PyUrl.lib Demo.sos_handler
       = Ok (negb (Nat.eqb (List.length listed) 0))
    /\ (Forall (fun kv => fst kv = offering_id (snd kv)) (contents Demo.sos_client) ->
        forall m, In m listed ->
                  exists offering,
                    @Sos.get_resource Demo.soslib PyUrl.lib Demo.sos_handler
                      (Sos.meta_id m) = Ok offering
                    /\ offering_id offering = Sos.meta_id m).
Proof.
  refine (@sos_listing_agrees PyUrl.lib Demo.soslib Demo.sos_handler Demo.sos_client _).
  vm_compute; reflexivity.
Defined.

(* ===================================================================== *)
(** ** The box derived from the features of interest                      *)
(* ===================================================================== *)

Section DerivedBox.
Context {remote : Remote} {U : UrlLib} {P : Platform}.

(** X23.  For a datastream whose ['observedArea'] is [null] the box comes
    from the features of interest of the datastream.  Whenever
    [__get_bbox] returns, the box is [(min x, max x, min y, max y)] over
    the first and second coordinates of the features: each entry is a
    coordinate of some feature and bounds the others.  A datastream
    without features makes [min] raise [ValueError], and a feature
    listing without a ['value'] (the fetch returned [None]) makes the
    loop raise [TypeError]. *)
Theorem derived_bbox_cases fuel (self : Sta.StaServiceHandler) dataset_meta svc id :
  getitem "observedArea" dataset_meta = Ok JNull ->
  Sta.parsed_service self = Ok svc ->
  getitem Sta.IOT_ID dataset_meta = Ok id ->
  (Sta.getFeaturesForDatastream fuel svc id = Ok (JArr []) ->
   Sta.get_bbox fuel self dataset_meta = Raise ValueError)
  /\ (Sta.getFeaturesForDatastream fuel svc id = Ok JNull ->
      Sta.get_bbox fuel self dataset_meta = Raise TypeError)
  /\ (forall bbox,
        Sta.get_bbox fuel self dataset_meta = Ok bbox ->
        exists features items x_list y_list minx maxx miny maxy,
          Sta.getFeaturesForDatastream fuel svc id = Ok features
          /\ iter features = Ok items
          /\ Sta.feature_axes items = Ok (x_list, y_list)
          /\ List.length x_list = List.length items
          /\ List.length y_list = List.length items
          /\ bbox = [JNum minx; JNum maxx; JNum miny; JNum maxy]
          /\ (In minx x_list /\ forall x, In x x_list -> (minx <= x)%Q)
          /\ (In maxx x_list /\ forall x, In x x_list -> (x <= maxx)%Q)
          /\ (In miny y_list /\ forall y, In y y_list -> (miny <= y)%Q)
          /\ (In maxy y_list /\ forall y, In y y_list -> (y <= maxy)%Q)).
Proof.
  intros Harea Hsvc Hid. split; [|split].
  - intros Hfeatures. unfold Sta.get_bbox.
    rewrite Harea. cbn [bind is_None negb]. rewrite Hsvc, Hid. cbn [bind].
    rewrite Hfeatures. reflexivity.
  - intros Hfeatures. unfold Sta.get_bbox.
    rewrite Harea. cbn [bind is_None negb]. rewrite Hsvc, Hid. cbn [bind].
    rewrite Hfeatures. reflexivity.
  - intros bbox Hbox.
    destruct (get_bbox_derived fuel self dataset_meta bbox Harea Hbox)
      as (svc' & id' & features & items & x_list & y_list & minx & maxx & miny & maxy
          & Hsvc' & Hid' & Hf & Hit & Hax & Hb & Hminx & Hmaxx & Hminy & Hmaxy).
    assert (svc' = svc) by congruence. assert (id' = id) by congruence. subst svc' id'.
    exists features, items, x_list, y_list, minx, maxx, miny, maxy.
    assert (Hlen : List.length x_list = List.length items
                   /\ List.length y_list = List.length items).
    { clear -Hax. revert x_list y_list Hax.
      induction items as [|f items IH]; intros x_list y_list Hax;
        cbn [Sta.feature_axes] in Hax.
      - inversion Hax. split; reflexivity.
      - ok_all. destruct (IH _ _ eq_refl) as [Hx Hy]. cbn [List.length].
        split; congruence. }
    destruct Hlen as [Hlx Hly].
    repeat (split; [assumption|]). assumption.
Qed.

End DerivedBox.

(** X23 on datastream [9], whose three features are the points
    [(3, 5)], [(1, 8)] and [(2, 4)]. *)
Lemma derived_bbox_cases_witness :
  exists features items x_list y_list minx maxx miny maxy,
    @Sta.getFeaturesForDatastream Demo.sta_remote 1 Demo.client (JStr "9") = Ok features
    /\ iter features = Ok items
    /\ @Sta.feature_axes Demo.platform items = Ok (x_list, y_list)
    /\ List.length x_list = List.length items
    /\ List.length y_list = List.length items
    /\ [JNum 1; JNum 3; JNum 4; JNum 8] = [JNum minx; JNum maxx; JNum miny; JNum maxy]
    /\ (In minx x_list /\ forall x, In x x_list -> (minx <= x)%Q)
    /\ (In maxx x_list /\ forall x, In x x_list -> (x <= maxx)%Q)
    /\ (In miny y_list /\ forall y, In y y_list -> (miny <= y)%Q)
    /\ (In maxy y_list /\ forall y, In y y_list -> (y <= maxy)%Q).
Proof.
  refine (proj2 (proj2 (@derived_bbox_cases Demo.sta_remote PyUrl.lib Demo.platform
                          1%nat Demo.sta_handler Demo.datastream_9 Demo.client
                          (JStr "9") _ _ _))
            [JNum 1; JNum 3; JNum 4; JNum 8] _);
    vm_compute; reflexivity.
Defined.
